(** * Smart todo: the AI module (gateway, context processor, task analyzer)

    A shallow embedding of
      backend/ai_module/ai_client.py
      backend/ai_module/context_processor.py
      backend/ai_module/task_analyzer.py
    and the properties of their deterministic parts and of their
    fallback chain.

    Conventions of the embedding.
    - A Python [str] is a [string]; each [ascii] is one code point below
      256 (Latin-1), on which [lower], [isspace], [\w], [\s] and [\d] are
      the tables of CPython.
    - A Python [float] is the rational number it denotes ([Q]).  Literals
      and quotients of small integers are rounded by Python to the nearest
      double; rounding is monotone and keeps 0, 0.5 and 1, so the
      comparisons made here have the same outcome on the rationals.
    - A Python [set] of strings is a [gset string]; the order in which
      Python iterates over a set is not specified, so it is a parameter
      ([set_order]).
    - Calls that reach the network or the clock run in the monad [M] over
      a [World]; a Python exception is the [Raised] result. *)

From Stdlib Require Import ZArith QArith Qround Ascii String List Lia Sorted.
From Stdlib Require Import DecimalString DecimalPos.
From stdpp Require Import base gmap sets list strings.

Local Open Scope string_scope.
Local Open Scope Z_scope.

(** ** Python's built-in string operations *)

Module Py.

Definition code (c : ascii) : N := N_of_ascii c.

Definition in_range (lo hi : N) (c : ascii) : bool :=
  ((lo <=? code c) && (code c <=? hi))%N.

(** [str.lower] on one code point: A-Z, and the Latin-1 capitals
    U+00C0..U+00DE without the multiplication sign U+00D7. *)
Definition lower_char (c : ascii) : ascii :=
  if in_range 65 90 c || in_range 192 214 c || in_range 216 222 c
  then ascii_of_N (code c + 32)
  else c.

Fixpoint lower (s : string) : string :=
  match s with
  | EmptyString => EmptyString
  | String c s' => String (lower_char c) (lower s')
  end.

(** [str.isspace] on one code point; also the class [\s]. *)
Definition isspace (c : ascii) : bool :=
  in_range 9 13 c || in_range 28 32 c || (code c =? 133)%N || (code c =? 160)%N.

(** The class [\d]. *)
Definition isdigit (c : ascii) : bool := in_range 48 57 c.

(** The class [\w]: alphanumeric code points and the underscore. *)
Definition isword (c : ascii) : bool :=
  isdigit c || in_range 65 90 c || (code c =? 95)%N || in_range 97 122 c
  || (code c =? 170)%N || in_range 178 179 c || (code c =? 181)%N
  || in_range 185 186 c || in_range 188 190 c
  || in_range 192 214 c || in_range 216 246 c || in_range 248 255 c.

(** [sub in s] on strings. *)
Fixpoint str_in (sub s : string) : bool :=
  if String.prefix sub s then true
  else match s with
       | EmptyString => false
       | String _ s' => str_in sub s'
       end.

(** [any(word in text for word in words)]. *)
Definition any_in (words : list string) (text : string) : bool :=
  existsb (fun word => str_in word text) words.

(** [sum(1 for word in words if word in text)]. *)
Definition count_in (words : list string) (text : string) : nat :=
  length (List.filter (fun word => str_in word text) words).

(** [s.count(c)] for a one-character [c]. *)
Fixpoint count_char (c : ascii) (s : string) : nat :=
  match s with
  | EmptyString => O
  | String d s' => (if Ascii.eqb c d then 1 else 0)%nat + count_char c s'
  end.

(** [s[:n]]. *)
Fixpoint str_take (n : nat) (s : string) : string :=
  match n, s with
  | S k, String c s' => String c (str_take k s')
  | _, _ => EmptyString
  end.

Fixpoint lstrip (s : string) : string :=
  match s with
  | String c s' => if isspace c then lstrip s' else s
  | EmptyString => EmptyString
  end.

Fixpoint rstrip (s : string) : string :=
  match s with
  | EmptyString => EmptyString
  | String c s' =>
      match rstrip s' with
      | EmptyString => if isspace c then EmptyString else String c EmptyString
      | r => String c r
      end
  end.

(** [s.strip()]. *)
Definition strip (s : string) : string := rstrip (lstrip s).

(** [s.split(sep)] for a one-character separator: the fields between the
    separators, empty ones included, so never an empty list. *)
Fixpoint split_on (sep : ascii) (s : string) : list string :=
  match s with
  | EmptyString => [EmptyString]
  | String c s' =>
      if Ascii.eqb c sep then EmptyString :: split_on sep s'
      else match split_on sep s' with
           | f :: fs => String c f :: fs
           | [] => [String c EmptyString]
           end
  end.

(** [s.split()]: the maximal runs of characters that are not white
    space. [cur] is the run being read, reversed. *)
Fixpoint split_ws_aux (cur : list ascii) (s : string) : list string :=
  match s with
  | EmptyString =>
      match cur with [] => [] | _ => [string_of_list_ascii (rev cur)] end
  | String c s' =>
      if isspace c
      then match cur with
           | [] => split_ws_aux [] s'
           | _ => string_of_list_ascii (rev cur) :: split_ws_aux [] s'
           end
      else split_ws_aux (c :: cur) s'
  end.

Definition split_ws (s : string) : list string := split_ws_aux [] s.

(** [str(n)] and [f"{n}"] for an [int]. *)
Definition str_of_int (n : Z) : string :=
  NilZero.string_of_int (Z.to_int n).

(** The number that a string of ASCII digits denotes, read from the
    left. *)
Fixpoint int_of_digits_aux (acc : Z) (s : string) : option Z :=
  match s with
  | EmptyString => Some acc
  | String c s' =>
      if isdigit c
      then int_of_digits_aux (10 * acc + Z.of_N (code c - 48)) s'
      else None
  end.

Definition digits_value (s : string) : option Z :=
  match s with
  | EmptyString => None
  | _ => int_of_digits_aux 0 s
  end.

(** [sys.get_int_max_str_digits()], as Python sets it by default. *)
Definition int_max_str_digits : Z := 4300.

(** [int(s)] on a string of ASCII digits (what [\d+] matches here).
    [None] is the ValueError that [int] raises on the empty string and
    on a string of more digits than the limit, leading zeros counted. *)
Definition int_of_digits (s : string) : option Z :=
  if int_max_str_digits <? Z.of_nat (String.length s) then None
  else digits_value s.

(** [s * n]. *)
Fixpoint repeat (s : string) (n : nat) : string :=
  match n with
  | O => EmptyString
  | S n' => s +:+ repeat s n'
  end.

(** A [float]: the rational it denotes, in lowest terms, so that two
    floats are equal when they denote the same number. *)
Definition float := Q.

(** A literal such as [0.5]. *)
Definition lit (q : Q) : float := Qred q.

(** [a / b] on two [int]s with [b > 0]. *)
Definition truediv (a b : Z) : float := Qred (a # Z.to_pos b).

(** [float(s)] on a decimal numeral [digits.digits]; [float] puts no
    limit on the number of digits. *)
Definition float_of_decimal (s : string) : option float :=
  match split_on "." s with
  | [ip; fp] =>
      match digits_value ip, digits_value (ip +:+ fp), fp with
      | Some _, Some n, String _ _ =>
          Some (Qred (n # Pos.pow 10 (Pos.of_nat (String.length fp))))
      | _, _, _ => None
      end
  | _ => None
  end.

(** [sep.join(l)]. *)
Fixpoint join (sep : string) (l : list string) : string :=
  match l with
  | [] => EmptyString
  | [x] => x
  | x :: l' => x +:+ sep +:+ join sep l'
  end.

End Py.

(** ** The regular expressions of the module

    The patterns that the three files hand to [re] use literals, character
    classes, greedy repetition of a class, sequence, alternation and one
    optional capturing group.  [ways r s] lists the ways [r] matches a
    prefix of [s] in the order in which the backtracking matcher of [re]
    tries them, so its head is the match [re] reports at that position. *)

Module Re.

Inductive regex : Type :=
| Lit (s : string)
| Cls (p : ascii -> bool)
| Rep (p : ascii -> bool) (lo : nat) (hi : option nat)
| Seq (r1 r2 : regex)
| Alt (r1 r2 : regex)
| OptGroup (r : regex).

(** One way to match: the text consumed, the text left, and what group 1
    captured if it took part. *)
Definition way : Type := string * string * option string.

Fixpoint str_drop (n : nat) (s : string) : string :=
  match n, s with
  | S k, String _ s' => str_drop k s'
  | _, _ => s
  end.

Definition room (hi : option nat) : bool :=
  match hi with Some O => false | _ => true end.

Definition less (hi : option nat) : option nat :=
  match hi with Some n => Some (Nat.pred n) | None => None end.

(** [p{lo,hi}], the longest run first. *)
Fixpoint rep_ways (p : ascii -> bool) (lo : nat) (hi : option nat)
         (s : string) : list (string * string) :=
  (match s with
   | String c s' =>
       if p c && room hi
       then List.map (fun w => (String c (fst w), snd w))
                     (rep_ways p (Nat.pred lo) (less hi) s')
       else []
   | EmptyString => []
   end)
  ++ (match lo with O => [(EmptyString, s)] | S _ => [] end).

Definition first_some {A} (a b : option A) : option A :=
  match a with Some _ => a | None => b end.

Fixpoint ways (r : regex) (s : string) : list way :=
  match r with
  | Lit l =>
      if String.prefix l s then [(l, str_drop (String.length l) s, None)] else []
  | Cls p =>
      match s with
      | String c s' => if p c then [(String c EmptyString, s', None)] else []
      | EmptyString => []
      end
  | Rep p lo hi => List.map (fun w => (fst w, snd w, None)) (rep_ways p lo hi s)
  | Seq r1 r2 =>
      List.flat_map
        (fun w1 : way =>
           let '(m1, s1, g1) := w1 in
           List.map (fun w2 : way =>
                       let '(m2, s2, g2) := w2 in
                       (m1 +:+ m2, s2, first_some g2 g1))
                    (ways r2 s1))
        (ways r1 s)
  | Alt r1 r2 => ways r1 s ++ ways r2 s
  | OptGroup r1 =>
      List.map (fun w : way => let '(m, s1, _) := w in (m, s1, Some m)) (ways r1 s)
      ++ [(EmptyString, s, None)]
  end.

Fixpoint has_group (r : regex) : bool :=
  match r with
  | OptGroup _ => true
  | Seq r1 r2 | Alt r1 r2 => has_group r1 || has_group r2
  | _ => false
  end.

(** What [findall] reports for a match: group 1 when the pattern has a
    group (the empty string when the group took no part), the whole
    match otherwise. *)
Definition report (r : regex) (w : way) : string :=
  let '(m, _, g) := w in
  if has_group r then match g with Some t => t | None => EmptyString end else m.

(** The scan of [findall]: leftmost matches that do not overlap. [skip]
    counts the characters of the last match still to be passed. *)
Fixpoint scan (r : regex) (skip : nat) (s : string) : list string :=
  match skip with
  | S k =>
      match s with
      | String _ s' => scan r k s'
      | EmptyString => []
      end
  | O =>
      match ways r s with
      | w :: _ =>
          report r w ::
            match s with
            | String _ s' => scan r (Nat.pred (String.length (fst (fst w)))) s'
            | EmptyString => []
            end
      | [] =>
          match s with
          | String _ s' => scan r O s'
          | EmptyString => []
          end
      end
  end.

(** [re.findall(r, s)]. *)
Definition findall (r : regex) (s : string) : list string := scan r O s.

Definition digits (lo : nat) (hi : option nat) : regex := Rep Py.isdigit lo hi.

Fixpoint alts (l : list string) : regex :=
  match l with
  | [] => Lit EmptyString
  | [x] => Lit x
  | x :: l' => Alt (Lit x) (alts l')
  end.

End Re.

(** ** [datetime]

    A [datetime] is its proleptic Gregorian ordinal ([toordinal()]) and the
    microsecond within that day; [datetime.MAXYEAR] is not modelled, the
    clock is taken to be far from it. *)

Module Datetime.

Record datetime : Type := { ordinal : Z; usec : Z }.

(** [d + timedelta(days=n)]. *)
Definition add_days (d : datetime) (n : Z) : datetime :=
  {| ordinal := ordinal d + n; usec := usec d |}.


Definition days_before_month (m : Z) : Z :=
  nth (Z.to_nat m) [0; 0; 31; 59; 90; 120; 151; 181; 212; 243; 273; 304; 334] 0.

Definition days_in_month (m : Z) : Z :=
  nth (Z.to_nat m) [0; 31; 28; 31; 30; 31; 30; 31; 31; 30; 31; 30; 31] 0.

(** The function [_ord2ymd] of the [datetime] module. *)
Definition ord2ymd (n0 : Z) : Z * Z * Z :=
  let n := n0 - 1 in
  let n400 := n / 146097 in
  let n := n mod 146097 in
  let year := n400 * 400 + 1 in
  let n100 := n / 36524 in
  let n := n mod 36524 in
  let n4 := n / 1461 in
  let n := n mod 1461 in
  let n1 := n / 365 in
  let n := n mod 365 in
  let year := year + n100 * 100 + n4 * 4 + n1 in
  if (n1 =? 4) || (n100 =? 4) then (year - 1, 12, 31)
  else
    let leapyear := (n1 =? 3) && (negb (n4 =? 24) || (n100 =? 3)) in
    let month := Z.shiftr (n + 50) 5 in
    let preceding :=
      days_before_month month + (if (2 <? month) && leapyear then 1 else 0) in
    if n <? preceding
    then
      let month := month - 1 in
      let preceding :=
        preceding
        - (days_in_month month + (if (month =? 2) && leapyear then 1 else 0)) in
      (year, month, n - preceding + 1)
    else (year, month, n - preceding + 1).

Fixpoint zeros (k : nat) : string :=
  match k with O => EmptyString | S k' => String "0" (zeros k') end.

(** A field of [strftime]: decimal, padded with zeros to [width]. *)
Definition pad (width : nat) (n : Z) : string :=
  let d := Py.str_of_int n in
  zeros (width - String.length d) +:+ d.

(** [d.strftime("%Y-%m-%d")]. *)
Definition strftime_Ymd (d : datetime) : string :=
  let '(y, m, dd) := ord2ymd (ordinal d) in
  pad 4 y +:+ "-" +:+ pad 2 m +:+ "-" +:+ pad 2 dd.

(** [d.isoformat()]: the date, "T", the time of day, and the microseconds
    when there are some. *)
Definition isoformat (d : datetime) : string :=
  let '(y, m, dd) := ord2ymd (ordinal d) in
  let hour := usec d / 3600000000 in
  let minute := (usec d / 60000000) mod 60 in
  let second := (usec d / 1000000) mod 60 in
  let microsecond := usec d mod 1000000 in
  pad 4 y +:+ "-" +:+ pad 2 m +:+ "-" +:+ pad 2 dd +:+ "T"
  +:+ pad 2 hour +:+ ":" +:+ pad 2 minute +:+ ":" +:+ pad 2 second
  +:+ (if microsecond =? 0 then EmptyString else "." +:+ pad 6 microsecond).

End Datetime.

(** ** Effects: the network, the clock, exceptions *)

Module Run.
Import Datetime.

(** A call returns a value or raises; [Raised] carries [str(e)]. *)
Inductive result (A : Type) : Type :=
| Ok (a : A)
| Raised (msg : string).
Arguments Ok {A} a.
Arguments Raised {A} msg.

(** What [requests.post] does: it raises (no connection, time-out after
    30 seconds, ...) or returns a response.  [text] is the value of
    [response.json().get('choices', [{}])[0].get('text', '')] when that
    expression evaluates to a [str], and [None] when evaluating it or
    calling [.strip()] on it raises. *)
Inductive lm_reply : Type :=
| LmError (msg : string)
| LmResponse (status_code : Z) (text : option string).

(** What the body of the [try] of [call_openai] does up to [.strip()]:
    it raises ([import] fails, the request fails, no text in the
    answer) or reaches [response.choices[0].message.content]. *)
Inductive openai_reply : Type :=
| OaError (msg : string)
| OaContent (content : string).

Inductive request : Type :=
| PostLmStudio (url prompt : string) (max_tokens : Z)
| ChatOpenAI (key prompt : string) (max_tokens : Z).

(** The world a run talks to: what each service answers to the request
    it receives after [n] earlier requests, what the clock shows at its
    [n]-th reading; and what the run did so far. *)
Record World : Type := {
  lm_studio : nat -> string -> Z -> lm_reply;
  openai : nat -> string -> Z -> openai_reply;
  wall_clock : nat -> datetime;
  requests : list request;
  clock_reads : nat
}.

Definition M (A : Type) : Type := World -> result A * World.

Definition ret {A} (a : A) : M A := fun w => (Ok a, w).

Definition raise {A} (msg : string) : M A := fun w => (Raised msg, w).

Definition bind {A B} (m : M A) (f : A -> M B) : M B :=
  fun w => match m w with
           | (Ok a, w') => f a w'
           | (Raised e, w') => (Raised e, w')
           end.

(** [try: body  except ...: handler], for the handlers that catch what
    the body can raise. *)
Definition try_except {A} (body : M A) (handler : string -> M A) : M A :=
  fun w => match body w with
           | (Ok a, w') => (Ok a, w')
           | (Raised e, w') => handler e w'
           end.

Definition sent (q : request) (w : World) : World :=
  {| lm_studio := lm_studio w; openai := openai w; wall_clock := wall_clock w;
     requests := requests w ++ [q]; clock_reads := clock_reads w |}.

Definition post_lm_studio (url prompt : string) (max_tokens : Z) : M lm_reply :=
  fun w => (Ok (lm_studio w (length (requests w)) prompt max_tokens),
            sent (PostLmStudio url prompt max_tokens) w).

Definition chat_openai (key prompt : string) (max_tokens : Z) : M openai_reply :=
  fun w => (Ok (openai w (length (requests w)) prompt max_tokens),
            sent (ChatOpenAI key prompt max_tokens) w).

Definition tick (w : World) : World :=
  {| lm_studio := lm_studio w; openai := openai w;
     wall_clock := wall_clock w; requests := requests w;
     clock_reads := S (clock_reads w) |}.

(** [datetime.now()]. *)
Definition now : M datetime :=
  fun w => (Ok (wall_clock w (clock_reads w)), tick w).

End Run.

(** [x ← m; k] runs [m], then [k] unless [m] raised. *)
#[global] Instance M_ret : MRet Run.M := @Run.ret.
#[global] Instance M_bind : MBind Run.M := fun A B f m => Run.bind m f.

(** ** ai_client.py *)

Module AIClient.
Import Datetime Run.

(** The attributes that [__init__] reads from the environment. *)
Record AIClient : Type := {
  openai_key : option string;
  anthropic_key : option string;
  gemini_key : option string;
  lm_studio_url : string
}.

(** Truth value of [self.openai_key]: set and not empty. *)
Definition truthy (k : option string) : bool :=
  match k with
  | Some (String _ _) => true
  | _ => false
  end.

Definition unavailable : string := "Analysis unavailable - using defaults".

Definition _fallback_analysis (prompt : string) : M string :=
  if Py.str_in "priority" (Py.lower prompt) then ret "0.7"
  else if Py.str_in "deadline" (Py.lower prompt) then
    t ← now;
    let future_date := add_days t 3 in
    ret (strftime_Ymd future_date)
  else if Py.str_in "category" (Py.lower prompt) then ret "General"
  else if Py.str_in "tags" (Py.lower prompt) then ret "task, general"
  else ret unavailable.

Definition call_lm_studio (self : AIClient) (prompt : string)
           (max_tokens : Z) : M string :=
  try_except
    (response ← post_lm_studio (lm_studio_url self +:+ "/completions")
                                prompt max_tokens;
     match response with
     | LmError e => raise e
     | LmResponse status_code text =>
         if status_code =? 200
         then match text with
              | Some t => ret (Py.strip t)
              | None => raise "response body"
              end
         else _fallback_analysis prompt
     end)
    (fun e => _fallback_analysis prompt).

Definition call_openai (self : AIClient) (prompt : string)
           (max_tokens : Z) : M string :=
  if negb (truthy (openai_key self)) then call_lm_studio self prompt max_tokens
  else
    try_except
      (response ← chat_openai (default EmptyString (openai_key self))
                               prompt max_tokens;
       match response with
       | OaError e => raise e
       | OaContent c => ret (Py.strip c)
       end)
      (fun e => call_lm_studio self prompt max_tokens).

Definition analyze_with_ai (self : AIClient) (prompt : string)
           (max_tokens : Z) : M string :=
  result ← call_lm_studio self prompt max_tokens;
  if Py.str_in "Analysis unavailable" result && truthy (openai_key self)
  then call_openai self prompt max_tokens
  else ret result.

End AIClient.

(** The object behind [self.ai_client]: the one method the analyzers
    call.  [__init__] of both analyzers puts an [AIClient] there. *)
Module Gateway.

Record ai_client : Type := {
  analyze_with_ai : string -> Z -> Run.M string
}.

Definition of_client (c : AIClient.AIClient) : ai_client :=
  {| analyze_with_ai := AIClient.analyze_with_ai c |}.

End Gateway.

(** ** The text of the prompts *)

Module Text.

Definition nl : string := String (ascii_of_N 10) EmptyString.

Definition dquote : string := String (ascii_of_N 34) EmptyString.

(** The lines of a triple-quoted literal, joined by line feeds. *)
Fixpoint lines (l : list string) : string :=
  match l with
  | [] => EmptyString
  | [x] => x
  | x :: l' => x +:+ nl +:+ lines l'
  end.

Definition indent8 : string := "        ".
Definition indent12 : string := "            ".

End Text.

(** ** json *)

#[local] Set Warnings "-register-all".

Module Json.

Inductive value : Type :=
| Null
| Bool (b : bool)
| Number (q : Q)
| Str (s : string)
| Array (l : list value)
| Object (l : list (string * value)).

(** What [json.loads] does with a text. *)
Inductive loads_result : Type :=
| Parsed (v : value)
| JSONDecodeError (msg : string)
| OtherError (msg : string).

End Json.

(** ** context_processor.py *)

Module ContextProcessor.
Import Run.

Record ContextProcessor : Type := {
  ai_client : Gateway.ai_client;
  priority_keywords : list string
}.

Definition __init__ (client : Gateway.ai_client) : ContextProcessor :=
  {| ai_client := client;
     priority_keywords :=
       ["urgent"; "asap"; "immediately"; "deadline"; "due"; "important";
        "critical"; "priority"; "rush"; "emergency"; "today"; "tomorrow"] |}.

(** A context entry as the callers pass it: a dictionary, each key
    present or not. *)
Record Context : Type := {
  content : option string;
  keywords : option (list string);
  urgency_level : option Z;
  sentiment_score : option Py.float
}.

Inductive AiAnalysis : Type :=
| ai_insights (v : Json.value)
| raw_response (ai_response : string)
| error (msg : string).

(** The dictionary that [process_context_entry] returns. *)
Record Insights : Type := {
  i_keywords : list string;
  i_sentiment_score : Py.float;
  i_priority_indicators : list string;
  i_dates_mentioned : list string;
  i_word_count : Z;
  i_has_deadline_mention : bool;
  i_urgency_level : Z;
  i_ai_analysis : AiAnalysis
}.

(** An element of the list that [find_relevant_contexts] returns. *)
Record Match : Type := {
  context : Context;
  relevance_score : Py.float;
  matching_keywords : list string
}.

Definition stop_words : gset string :=
  list_to_set
    ["the"; "a"; "an"; "and"; "or"; "but"; "in"; "on"; "at"; "to"; "for";
     "of"; "with"; "by"; "from"; "as"; "is"; "are"; "was"; "were"; "be";
     "been"; "being"; "have"; "has"; "had"; "do"; "does"; "did"; "will";
     "would"; "could"; "should"; "may"; "might"; "can"; "this"; "that";
     "these"; "those"; "i"; "you"; "he"; "she"; "it"; "we"; "they"].

Definition positive_words : list string :=
  ["good"; "great"; "excellent"; "amazing"; "wonderful"; "fantastic";
   "love"; "like"; "enjoy"; "happy"; "excited"; "pleased"; "satisfied"].

Definition negative_words : list string :=
  ["bad"; "terrible"; "awful"; "hate"; "dislike"; "angry"; "frustrated";
   "upset"; "annoyed"; "disappointed"; "worried"; "stressed"; "urgent"].

(** [re.sub(r'[^\w\s]', ' ', s)]: the pattern is one character wide, so
    the substitution acts on each character. *)
Fixpoint sub_non_word (s : string) : string :=
  match s with
  | EmptyString => EmptyString
  | String c s' =>
      String (if Py.isword c || Py.isspace c then c else " "%char)
             (sub_non_word s')
  end.

Definition date_patterns : list Re.regex :=
  let d12 := Re.digits 1%nat (Some 2%nat) in
  let d4 := Re.digits 4%nat (Some 4%nat) in
  let d2 := Re.digits 2%nat (Some 2%nat) in
  [ Re.Seq d12 (Re.Seq (Re.Lit "/") (Re.Seq d12 (Re.Seq (Re.Lit "/") d4)));
    Re.Seq d12 (Re.Seq (Re.Lit "-") (Re.Seq d12 (Re.Seq (Re.Lit "-") d4)));
    Re.Seq d4 (Re.Seq (Re.Lit "-") (Re.Seq d12 (Re.Seq (Re.Lit "-") d12)));
    Re.alts ["today"; "tomorrow"; "yesterday"];
    Re.alts ["monday"; "tuesday"; "wednesday"; "thursday"; "friday";
             "saturday"; "sunday"];
    Re.alts ["next week"; "this week"; "next month"];
    Re.Seq d12 (Re.Seq (Re.Lit ":") (Re.Seq d2
      (Re.Seq (Re.Rep Py.isspace 0%nat None) (Re.OptGroup (Re.alts ["am"; "pm"]))))) ].

Definition analyze_sentiment (text : string) : Py.float :=
  let text_lower := Py.lower text in
  let positive_score := Py.count_in positive_words text_lower in
  let negative_score := Py.count_in negative_words text_lower in
  let total_score := (positive_score + negative_score)%nat in
  if (total_score =? 0)%nat then (Py.lit 0.5)
  else Py.truediv (Z.of_nat positive_score) (Z.of_nat total_score).

Definition extract_dates_and_times (text : string) : list string :=
  List.flat_map (fun pattern => Re.findall pattern (Py.lower text)) date_patterns.

Definition _calculate_urgency (text : string) : Z :=
  let urgency_score := 1 in
  let text_lower := Py.lower text in
  let urgency_score :=
    if Py.any_in ["urgent"; "asap"; "immediately"; "emergency"] text_lower
    then urgency_score + 4 else urgency_score in
  let urgency_score :=
    if Py.any_in ["important"; "priority"; "deadline"] text_lower
    then urgency_score + 2 else urgency_score in
  let urgency_score :=
    if Py.any_in ["today"; "now"; "tonight"] text_lower
    then urgency_score + 3
    else if Py.any_in ["tomorrow"; "this week"] text_lower
         then urgency_score + 2 else urgency_score in
  let urgency_score :=
    urgency_score + Z.min (Z.of_nat (Py.count_char "!" text)) 2 in
  Z.min urgency_score 10.

Definition detect_priority_indicators (self : ContextProcessor)
           (text : string) : list string :=
  let text_lower := Py.lower text in
  List.filter (fun keyword => Py.str_in keyword text_lower)
              (priority_keywords self).

(** [sort(key=lambda x: x['relevance_score'], reverse=True)]: the sort
    of Python is stable, also when reversed. *)
Fixpoint insert_desc (x : Match) (l : list Match) : list Match :=
  match l with
  | [] => [x]
  | y :: l' =>
      if Qle_bool (relevance_score y) (relevance_score x)
      then x :: y :: l'
      else y :: insert_desc x l'
  end.

Fixpoint sort_desc (l : list Match) : list Match :=
  match l with
  | [] => []
  | x :: l' => insert_desc x (sort_desc l')
  end.

Section Interpreter.

(** [list(s)] for a set [s]: the elements in the order of the hash
    table, which the language leaves open. *)
Variable set_order : gset string -> list string.

(** [json.loads]. *)
Variable json_loads : string -> Json.loads_result.

Definition extract_keywords (text : string) : list string :=
  let clean_text := sub_non_word (Py.lower text) in
  let words := Py.split_ws clean_text in
  let keywords :=
    List.filter
      (fun word => (2 <? String.length word)%nat
                   && negb (bool_decide (word ∈ stop_words)))
      words in
  take 10 (set_order (list_to_set keywords)).

(** The loop, the sort and the slice of [find_relevant_contexts], for
    the task keywords of its first line. *)
Definition rank_contexts (task_keywords : gset string)
           (context_entries : list Context) : list Match :=
  let relevant_contexts :=
    List.flat_map
      (fun context =>
         let context_keywords : gset string :=
           list_to_set (default [] (keywords context)) in
         let overlap := task_keywords ∩ context_keywords in
         let relevance_score :=
           Py.truediv (Z.of_nat (size overlap))
                      (Z.max (Z.of_nat (size task_keywords)) 1) in
         if negb (Qle_bool relevance_score (Py.lit 0.1))
         then [ {| context := context;
                   relevance_score := relevance_score;
                   matching_keywords := set_order overlap |} ]
         else [])
      context_entries in
  take 5 (sort_desc relevant_contexts).

Definition find_relevant_contexts (task_content : string)
           (context_entries : list Context) : list Match :=
  let task_keywords : gset string :=
    list_to_set (extract_keywords task_content) in
  rank_contexts task_keywords context_entries.

Definition ai_prompt (content source_type : string) : string :=
  Text.lines
    [ "";
      Text.indent12 +:+ "Analyze this " +:+ Py.lower source_type
        +:+ " message and extract key insights:";
      Text.indent12;
      Text.indent12 +:+ "Content: " +:+ Text.dquote +:+ content +:+ Text.dquote;
      Text.indent12;
      Text.indent12 +:+ "Please identify:";
      Text.indent12 +:+ "1. Main topic or subject";
      Text.indent12 +:+ "2. Any mentioned deadlines or time constraints";
      Text.indent12 +:+ "3. Priority level (1-10)";
      Text.indent12 +:+ "4. Relevant project or category";
      Text.indent12 +:+ "5. Action items mentioned";
      Text.indent12;
      Text.indent12 +:+ "Respond in JSON format with keys: topic, deadlines, priority, category, actions";
      Text.indent12 ].

Definition process_context_entry (self : ContextProcessor)
           (content source_type : string) : M Insights :=
  let keywords := extract_keywords content in
  let sentiment_score := analyze_sentiment content in
  let priority_indicators := detect_priority_indicators self content in
  let dates_mentioned := extract_dates_and_times content in
  let word_count := Z.of_nat (length (Py.split_ws content)) in
  let has_deadline_mention :=
    Py.any_in ["deadline"; "due"; "by"] (Py.lower content) in
  let urgency_level := _calculate_urgency content in
  ai_analysis ←
    try_except
      (ai_response ← Gateway.analyze_with_ai (ai_client self)
                       (ai_prompt content source_type) 500;
       match json_loads ai_response with
       | Json.Parsed ai_insights_ => ret (ai_insights ai_insights_)
       | Json.JSONDecodeError _ => ret (raw_response ai_response)
       | Json.OtherError e => raise e
       end)
      (fun e => ret (error e));
  ret {| i_keywords := keywords;
         i_sentiment_score := sentiment_score;
         i_priority_indicators := priority_indicators;
         i_dates_mentioned := dates_mentioned;
         i_word_count := word_count;
         i_has_deadline_mention := has_deadline_mention;
         i_urgency_level := urgency_level;
         i_ai_analysis := ai_analysis |}.

End Interpreter.

End ContextProcessor.

(** ** task_analyzer.py *)

Module TaskAnalyzer.
Import Datetime Run.

Record TaskAnalyzer : Type := {
  ai_client : Gateway.ai_client;
  context_processor : ContextProcessor.ContextProcessor
}.

Definition __init__ (client : Gateway.ai_client) : TaskAnalyzer :=
  {| ai_client := client;
     context_processor := ContextProcessor.__init__ client |}.

(** The pattern [0\.\d+|1\.0]. *)
Definition decimal_pattern : Re.regex :=
  Re.Alt (Re.Seq (Re.Lit "0.") (Re.digits 1%nat None)) (Re.Lit "1.0").

(** The pattern [\d+]. *)
Definition integer_pattern : Re.regex := Re.digits 1%nat None.

Definition _calculate_fallback_priority (title description : string) : Py.float :=
  let priority_score := (Py.lit 0.5) in
  let text := Py.lower (title +:+ " " +:+ description) in
  let priority_score :=
    if Py.any_in ["urgent"; "critical"; "asap"; "emergency"] text then (Py.lit 0.9)
    else if Py.any_in ["important"; "priority"; "deadline"] text then (Py.lit 0.7)
    else if Py.any_in ["meeting"; "call"; "presentation"] text then (Py.lit 0.6)
    else priority_score in
  priority_score.

Definition _calculate_fallback_deadline (description : string) : M datetime :=
  let text := Py.lower description in
  if Py.any_in ["urgent"; "asap"; "today"] text then
    t ← now; ret (add_days t 1)
  else if Py.any_in ["tomorrow"; "soon"] text then
    t ← now; ret (add_days t 2)
  else if Py.any_in ["week"; "weekly"] text then
    t ← now; ret (add_days t 7)
  else
    t ← now; ret (add_days t 3).

Definition _suggest_fallback_tags (title description : string) : list string :=
  let text := Py.lower (title +:+ " " +:+ description) in
  let tags : list string := [] in
  let tags :=
    if Py.any_in ["urgent"; "asap"; "critical"] text
    then (tags ++ ["urgent"])%list else tags in
  let tags :=
    if Py.any_in ["meeting"; "call"] text
    then (tags ++ ["meeting"])%list else tags in
  let tags :=
    if Py.any_in ["work"; "office"; "project"] text
    then (tags ++ ["work"])%list else tags in
  let tags :=
    if Py.any_in ["personal"; "home"; "family"] text
    then (tags ++ ["personal"])%list else tags in
  let tags :=
    if Py.any_in ["follow-up"; "followup"; "follow"] text
    then (tags ++ ["follow-up"])%list else tags in
  let tags :=
    match tags with
    | [] => (tags ++ ["task"])%list
    | _ => tags
    end in
  take 3 tags.

(** The text that [analyze_task_priority] builds from [context_data]. *)
Definition context_info (context_data : option (list ContextProcessor.Context))
  : string :=
  match context_data with
  | None | Some [] => EmptyString
  | Some context_data =>
      let recent_contexts :=
        take 3 (List.filter
                  (fun ctx => 5 <? default 0 (ContextProcessor.urgency_level ctx))
                  context_data) in
      match recent_contexts with
      | [] => EmptyString
      | _ =>
          fold_left
            (fun info ctx =>
               info +:+ "- "
               +:+ Py.str_take 100 (default EmptyString (ContextProcessor.content ctx))
               +:+ "..." +:+ Text.nl)
            recent_contexts
            (Text.nl +:+ "Recent important context:" +:+ Text.nl)
      end
  end.

Definition priority_prompt (task_title task_description : string)
           (context_data : option (list ContextProcessor.Context)) : string :=
  Text.lines
    [ "";
      Text.indent8 +:+ "Analyze the priority of this task on a scale of 0.0 to 1.0 (where 1.0 is highest priority):";
      Text.indent8;
      Text.indent8 +:+ "Task: " +:+ task_title;
      Text.indent8 +:+ "Description: " +:+ task_description;
      Text.indent8 +:+ context_info context_data;
      Text.indent8;
      Text.indent8 +:+ "Consider:";
      Text.indent8 +:+ "1. Urgency and deadlines";
      Text.indent8 +:+ "2. Impact and importance";
      Text.indent8 +:+ "3. Dependencies and context";
      Text.indent8 +:+ "4. Keywords indicating priority";
      Text.indent8;
      Text.indent8 +:+ "Respond with only a decimal number between 0.0 and 1.0";
      Text.indent8 ].

Definition analyze_task_priority (self : TaskAnalyzer)
           (task_title task_description : string)
           (context_data : option (list ContextProcessor.Context)) : M Py.float :=
  let prompt := priority_prompt task_title task_description context_data in
  try_except
    (result ← Gateway.analyze_with_ai (ai_client self) prompt 100;
     let numbers := Re.findall decimal_pattern result in
     match numbers with
     | n :: _ =>
         match Py.float_of_decimal n with
         | Some x => ret x
         | None => raise "ValueError"
         end
     | [] => ret (Py.lit 0.5)
     end)
    (fun _ => ret (_calculate_fallback_priority task_title task_description)).

Definition deadline_prompt (task_title task_description : string)
           (current_workload : Z) : string :=
  Text.lines
    [ "";
      Text.indent8 +:+ "Suggest a realistic deadline for this task. Consider the complexity and current workload.";
      Text.indent8;
      Text.indent8 +:+ "Task: " +:+ task_title;
      Text.indent8 +:+ "Description: " +:+ task_description;
      Text.indent8 +:+ "Current workload (1-10): " +:+ Py.str_of_int current_workload;
      Text.indent8;
      Text.indent8 +:+ "Based on the task complexity, suggest how many days from now this should be completed.";
      Text.indent8 +:+ "Respond with only a number (days from now).";
      Text.indent8 ].

Definition suggest_deadline (self : TaskAnalyzer)
           (task_title task_description : string)
           (current_workload : Z) : M datetime :=
  let prompt := deadline_prompt task_title task_description current_workload in
  try_except
    (result ← Gateway.analyze_with_ai (ai_client self) prompt 100;
     let days := Re.findall integer_pattern result in
     match days with
     | d :: _ =>
         match Py.int_of_digits d with
         | Some n =>
             let days_ahead := Z.min n 30 in
             t ← now; ret (add_days t days_ahead)
         | None => raise "ValueError"
         end
     | [] => t ← now; ret (add_days t 3)
     end)
    (fun _ => _calculate_fallback_deadline task_description).

Definition tags_prompt (task_title task_description : string) : string :=
  Text.lines
    [ "";
      Text.indent8 +:+ "Suggest 3-5 relevant tags for this task:";
      Text.indent8;
      Text.indent8 +:+ "Task: " +:+ task_title;
      Text.indent8 +:+ "Description: " +:+ task_description;
      Text.indent8;
      Text.indent8 +:+ "Respond with comma-separated tags (no spaces after commas).";
      Text.indent8 ].

Definition suggest_tags (self : TaskAnalyzer)
           (task_title task_description : string) : M (list string) :=
  let prompt := tags_prompt task_title task_description in
  try_except
    (result ← Gateway.analyze_with_ai (ai_client self) prompt 100;
     let tags :=
       List.map (fun tag => Py.lower (Py.strip tag)) (Py.split_on "," result) in
     ret (take 5 tags))
    (fun _ => ret (_suggest_fallback_tags task_title task_description)).

Definition _suggest_fallback_category (title description : string) : string :=
  let text := Py.lower (title +:+ " " +:+ description) in
  if Py.any_in ["meeting"; "call"; "discuss"] text then "Meetings"
  else if Py.any_in ["code"; "develop"; "program"; "bug"; "feature"] text
  then "Development"
  else if Py.any_in ["email"; "message"; "contact"; "reply"] text
  then "Communication"
  else if Py.any_in ["buy"; "purchase"; "shop"; "order"] text then "Shopping"
  else if Py.any_in ["health"; "doctor"; "exercise"; "medical"] text then "Health"
  else if Py.any_in ["clean"; "organize"; "home"; "house"] text then "Personal"
  else "General".

Definition categories_info (existing_categories : option (list string)) : string :=
  match existing_categories with
  | None | Some [] => EmptyString
  | Some existing_categories =>
      Text.nl +:+ "Existing categories: " +:+ Py.join ", " existing_categories
  end.

Definition category_prompt (task_title task_description : string)
           (existing_categories : option (list string)) : string :=
  Text.lines
    [ "";
      Text.indent8 +:+ "Suggest the most appropriate category for this task:";
      Text.indent8;
      Text.indent8 +:+ "Task: " +:+ task_title;
      Text.indent8 +:+ "Description: " +:+ task_description;
      Text.indent8 +:+ categories_info existing_categories;
      Text.indent8;
      Text.indent8 +:+ "Choose from existing categories if possible, or suggest a new one.";
      Text.indent8 +:+ "Respond with only the category name.";
      Text.indent8 ].

(** The text that [enhance_task_description] builds from the two most
    relevant contexts. *)
Definition relevant_info (relevant_contexts : option (list ContextProcessor.Match))
  : string :=
  match relevant_contexts with
  | None | Some [] => EmptyString
  | Some relevant_contexts =>
      fold_left
        (fun info ctx =>
           info +:+ "- "
           +:+ Py.str_take 150
                 (default EmptyString
                    (ContextProcessor.content (ContextProcessor.context ctx)))
           +:+ "..." +:+ Text.nl)
        (take 2 relevant_contexts)
        (Text.nl +:+ "Relevant context:" +:+ Text.nl)
  end.

Definition enhance_prompt (task_title original_description : string)
           (relevant_contexts : option (list ContextProcessor.Match)) : string :=
  Text.lines
    [ "";
      Text.indent8 +:+ "Enhance this task description with relevant details and context:";
      Text.indent8;
      Text.indent8 +:+ "Original Task: " +:+ task_title;
      Text.indent8 +:+ "Current Description: " +:+ original_description;
      Text.indent8 +:+ relevant_info relevant_contexts;
      Text.indent8;
      Text.indent8 +:+ "Provide an enhanced description that includes:";
      Text.indent8 +:+ "1. Clear objectives";
      Text.indent8 +:+ "2. Relevant context";
      Text.indent8 +:+ "3. Potential steps or considerations";
      Text.indent8;
      Text.indent8 +:+ "Keep it concise but informative (max 200 words).";
      Text.indent8 ].

Definition enhance_task_description (self : TaskAnalyzer)
           (task_title original_description : string)
           (relevant_contexts : option (list ContextProcessor.Match)) : M string :=
  let prompt := enhance_prompt task_title original_description relevant_contexts in
  try_except
    (result ← Gateway.analyze_with_ai (ai_client self) prompt 300;
     ret (Py.strip result))
    (fun _ =>
       ret (match original_description with
            | EmptyString => "Complete the task: " +:+ task_title
            | _ => original_description
            end)).

(** The dictionary that [get_comprehensive_task_analysis] returns. *)
Record Analysis : Type := {
  priority_score : Py.float;
  suggested_deadline : datetime;
  suggested_category : string;
  suggested_tags : list string;
  enhanced_description : string;
  relevant_contexts : list ContextProcessor.Match;
  analysis_timestamp : string
}.

Section Interpreter.

(** [list(s)] for a set [s], as in the context processor. *)
Variable set_order : gset string -> list string.

(** [str.title]. *)
Variable str_title : string -> string.

Definition suggest_category (self : TaskAnalyzer)
           (task_title task_description : string)
           (existing_categories : option (list string)) : M string :=
  let prompt := category_prompt task_title task_description existing_categories in
  try_except
    (result ← Gateway.analyze_with_ai (ai_client self) prompt 50;
     ret (str_title (Py.strip result)))
    (fun _ => ret (_suggest_fallback_category task_title task_description)).

Definition get_comprehensive_task_analysis (self : TaskAnalyzer)
           (task_title task_description : string)
           (context_entries : option (list ContextProcessor.Context))
           (existing_categories : option (list string))
           (current_workload : Z) : M Analysis :=
  let relevant_contexts :=
    match context_entries with
    | None | Some [] => []
    | Some entries =>
        let task_content := task_title +:+ " " +:+ task_description in
        ContextProcessor.find_relevant_contexts set_order task_content entries
    end in
  priority_score ←
    analyze_task_priority self task_title task_description context_entries;
  suggested_deadline ←
    suggest_deadline self task_title task_description current_workload;
  suggested_category ←
    suggest_category self task_title task_description existing_categories;
  suggested_tags ← suggest_tags self task_title task_description;
  enhanced_description ←
    enhance_task_description self task_title task_description
                             (Some relevant_contexts);
  t ← now;
  ret {| priority_score := priority_score;
         suggested_deadline := suggested_deadline;
         suggested_category := suggested_category;
         suggested_tags := suggested_tags;
         enhanced_description := enhanced_description;
         relevant_contexts := relevant_contexts;
         analysis_timestamp := isoformat t |}.

End Interpreter.

End TaskAnalyzer.

(** ** tasks/views.py and tasks/serializers.py: what they do with the
    results of the analyzers

    The rows of the database keep what is written to them; saving and
    querying are outside this development. *)

Module Views.
Import Run.

(** [TaskViewSet._get_priority_level]. *)
Definition _get_priority_level (score : Py.float) : string :=
  if Qle_bool (Py.lit 0.8) score then "URGENT"
  else if Qle_bool (Py.lit 0.6) score then "HIGH"
  else if Qle_bool (Py.lit 0.4) score then "MEDIUM"
  else "LOW".

(** A row of [ContextEntry]: the fields that the views write and read.
    [processed_insights] is [None] for the empty dictionary a row starts
    with. *)
Record ContextEntry : Type := {
  content : string;
  source_type : string;
  processed_insights : option ContextProcessor.Insights;
  keywords : string;
  sentiment_score : option Py.float;
  priority_indicators : list string
}.

Section Interpreter.
Variable set_order : gset string -> list string.
Variable json_loads : string -> Json.loads_result.

(** [ContextEntryViewSet.perform_create], from the saved row to the row
    it saves again. *)
Definition perform_create (processor : ContextProcessor.ContextProcessor)
           (context_entry : ContextEntry) : M ContextEntry :=
  insights ←
    ContextProcessor.process_context_entry
      set_order json_loads processor
      (content context_entry) (source_type context_entry);
  ret {| content := content context_entry;
         source_type := source_type context_entry;
         processed_insights := Some insights;
         keywords := Py.join "," (ContextProcessor.i_keywords insights);
         sentiment_score := Some (ContextProcessor.i_sentiment_score insights);
         priority_indicators := ContextProcessor.i_priority_indicators insights |}.

End Interpreter.

(** The loop that [ai_analysis], [reanalyze] and
    [TaskCreateSerializer.create] run over the recent rows. *)
Definition context_data (recent_contexts : list ContextEntry)
  : list ContextProcessor.Context :=
  List.map
    (fun ctx =>
       {| ContextProcessor.content := Some (content ctx);
          ContextProcessor.keywords :=
            Some (match keywords ctx with
                  | EmptyString => []
                  | k => Py.split_on "," k
                  end);
          ContextProcessor.urgency_level :=
            Some (match processed_insights ctx with
                  | Some insights => ContextProcessor.i_urgency_level insights
                  | None => 1
                  end);
          ContextProcessor.sentiment_score :=
            Some (match sentiment_score ctx with
                  | Some x => if Qeq_bool x 0 then Py.lit 0.5 else x
                  | None => Py.lit 0.5
                  end) |})
    recent_contexts.

End Views.

Module Serializers.

(** [','.join(analysis['suggested_tags'])], the text that
    [TaskCreateSerializer.create] and [reanalyze] store in
    [ai_suggested_tags]. *)
Definition ai_suggested_tags (a : TaskAnalyzer.Analysis) : string :=
  Py.join "," (TaskAnalyzer.suggested_tags a).

(** [TaskSerializer.get_tags_list] and [get_ai_suggested_tags_list], on the
    text of the column. *)
Definition get_tags_list (tags : string) : list string :=
  match tags with
  | EmptyString => []
  | _ =>
      List.filter (fun tag => negb (String.eqb tag EmptyString))
                  (List.map Py.strip (Py.split_on "," tags))
  end.

End Serializers.

(** ** Worlds used in the examples *)

Module Examples.
Import Datetime Run.

(** 3 November 2026, 09:00. *)
Definition morning : datetime := {| ordinal := 739923; usec := 32400000000 |}.

(** No service answers: every request to LM Studio is refused. *)
Definition offline : World :=
  {| lm_studio := fun _ _ _ => LmError "Connection refused";
     openai := fun _ _ _ => OaError "Connection refused";
     wall_clock := fun _ => morning;
     requests := [];
     clock_reads := O |}.

(** No key for the secondary provider. *)
Definition no_key : AIClient.AIClient :=
  {| AIClient.openai_key := None;
     AIClient.anthropic_key := None;
     AIClient.gemini_key := None;
     AIClient.lm_studio_url := "http://localhost:1234/v1" |}.

Definition with_key : AIClient.AIClient :=
  {| AIClient.openai_key := Some "sk-test";
     AIClient.anthropic_key := None;
     AIClient.gemini_key := None;
     AIClient.lm_studio_url := "http://localhost:1234/v1" |}.

Definition analyzer : TaskAnalyzer.TaskAnalyzer :=
  TaskAnalyzer.__init__ (Gateway.of_client no_key).

(** The primary endpoint answers with a text that contains the words
    "Analysis unavailable" and is not the sentinel of the gateway; the
    secondary provider answers "42". *)
Definition chatty : World :=
  {| lm_studio := fun _ _ _ => LmResponse 200 (Some "Analysis unavailable right now");
     openai := fun _ _ _ => OaContent "42";
     wall_clock := fun _ => morning;
     requests := [];
     clock_reads := O |}.

(** The primary endpoint answers with six tags. *)
Definition tagger : World :=
  {| lm_studio := fun _ _ _ =>
       LmResponse 200 (Some " Work, Urgent ,home,Email,Plan,extra ");
     openai := fun _ _ _ => OaError "Connection refused";
     wall_clock := fun _ => morning;
     requests := [];
     clock_reads := O |}.

(** A text that is no JSON: 3000 opening brackets. *)
Definition deep_answer : string := Py.repeat "[" 3000.

(** The primary endpoint answers with that text. *)
Definition nesting : World :=
  {| lm_studio := fun _ _ _ => LmResponse 200 (Some deep_answer);
     openai := fun _ _ _ => OaError "Connection refused";
     wall_clock := fun _ => morning;
     requests := [];
     clock_reads := O |}.

(** [json.loads] on a text made of opening brackets only. The decoder
    enters one level of recursion for each bracket: from 1000 brackets
    on, the default recursion limit of the interpreter (CPython 3.11),
    it raises RecursionError, which is no JSONDecodeError; with fewer,
    the text ends where a value is expected. Other texts are not used
    with this parser; it gives them as not decodable. *)
Definition loads_brackets (s : string) : Json.loads_result :=
  if String.eqb s (Py.repeat "[" (String.length s))
     && (1000 <=? Z.of_nat (String.length s))
  then Json.OtherError "maximum recursion depth exceeded while decoding a JSON array from a unicode string"
  else Json.JSONDecodeError "Expecting value".

(** Two context entries: one shares "meeting" with the task keywords
    meeting and project, the other shares nothing. *)
Definition lunch_entry : ContextProcessor.Context :=
  {| ContextProcessor.content := Some "Team meeting, then lunch";
     ContextProcessor.keywords := Some ["meeting"; "lunch"];
     ContextProcessor.urgency_level := Some 1;
     ContextProcessor.sentiment_score := Some (Py.lit 0.5) |}.

Definition budget_entry : ContextProcessor.Context :=
  {| ContextProcessor.content := Some "Budget review";
     ContextProcessor.keywords := Some ["budget"; "review"];
     ContextProcessor.urgency_level := Some 1;
     ContextProcessor.sentiment_score := Some (Py.lit 0.5) |}.

End Examples.

(** ** Vocabulary of the statements *)

Module Spec.
Import Datetime Run.

(** [sub] occurs in [s]. *)
Definition Contains (sub s : string) : Prop :=
  exists a b, s = a +:+ sub +:+ b.

(** One of [words] occurs in [text]. *)
Definition Mentions (words : list string) (text : string) : Prop :=
  exists word, In word words /\ Contains word text.

(** The primary endpoint fails: the request raises (network error,
    time-out), the status is not 200, or no text can be read from the
    body. *)
Definition lm_failed (r : lm_reply) : Prop :=
  match r with
  | LmError _ => True
  | LmResponse status_code text => status_code <> 200 \/ text = None
  end.

(** The requests made between two worlds of a run. *)
Definition new_requests (w w' : World) : list request :=
  drop (length (requests w)) (requests w').

Definition is_openai (q : request) : bool :=
  match q with ChatOpenAI _ _ _ => true | PostLmStudio _ _ _ => false end.

(** The fallback text of the gateway for a prompt, when the clock shows
    [t]: the tiers in the order of the specification. *)
Definition FallbackText (prompt : string) (t : datetime) (s : string) : Prop :=
  let p := Py.lower prompt in
  (Contains "priority" p -> s = "0.7")
  /\ (~ Contains "priority" p -> Contains "deadline" p ->
      s = strftime_Ymd (add_days t 3))
  /\ (~ Contains "priority" p -> ~ Contains "deadline" p ->
      Contains "category" p -> s = "General")
  /\ (~ Contains "priority" p -> ~ Contains "deadline" p ->
      ~ Contains "category" p -> Contains "tags" p -> s = "task, general")
  /\ (~ Contains "priority" p -> ~ Contains "deadline" p ->
      ~ Contains "category" p -> ~ Contains "tags" p ->
      s = "Analysis unavailable - using defaults").

(** Every request fails, now and later. *)
Definition all_down (w : World) : Prop :=
  (forall n prompt max_tokens, lm_failed (lm_studio w n prompt max_tokens))
  /\ (forall n prompt max_tokens,
        exists e, openai w n prompt max_tokens = OaError e).

(** The text [_fallback_analysis] returns when the clock shows [t]. *)
Definition fallback_string (prompt : string) (t : datetime) : string :=
  if Py.str_in "priority" (Py.lower prompt) then "0.7"
  else if Py.str_in "deadline" (Py.lower prompt) then strftime_Ymd (add_days t 3)
  else if Py.str_in "category" (Py.lower prompt) then "General"
  else if Py.str_in "tags" (Py.lower prompt) then "task, general"
  else AIClient.unavailable.

(** The services and the clock of a world do not change in a run. *)
Definition same_services (w w' : World) : Prop :=
  lm_studio w' = lm_studio w /\ openai w' = openai w
  /\ wall_clock w' = wall_clock w.

Fixpoint all_chars (P : ascii -> bool) (s : string) : bool :=
  match s with
  | EmptyString => true
  | String c s' => P c && all_chars P s'
  end.

(** A digit or the minus sign. *)
Definition numeric (c : ascii) : bool := Py.isdigit c || Ascii.eqb c "-".

(** Descending order of the scores. *)
Definition desc (a b : ContextProcessor.Match) : Prop :=
  (ContextProcessor.relevance_score b <= ContextProcessor.relevance_score a)%Q.

(** The relevance of one entry for a set of task keywords. *)
Definition score (task_keywords : gset string)
           (c : ContextProcessor.Context) : Py.float :=
  Py.truediv
    (Z.of_nat (size (task_keywords
                     ∩ list_to_set (default [] (ContextProcessor.keywords c)))))
    (Z.max (Z.of_nat (size task_keywords)) 1).

Definition well_scored (task_keywords : gset string)
           (entries : list ContextProcessor.Context)
           (m : ContextProcessor.Match) : Prop :=
  In (ContextProcessor.context m) entries
  /\ ContextProcessor.relevance_score m
     = score task_keywords (ContextProcessor.context m)
  /\ (0.1 < ContextProcessor.relevance_score m)%Q
  /\ (ContextProcessor.relevance_score m <= 1)%Q.

(** The urgency score in the words of the specification. *)
Definition calculateUrgency (text : string) : Z :=
  let t := Py.lower text in
  let high :=
    if Py.any_in ["urgent"; "asap"; "immediately"; "emergency"] t then 4 else 0 in
  let medium :=
    if Py.any_in ["important"; "priority"; "deadline"] t then 2 else 0 in
  let time :=
    if Py.any_in ["today"; "now"; "tonight"] t then 3
    else if Py.any_in ["tomorrow"; "this week"] t then 2 else 0 in
  Z.min (1 + high + medium + time + Z.min (Z.of_nat (Py.count_char "!" text)) 2) 10.

End Spec.

(** ** More vocabulary *)

Module Notions.
Import Run.

(** The entry passes the threshold of [find_relevant_contexts]. *)
Definition passes (task_keywords : gset string)
           (c : ContextProcessor.Context) : bool :=
  negb (Qle_bool (Spec.score task_keywords c) (Py.lit 0.1)).

(** The match that the loop of [find_relevant_contexts] appends for an
    entry. *)
Definition to_match (set_order : gset string -> list string)
           (task_keywords : gset string) (c : ContextProcessor.Context)
  : ContextProcessor.Match :=
  {| ContextProcessor.context := c;
     ContextProcessor.relevance_score := Spec.score task_keywords c;
     ContextProcessor.matching_keywords :=
       set_order (task_keywords
                  ∩ list_to_set (default [] (ContextProcessor.keywords c))) |}.

(** The match has the score [q]. *)
Definition scored (q : Q) (m : ContextProcessor.Match) : bool :=
  Qeq_bool (ContextProcessor.relevance_score m) q.

(** The text has no comma. *)
Definition comma_free (s : string) : bool :=
  Spec.all_chars (fun c => negb (Ascii.eqb c ",")) s.

Definition nonempty (s : string) : bool := negb (String.eqb s EmptyString).

(** The prompt mentions none of the four words that the fallback of the
    gateway looks for. *)
Definition plain_prompt (prompt : string) : Prop :=
  ~ Spec.Contains "priority" (Py.lower prompt)
  /\ ~ Spec.Contains "deadline" (Py.lower prompt)
  /\ ~ Spec.Contains "category" (Py.lower prompt)
  /\ ~ Spec.Contains "tags" (Py.lower prompt).

End Notions.

(** * Properties *)

(** ** Strings *)

Module PyFacts.
Import Py Spec.

Lemma app_nil_l (b : string) : EmptyString +:+ b = b.
Proof. reflexivity. Qed.

Lemma app_cons (x : ascii) (a b : string) :
  String x a +:+ b = String x (a +:+ b).
Proof. reflexivity. Qed.

(** [+:+] does not unfold under [simpl]; this does it. *)
Ltac app_simpl := rewrite ?app_nil_l, ?app_cons in *; simpl in *.

Lemma append_assoc (a b c : string) : (a +:+ b) +:+ c = a +:+ (b +:+ c).
Proof. induction a as [|x a IH]; app_simpl; [reflexivity | now rewrite IH]. Qed.

Lemma append_nil_r (a : string) : a +:+ EmptyString = a.
Proof. induction a as [|x a IH]; app_simpl; [reflexivity | now rewrite IH]. Qed.

Lemma prefix_spec (a s : string) :
  String.prefix a s = true <-> exists b, s = a +:+ b.
Proof.
  revert s; induction a as [|x a IH]; intros s.
  - split; [intros _; now exists s | intros _; now destruct s].
  - destruct s as [|y s]; simpl.
    + split; [discriminate | intros [b Hb]; discriminate].
    + destruct (ascii_dec x y) as [->|Hxy].
      * rewrite IH. split; intros [b Hb]; exists b; app_simpl; congruence.
      * split; [discriminate | intros [b Hb]; app_simpl; congruence].
Qed.

Lemma str_in_nil (sub : string) :
  str_in sub EmptyString = String.prefix sub EmptyString.
Proof. unfold str_in. now destruct (String.prefix sub EmptyString). Qed.

Lemma str_in_cons (sub : string) (y : ascii) (s : string) :
  str_in sub (String y s) = String.prefix sub (String y s) || str_in sub s.
Proof.
  change (str_in sub (String y s))
    with (if String.prefix sub (String y s) then true else str_in sub s).
  now destruct (String.prefix sub (String y s)).
Qed.

Lemma str_in_spec (sub s : string) : str_in sub s = true <-> Contains sub s.
Proof.
  unfold Contains. induction s as [|y s IH].
  - rewrite str_in_nil, prefix_spec. split.
    + intros [b Hb]. now exists EmptyString, b.
    + intros (a & b & H). destruct a; app_simpl; [now exists b | discriminate].
  - rewrite str_in_cons, orb_true_iff, IH, prefix_spec. split.
    + intros [[b Hb] | (a & b & ->)].
      * now exists EmptyString, b.
      * now exists (String y a), b.
    + intros (a & b & H). destruct a as [|x a]; app_simpl.
      * left. now exists b.
      * right. exists a, b. congruence.
Qed.

Lemma any_in_spec (words : list string) (text : string) :
  any_in words text = true <-> Mentions words text.
Proof.
  unfold any_in, Mentions. rewrite existsb_exists.
  split; intros (w & Hw & H); exists w; (split; [exact Hw|]);
    now apply str_in_spec.
Qed.

Lemma any_in_false (words : list string) (text : string) :
  any_in words text = false <-> ~ Mentions words text.
Proof.
  rewrite <- any_in_spec. destruct (any_in words text); split; congruence.
Qed.

Lemma Contains_app_l (sub a b : string) : Contains sub a -> Contains sub (a +:+ b).
Proof.
  intros (x & y & ->). exists x, (y +:+ b).
  now rewrite !append_assoc.
Qed.

Lemma Contains_app_r (sub a b : string) : Contains sub b -> Contains sub (a +:+ b).
Proof.
  intros (x & y & ->). exists (a +:+ x), y.
  now rewrite !append_assoc.
Qed.

Lemma lower_app (a b : string) : lower (a +:+ b) = lower a +:+ lower b.
Proof. induction a as [|x a IH]; app_simpl; [reflexivity | now rewrite IH]. Qed.

Lemma Contains_lower (sub s : string) :
  Contains sub s -> Contains (lower sub) (lower s).
Proof.
  intros (a & b & ->). exists (lower a), (lower b).
  now rewrite !lower_app.
Qed.

Lemma count_in_le (words : list string) (text : string) :
  (count_in words text <= length words)%nat.
Proof. unfold count_in. apply List.filter_length_le. Qed.

Lemma count_in_zero (words : list string) (text : string) :
  count_in words text = 0%nat <-> ~ Mentions words text.
Proof.
  unfold count_in, Mentions. induction words as [|w ws IH]; simpl.
  - split; [intros _ (w & [] & _) | reflexivity].
  - destruct (str_in w text) eqn:E; simpl.
    + split; [discriminate |].
      intros H; exfalso; apply H. exists w. split; [now left |].
      now apply str_in_spec.
    + rewrite IH. split; intros H (x & Hx & Hc); apply H.
      * destruct Hx as [<- | Hx].
        -- apply str_in_spec in Hc. congruence.
        -- now exists x.
      * exists x. split; [now right | exact Hc].
Qed.

End PyFacts.

(** ** The feature extractor *)

Module FeatureFacts.
Import Py Spec PyFacts ContextProcessor.

Lemma truediv_eq (a b : Z) : (truediv a b == a # Z.to_pos b)%Q.
Proof. apply Qred_correct. Qed.

Lemma truediv_range (a b : Z) :
  0 <= a <= b -> 0 < b -> (0 <= truediv a b <= 1)%Q.
Proof.
  intros Ha Hb. rewrite truediv_eq. unfold Qle; simpl.
  rewrite Z2Pos.id by lia. lia.
Qed.

(** C5. For every text, [_calculate_urgency] is the sum of the
    specification (base 1, +4 for urgent/asap/immediately/emergency, +2
    for important/priority/deadline, +3 for today/now/tonight or else +2
    for tomorrow/this week, plus at most 2 for exclamation marks),
    clamped to 10; it lies in [1,10]; and "URGENT!!! today" scores
    1+4+3+min(3,2) = 10. *)
Theorem calculate_urgency_range_and_formula (text : string) :
  _calculate_urgency text = calculateUrgency text
  /\ 1 <= _calculate_urgency text <= 10
  /\ count_char "!" "URGENT!!! today" = 3%nat
  /\ _calculate_urgency "URGENT!!! today" = 1 + 4 + 3 + Z.min 3 2
  /\ _calculate_urgency "URGENT!!! today" = 10.
Proof.
  repeat split; try reflexivity;
    unfold _calculate_urgency, calculateUrgency;
    repeat match goal with
           | |- context [any_in ?ws ?t] => destruct (any_in ws t)
           end; lia.
Qed.

(** C8. For every text, [analyze_sentiment] lies in [0,1]; it is exactly
    0.5 when no positive and no negative word occurs in the lower-cased
    text; otherwise it is positive/(positive+negative), the two counts
    being the numbers of listed words that occur in the lower-cased
    text. *)
Theorem analyze_sentiment_range_and_value (text : string) :
  let positive := count_in positive_words (lower text) in
  let negative := count_in negative_words (lower text) in
  (0 <= analyze_sentiment text <= 1)%Q
  /\ (~ Mentions positive_words (lower text) ->
      ~ Mentions negative_words (lower text) ->
      analyze_sentiment text = (Py.lit 0.5))
  /\ (Mentions positive_words (lower text)
      \/ Mentions negative_words (lower text) ->
      (analyze_sentiment text
       == Z.of_nat positive # Pos.of_nat (positive + negative))%Q)
  /\ (positive <= 13)%nat /\ (negative <= 13)%nat
  /\ analyze_sentiment "Nothing special here" = lit 0.5
  /\ analyze_sentiment "I LOVE it, but the ending is bad, awful" = (1 # 3)%Q
  /\ analyze_sentiment "Great work" = 1%Q
  /\ analyze_sentiment "This is urgent" = 0%Q.
Proof.
  intros positive negative.
  assert (Hrange : (0 <= analyze_sentiment text <= 1)%Q).
  { unfold analyze_sentiment. fold positive negative.
    destruct (Nat.eqb_spec (positive + negative) 0); [now vm_compute|].
    apply truediv_range; lia. }
  split; [exact Hrange|]. split; [|split; [|split; [|split]]].
  - intros Hp Hn. apply count_in_zero in Hp, Hn.
    unfold analyze_sentiment. now rewrite Hp, Hn.
  - intros H. unfold analyze_sentiment. fold positive negative.
    destruct (Nat.eqb_spec (positive + negative) 0) as [E|E].
    + exfalso. destruct H as [H|H]; revert H; apply count_in_zero;
        fold positive negative; lia.
    + rewrite truediv_eq. unfold Qeq; simpl.
      rewrite Z2Pos.id by lia. rewrite <- positive_nat_Z.
      rewrite Nat2Pos.id by lia. reflexivity.
  - apply (count_in_le positive_words).
  - apply (count_in_le negative_words).
  - repeat split; vm_compute; reflexivity.
Qed.

End FeatureFacts.

(** ** The relevance ranker *)

Module RankerFacts.
Import Py Spec PyFacts FeatureFacts ContextProcessor.

Lemma Qle_bool_false (x y : Q) : Qle_bool x y = false -> (y < x)%Q.
Proof.
  intros H. apply Qnot_le_lt. intros Hle.
  apply Qle_bool_iff in Hle. congruence.
Qed.

Lemma insert_desc_Forall (P : Match -> Prop) (x : Match) (l : list Match) :
  P x -> Forall P l -> Forall P (insert_desc x l).
Proof.
  intros Hx Hl. induction Hl as [|y l Hy Hl IH]; simpl.
  - now constructor.
  - destruct (Qle_bool (relevance_score y) (relevance_score x));
      repeat constructor; assumption.
Qed.

Lemma sort_desc_Forall (P : Match -> Prop) (l : list Match) :
  Forall P l -> Forall P (sort_desc l).
Proof.
  induction 1 as [|x l Hx Hl IH]; simpl; [constructor|].
  now apply insert_desc_Forall.
Qed.

Lemma insert_desc_length (x : Match) (l : list Match) :
  length (insert_desc x l) = S (length l).
Proof.
  induction l as [|y l IH]; simpl; [reflexivity|].
  destruct (Qle_bool _ _); simpl; [reflexivity | now rewrite IH].
Qed.

Lemma insert_desc_sorted (x : Match) (l : list Match) :
  StronglySorted desc l -> StronglySorted desc (insert_desc x l).
Proof.
  induction 1 as [|y l Hl IH Hy]; simpl.
  - repeat constructor.
  - destruct (Qle_bool (relevance_score y) (relevance_score x)) eqn:E.
    + apply Qle_bool_iff in E. constructor.
      * now constructor.
      * constructor; [exact E|].
        eapply Forall_impl; [exact Hy|].
        intros z Hz. unfold desc in *. now apply Qle_trans with (relevance_score y).
    + apply Qle_bool_false, Qlt_le_weak in E. constructor; [exact IH|].
      apply insert_desc_Forall; assumption.
Qed.

Lemma sort_desc_sorted (l : list Match) : StronglySorted desc (sort_desc l).
Proof.
  induction l as [|x l IH]; simpl; [constructor|].
  now apply insert_desc_sorted.
Qed.

Lemma take_sorted (n : nat) (l : list Match) :
  StronglySorted desc l -> StronglySorted desc (take n l).
Proof.
  intros H; revert n.
  induction H as [|x l Hl IH Hx]; intros [|n]; simpl; try constructor.
  - apply IH.
  - now apply Forall_take.
Qed.

Section Ranking.
Variable set_order : gset string -> list string.

Lemma score_le_1 (tk : gset string) (c : Context) : (score tk c <= 1)%Q.
Proof.
  unfold score. apply truediv_range; [|lia].
  assert (size (tk ∩ list_to_set (default [] (keywords c))) <= size tk)%nat
    by apply subseteq_size, intersection_subseteq_l.
  lia.
Qed.

Lemma rank_contexts_spec (tk : gset string) (entries : list Context) :
  let r := rank_contexts set_order tk entries in
  (length r <= 5)%nat
  /\ StronglySorted desc r
  /\ Forall (well_scored tk entries) r.
Proof.
  unfold rank_contexts. repeat split.
  - rewrite length_take. lia.
  - apply take_sorted, sort_desc_sorted.
  - apply Forall_take, sort_desc_Forall.
    apply List.Forall_forall. intros m Hm.
    apply List.in_flat_map in Hm as (c & Hc & Hm).
    fold (score tk c) in Hm.
    destruct (Qle_bool (score tk c) (lit 0.1)) eqn:E; simpl in Hm; [easy|].
    destruct Hm as [<- | []]. unfold well_scored; simpl.
    repeat split; [exact Hc | now apply Qle_bool_false | apply score_le_1].
Qed.

Lemma rank_contexts_empty (entries : list Context) :
  rank_contexts set_order ∅ entries = [].
Proof.
  unfold rank_contexts.
  match goal with
  | |- take 5 (sort_desc ?raw) = _ => assert (E : raw = [])
  end.
  { induction entries as [|c l IH]; [reflexivity|].
    cbn [List.flat_map]. rewrite IH, (left_absorb_L ∅ (∩)). reflexivity. }
  now rewrite E.
Qed.

(** C6. For every task text and list of context entries,
    [find_relevant_contexts] returns at most 5 matches, in descending
    order of relevance; each match is one of the entries, its score is
    |task keywords ∩ entry keywords| / max(|task keywords|, 1), above
    0.1 and at most 1.  Task keywords {meeting, project} against an
    entry with keywords {meeting, lunch} give 0.5 and the entry is
    kept, an entry without common keyword is left out, and no task
    keyword gives no match.  The last line runs the whole function on
    the text "Project meeting!" with the sets listed in the order of
    [elements]. *)
Theorem find_relevant_contexts_ranking
        (task_content : string) (context_entries : list Context) :
  let task_keywords : gset string :=
    list_to_set (extract_keywords set_order task_content) in
  let r := find_relevant_contexts set_order task_content context_entries in
  (length r <= 5)%nat
  /\ StronglySorted desc r
  /\ Forall (well_scored task_keywords context_entries) r
  /\ (task_keywords = ∅ -> r = [])
  /\ score {[ "meeting"; "project" ]} Examples.lunch_entry = (Py.lit 0.5)
  /\ List.map (fun m => (context m, relevance_score m))
              (rank_contexts set_order {[ "meeting"; "project" ]}
                             [Examples.budget_entry; Examples.lunch_entry])
     = [(Examples.lunch_entry, (Py.lit 0.5))]
  /\ rank_contexts set_order ∅ context_entries = []
  /\ find_relevant_contexts elements "Project meeting!"
                            [Examples.budget_entry; Examples.lunch_entry]
     = [ {| context := Examples.lunch_entry;
            relevance_score := lit 0.5;
            matching_keywords := ["meeting"] |} ].
Proof.
  intros tk r. subst r. unfold find_relevant_contexts. fold tk.
  destruct (rank_contexts_spec tk context_entries) as (H1 & H2 & H3).
  split; [exact H1|]. split; [exact H2|]. split; [exact H3|].
  split; [intros E; rewrite E; apply rank_contexts_empty|].
  split; [vm_compute; reflexivity|].
  split; [vm_compute; reflexivity|].
  split; [apply rank_contexts_empty | vm_compute; reflexivity].
Qed.

End Ranking.

End RankerFacts.

(** ** Dates as text *)

Module DatetimeFacts.
Import Py Spec PyFacts Datetime.

Lemma all_chars_app (P : ascii -> bool) (a b : string) :
  all_chars P (a +:+ b) = all_chars P a && all_chars P b.
Proof.
  induction a as [|x a IH]; app_simpl; [reflexivity|].
  rewrite IH. now rewrite andb_assoc.
Qed.

Lemma all_chars_Contains (P : ascii -> bool) (c : ascii) (sub s : string) :
  all_chars P s = true -> P c = false -> ~ Contains (String c sub) s.
Proof.
  intros Hs Hc (a & b & ->).
  rewrite all_chars_app, app_cons in Hs. simpl in Hs.
  rewrite Hc in Hs. rewrite andb_false_r in Hs. discriminate.
Qed.

Lemma string_of_uint_numeric (u : Decimal.uint) :
  all_chars numeric (NilEmpty.string_of_uint u) = true.
Proof. induction u; simpl; auto. Qed.

Lemma str_of_int_numeric (n : Z) : all_chars numeric (str_of_int n) = true.
Proof.
  unfold str_of_int, NilZero.string_of_int, NilZero.string_of_uint.
  destruct (Z.to_int n) as [u|u]; destruct u; simpl;
    auto using string_of_uint_numeric.
Qed.

Lemma zeros_numeric (k : nat) : all_chars numeric (zeros k) = true.
Proof. induction k; simpl; auto. Qed.

Lemma pad_numeric (k : nat) (n : Z) : all_chars numeric (pad k n) = true.
Proof.
  unfold pad. now rewrite all_chars_app, zeros_numeric, str_of_int_numeric.
Qed.

Lemma strftime_numeric (d : datetime) :
  all_chars numeric (strftime_Ymd d) = true.
Proof.
  unfold strftime_Ymd. destruct (ord2ymd (ordinal d)) as [[y m] dd].
  now rewrite !all_chars_app, !pad_numeric.
Qed.

(** A date never reads as the sentinel of the gateway. *)
Lemma strftime_not_unavailable (d : datetime) :
  str_in "Analysis unavailable" (strftime_Ymd d) = false.
Proof.
  destruct (str_in _ _) eqn:E; [|reflexivity].
  apply str_in_spec in E. exfalso. revert E.
  apply all_chars_Contains with (P := numeric);
    [apply strftime_numeric | reflexivity].
Qed.

End DatetimeFacts.

(** ** The gateway *)

Module GatewayFacts.
Import Py Spec PyFacts Datetime Run AIClient.

Ltac run_unfold :=
  unfold mbind, M_bind, mret, M_ret, Run.bind, Run.ret, Run.raise,
    Run.try_except, Run.post_lm_studio, Run.chat_openai, Run.now in *.

Lemma fallback_string_spec (prompt : string) (t : datetime) :
  FallbackText prompt t (fallback_string prompt t).
Proof.
  unfold FallbackText, fallback_string.
  destruct (str_in "priority" (lower prompt)) eqn:E1;
    [| destruct (str_in "deadline" (lower prompt)) eqn:E2;
       [| destruct (str_in "category" (lower prompt)) eqn:E3;
          [| destruct (str_in "tags" (lower prompt)) eqn:E4]]];
    repeat match goal with
           | H : str_in _ _ = true |- _ => apply str_in_spec in H
           | H : str_in ?a ?b = false |- _ =>
               assert (~ Contains a b)
                 by (rewrite <- str_in_spec; congruence);
               clear H
           end;
    repeat split; intros; try reflexivity; contradiction.
Qed.

Lemma fallback_analysis_run (prompt : string) (w : World) :
  exists w',
    _fallback_analysis prompt w
    = (Ok (fallback_string prompt (wall_clock w (clock_reads w))), w')
    /\ requests w' = requests w /\ same_services w w'.
Proof.
  unfold _fallback_analysis, fallback_string, same_services. run_unfold.
  repeat match goal with
         | |- context [if ?b then _ else _] => destruct b
         end;
    eexists; (split; [reflexivity | simpl; auto]).
Qed.

Lemma call_lm_studio_run (self : AIClient) (prompt : string)
      (max_tokens : Z) (w : World) :
  let reply := lm_studio w (length (requests w)) prompt max_tokens in
  let q := PostLmStudio (lm_studio_url self +:+ "/completions") prompt max_tokens in
  exists s w',
    call_lm_studio self prompt max_tokens w = (Ok s, w')
    /\ requests w' = (requests w ++ [q])%list
    /\ same_services w w'
    /\ (lm_failed reply ->
        s = fallback_string prompt (wall_clock w (clock_reads w)))
    /\ (forall t, reply = LmResponse 200 (Some t) ->
        s = strip t /\ clock_reads w' = clock_reads w).
Proof.
  intros reply q. subst reply. unfold call_lm_studio. run_unfold. fold q.
  destruct (fallback_analysis_run prompt (sent q w)) as (w' & Hf & Hr & Hs).
  simpl in Hf, Hr. unfold same_services in *. simpl in Hs.
  destruct (lm_studio w (length (requests w)) prompt max_tokens)
    as [e | code [t|]]; simpl.
  - exists (fallback_string prompt (wall_clock w (clock_reads w))), w'.
    rewrite Hf. split; [reflexivity|]. split; [exact Hr|].
    split; [exact Hs|]. split; [reflexivity | discriminate].
  - destruct (Z.eqb_spec code 200) as [->|Hc].
    + exists (strip t), (sent q w). simpl.
      split; [reflexivity|]. split; [reflexivity|].
      split; [auto|]. split.
      * intros [H|H]; congruence.
      * intros t' [= ->]. auto.
    + exists (fallback_string prompt (wall_clock w (clock_reads w))), w'.
      rewrite Hf. split; [reflexivity|]. split; [exact Hr|].
      split; [exact Hs|]. split; [reflexivity | congruence].
  - exists (fallback_string prompt (wall_clock w (clock_reads w))), w'.
    destruct (Z.eqb_spec code 200) as [->|Hc]; rewrite Hf;
      (split; [reflexivity|]); (split; [exact Hr|]);
      (split; [exact Hs|]); (split; [reflexivity | discriminate]).
Qed.

Lemma analyze_with_ai_unfold (self : AIClient) (prompt : string)
      (max_tokens : Z) (w w1 : World) (r1 : string) :
  call_lm_studio self prompt max_tokens w = (Ok r1, w1) ->
  analyze_with_ai self prompt max_tokens w
  = if str_in "Analysis unavailable" r1 && truthy (openai_key self)
    then call_openai self prompt max_tokens w1
    else (Ok r1, w1).
Proof.
  intros H. unfold analyze_with_ai. run_unfold. rewrite H.
  now destruct (str_in _ r1 && _).
Qed.

Lemma call_openai_unfold (self : AIClient) (prompt : string)
      (max_tokens : Z) (w : World) :
  truthy (openai_key self) = true ->
  let q := ChatOpenAI (default EmptyString (openai_key self)) prompt max_tokens in
  call_openai self prompt max_tokens w
  = match openai w (length (requests w)) prompt max_tokens with
    | OaContent c => (Ok (strip c), sent q w)
    | OaError _ => call_lm_studio self prompt max_tokens (sent q w)
    end.
Proof.
  intros H q. unfold call_openai. rewrite H. simpl. run_unfold. fold q.
  now destruct (openai w _ _ _).
Qed.

Lemma call_openai_ok (self : AIClient) (prompt : string)
      (max_tokens : Z) (w : World) :
  exists s w', call_openai self prompt max_tokens w = (Ok s, w').
Proof.
  destruct (truthy (openai_key self)) eqn:E.
  - rewrite call_openai_unfold by exact E.
    destruct (openai w _ _ _).
    + destruct (call_lm_studio_run self prompt max_tokens
                  (sent (ChatOpenAI (default EmptyString (openai_key self))
                                    prompt max_tokens) w))
        as (s & w' & H & _).
      now exists s, w'.
    + now eexists _, _.
  - unfold call_openai. rewrite E. simpl.
    destruct (call_lm_studio_run self prompt max_tokens w) as (s & w' & H & _).
    now exists s, w'.
Qed.

Lemma unavailable_in_fallback (prompt : string) (t : datetime) :
  str_in "Analysis unavailable" (fallback_string prompt t) = true ->
  fallback_string prompt t = unavailable.
Proof.
  unfold fallback_string.
  repeat match goal with
         | |- context [if ?b then _ else _] => destruct b
         end; try reflexivity; try discriminate.
  now rewrite DatetimeFacts.strftime_not_unavailable.
Qed.

Lemma fallback_string_no_clock (prompt : string) (t t' : datetime) :
  fallback_string prompt t = unavailable ->
  fallback_string prompt t' = unavailable.
Proof.
  unfold fallback_string.
  repeat match goal with
         | |- context [if ?b then _ else _] => destruct b
         end; try reflexivity; try discriminate.
  intros H.
  assert (E : str_in "Analysis unavailable" (strftime_Ymd (add_days t 3)) = true)
    by now rewrite H.
  now rewrite DatetimeFacts.strftime_not_unavailable in E.
Qed.

Lemma new_requests_app (w w' : World) (l : list request) :
  requests w' = (requests w ++ l)%list -> new_requests w w' = l.
Proof. intros H. unfold new_requests. rewrite H. apply drop_app_length. Qed.

(** C4, as amended. The gateway asks the primary endpoint first. It asks
    the secondary provider, and uses its answer, exactly when the result
    of the primary call contains the words "Analysis unavailable" and a
    key for the secondary provider is set and not empty. When the
    secondary attempt fails, the result is that of a new call of the
    primary (its answer or the local fallback), never an exception. *)
Theorem fallback_chain_order (self : AIClient) (prompt : string)
        (max_tokens : Z) (w : World) :
  let q1 := PostLmStudio (lm_studio_url self +:+ "/completions") prompt max_tokens in
  let q2 := ChatOpenAI (default EmptyString (openai_key self)) prompt max_tokens in
  exists r1 w1 s w',
    call_lm_studio self prompt max_tokens w = (Ok r1, w1)
    /\ analyze_with_ai self prompt max_tokens w = (Ok s, w')
    /\ (exists rest, new_requests w w' = q1 :: rest)
    /\ (existsb is_openai (new_requests w w') = true
        <-> Contains "Analysis unavailable" r1
            /\ truthy (openai_key self) = true)
    /\ (existsb is_openai (new_requests w w') = false -> s = r1 /\ w' = w1)
    /\ (existsb is_openai (new_requests w w') = true ->
        match openai w (S (length (requests w))) prompt max_tokens with
        | OaContent c => s = strip c /\ new_requests w w' = [q1; q2]
        | OaError _ =>
            new_requests w w' = [q1; q2; q1]
            /\ call_lm_studio self prompt max_tokens (sent q2 w1) = (Ok s, w')
        end).
Proof.
  intros q1 q2.
  destruct (call_lm_studio_run self prompt max_tokens w)
    as (r1 & w1 & H1 & Hr1 & Hs1 & _).
  fold q1 in Hr1. exists r1, w1.
  rewrite (analyze_with_ai_unfold _ _ _ _ _ _ H1).
  assert (Ho : openai w1 (length (requests w1)) prompt max_tokens
               = openai w (S (length (requests w))) prompt max_tokens).
  { destruct Hs1 as (_ & -> & _). rewrite Hr1, length_app. simpl.
    f_equal. lia. }
  destruct (str_in "Analysis unavailable" r1) eqn:Ein;
    destruct (truthy (openai_key self)) eqn:Ek; simpl.
  - rewrite call_openai_unfold by exact Ek. fold q2. rewrite Ho.
    destruct (openai w (S (length (requests w))) prompt max_tokens) as [e|c].
    + destruct (call_lm_studio_run self prompt max_tokens (sent q2 w1))
        as (s & w' & H2 & Hr2 & _).
      fold q1 in Hr2. simpl in Hr2. rewrite Hr1 in Hr2.
      rewrite <- !app_assoc in Hr2. simpl in Hr2.
      apply new_requests_app in Hr2.
      exists s, w'. rewrite Hr2. simpl.
      split; [exact H1|]. split; [exact H2|]. split; [eauto|].
      split; [rewrite <- str_in_spec; tauto|].
      split; [discriminate | auto].
    + exists (strip c), (sent q2 w1).
      assert (Hr2 : new_requests w (sent q2 w1) = [q1; q2]).
      { apply new_requests_app. simpl. rewrite Hr1.
        now rewrite <- app_assoc. }
      rewrite Hr2. simpl.
      split; [exact H1|]. split; [reflexivity|]. split; [eauto|].
      split; [rewrite <- str_in_spec; tauto|].
      split; [discriminate | auto].
  - exists r1, w1. rewrite (new_requests_app _ _ _ Hr1). simpl.
    split; [exact H1|]. split; [reflexivity|]. split; [eauto|].
    split; [split; [discriminate | intros [_ ?]; discriminate]|].
    split; [auto | discriminate].
  - exists r1, w1. rewrite (new_requests_app _ _ _ Hr1). simpl.
    split; [exact H1|]. split; [reflexivity|]. split; [eauto|].
    split; [split; [discriminate|]|].
    + intros [Hc _]. apply str_in_spec in Hc. congruence.
    + split; [auto | discriminate].
  - exists r1, w1. rewrite (new_requests_app _ _ _ Hr1). simpl.
    split; [exact H1|]. split; [reflexivity|]. split; [eauto|].
    split; [split; [discriminate | intros [_ ?]; discriminate]|].
    split; [auto | discriminate].
Qed.

(** C4, as stated, fails: the primary endpoint answers "Analysis
    unavailable right now", which is not the sentinel of the gateway, and
    the secondary provider is asked all the same and its answer "42" is
    the result. *)
Lemma chain_taken_without_sentinel :
  exists r1 w1 s w',
    call_lm_studio Examples.with_key "hello" 100 Examples.chatty = (Ok r1, w1)
    /\ r1 <> unavailable
    /\ analyze_with_ai Examples.with_key "hello" 100 Examples.chatty = (Ok s, w')
    /\ existsb is_openai (new_requests Examples.chatty w') = true
    /\ s = "42".
Proof.
  eexists _, _, _, _.
  split; [vm_compute; reflexivity|].
  split; [discriminate|].
  split; [vm_compute; reflexivity|].
  split; reflexivity.
Qed.

Lemma analyze_with_ai_ok (self : AIClient) (prompt : string)
      (max_tokens : Z) (w : World) :
  exists s w', analyze_with_ai self prompt max_tokens w = (Ok s, w').
Proof.
  destruct (call_lm_studio_run self prompt max_tokens w)
    as (r1 & w1 & H1 & _).
  rewrite (analyze_with_ai_unfold _ _ _ _ _ _ H1).
  destruct (str_in _ r1 && _); [apply call_openai_ok | now exists r1, w1].
Qed.

Lemma analyze_with_ai_down (self : AIClient) (prompt : string)
      (max_tokens : Z) (w : World) :
  lm_failed (lm_studio w (length (requests w)) prompt max_tokens) ->
  (str_in "Analysis unavailable"
          (fallback_string prompt (wall_clock w (clock_reads w))) = true ->
   truthy (openai_key self) = false \/ all_down w) ->
  exists w',
    analyze_with_ai self prompt max_tokens w
    = (Ok (fallback_string prompt (wall_clock w (clock_reads w))), w').
Proof.
  intros Hf Hk.
  destruct (call_lm_studio_run self prompt max_tokens w)
    as (r1 & w1 & H1 & Hr1 & Hs1 & Hfb & _).
  specialize (Hfb Hf). subst r1.
  rewrite (analyze_with_ai_unfold _ _ _ _ _ _ H1).
  set (t := wall_clock w (clock_reads w)) in *.
  destruct (str_in "Analysis unavailable" (fallback_string prompt t)) eqn:Ein;
    simpl; [|now exists w1].
  destruct (truthy (openai_key self)) eqn:Ek; [|now exists w1].
  destruct (Hk eq_refl) as [Hk' | [Hlm Hoa]]; [discriminate|].
  rewrite call_openai_unfold by exact Ek.
  destruct Hs1 as (Hs_lm & Hs_oa & Hs_clock).
  rewrite Hs_oa.
  destruct (Hoa (length (requests w1)) prompt max_tokens) as [e ->].
  set (q2 := ChatOpenAI _ _ _).
  destruct (call_lm_studio_run self prompt max_tokens (sent q2 w1))
    as (s & w' & H2 & _ & _ & Hfb2 & _).
  simpl in Hfb2. rewrite Hs_lm in Hfb2. specialize (Hfb2 (Hlm _ _ _)).
  exists w'. rewrite H2. do 2 f_equal. rewrite Hfb2.
  apply unavailable_in_fallback in Ein. rewrite Ein.
  now apply fallback_string_no_clock with (t := t).
Qed.

(** C3. The gateway never raises: for every prompt and every world,
    [call_lm_studio], [call_openai] and [analyze_with_ai] return a text.
    When the primary endpoint fails (the request raises, the status is not
    200, the body cannot be read), [call_lm_studio] returns the fallback
    text of the prompt: "0.7" if the lower-cased prompt contains
    "priority", else the date three days from now as YYYY-MM-DD if it
    contains "deadline", else "General" for "category", else
    "task, general" for "tags", else the sentinel. [analyze_with_ai]
    returns the same text when no key of the secondary provider is set,
    and when no service answers at all; a prompt that contains "priority"
    then gives exactly "0.7". *)
Theorem gateway_never_raises_and_falls_back
        (self : AIClient) (prompt : string) (max_tokens : Z) (w : World) :
  let reply := lm_studio w (length (requests w)) prompt max_tokens in
  let t := wall_clock w (clock_reads w) in
  (exists s w', call_lm_studio self prompt max_tokens w = (Ok s, w'))
  /\ (exists s w', call_openai self prompt max_tokens w = (Ok s, w'))
  /\ (exists s w', analyze_with_ai self prompt max_tokens w = (Ok s, w'))
  /\ (lm_failed reply ->
      exists s w', call_lm_studio self prompt max_tokens w = (Ok s, w')
                   /\ FallbackText prompt t s)
  /\ (lm_failed reply ->
      truthy (openai_key self) = false \/ all_down w ->
      exists s w', analyze_with_ai self prompt max_tokens w = (Ok s, w')
                   /\ FallbackText prompt t s
                   /\ (Contains "priority" prompt -> s = "0.7"))
  /\ fst (analyze_with_ai Examples.no_key "Rate the priority and the deadline"
                          100 Examples.offline) = Ok "0.7"
  /\ fst (analyze_with_ai Examples.no_key "Pick a DEADLINE and a category"
                          100 Examples.offline) = Ok "2026-11-06"
  /\ fst (analyze_with_ai Examples.no_key "Which category, which tags?"
                          100 Examples.offline) = Ok "General"
  /\ fst (analyze_with_ai Examples.no_key "Give me tags"
                          100 Examples.offline) = Ok "task, general"
  /\ fst (analyze_with_ai Examples.no_key "Summarise this"
                          100 Examples.offline)
     = Ok "Analysis unavailable - using defaults".
Proof.
  intros reply t.
  split.
  { destruct (call_lm_studio_run self prompt max_tokens w) as (s & w' & H & _).
    now exists s, w'. }
  split; [apply call_openai_ok|].
  split; [apply analyze_with_ai_ok|].
  split.
  { intros Hf.
    destruct (call_lm_studio_run self prompt max_tokens w)
      as (s & w' & H & _ & _ & Hfb & _).
    exists s, w'. split; [exact H|].
    rewrite (Hfb Hf). apply fallback_string_spec. }
  split.
  { intros Hf Hk.
    destruct (analyze_with_ai_down self prompt max_tokens w Hf (fun _ => Hk))
      as (w' & H).
    eexists _, w'. split; [exact H|]. split; [apply fallback_string_spec|].
    intros Hp. apply Contains_lower in Hp. apply str_in_spec in Hp.
    change (lower "priority") with "priority" in Hp.
    unfold fallback_string. now rewrite Hp. }
  repeat split; vm_compute; reflexivity.
Qed.

End GatewayFacts.

(** ** Integers found by [\d+] *)

Module ReFacts.
Import Py Spec PyFacts Re.

Lemma rep_ways_class (p : ascii -> bool) (s : string) :
  forall lo hi m r,
    In (m, r) (rep_ways p lo hi s) ->
    all_chars p m = true /\ (lo <= String.length m)%nat.
Proof.
  induction s as [|c s IH]; intros lo hi m r H; simpl in H.
  - destruct lo; simpl in H; [|contradiction].
    destruct H as [H | []]. injection H as <- <-.
    simpl. split; [reflexivity | lia].
  - apply in_app_or in H as [H | H].
    + destruct (p c && room hi) eqn:E; [|contradiction].
      apply andb_true_iff in E as [Ec _].
      apply in_map_iff in H as ([m' r'] & Heq & H').
      injection Heq as <- <-.
      apply IH in H' as [Ha Hl]. simpl. rewrite Ec, Ha.
      split; [reflexivity | lia].
    + destruct lo; simpl in H; [|contradiction].
      destruct H as [H | []]. injection H as <- <-.
    simpl. split; [reflexivity | lia].
Qed.

Lemma scan_digits (s : string) :
  forall skip x,
    In x (scan (digits 1 None) skip s) ->
    all_chars isdigit x = true /\ x <> EmptyString.
Proof.
  assert (Hhead : forall s w l, ways (digits 1 None) s = w :: l ->
                    all_chars isdigit (report (digits 1 None) w) = true
                    /\ report (digits 1 None) w <> EmptyString).
  { intros s0 w l H. unfold digits in *. simpl in H.
    assert (Hin : In w (List.map (fun w0 => (w0.1, w0.2, None))
                                 (rep_ways isdigit 1 None s0)))
      by (rewrite H; now left).
    apply in_map_iff in Hin as ([m r] & <- & Hin).
    apply rep_ways_class in Hin as [Ha Hl]. simpl.
    split; [exact Ha|]. destruct m; simpl in Hl; [lia | discriminate]. }
  induction s as [|c s IH]; intros skip x H.
  - destruct skip; simpl in H; contradiction.
  - destruct skip; cbn [scan] in H; [|now apply IH in H].
    destruct (ways (digits 1 None) (String c s)) as [|w l] eqn:E.
    + now apply IH in H.
    + destruct H as [<- | H]; [eapply Hhead; eassumption | now apply IH in H].
Qed.

Lemma int_of_digits_aux_ok (s : string) :
  forall acc, 0 <= acc -> all_chars isdigit s = true ->
    exists n, int_of_digits_aux acc s = Some n /\ 0 <= n.
Proof.
  induction s as [|c s IH]; intros acc Hacc H; simpl in *.
  - now exists acc.
  - apply andb_true_iff in H as [Hc Hs]. rewrite Hc.
    apply IH; [lia | exact Hs].
Qed.

Lemma int_of_digits_nonneg (s : string) (n : Z) :
  int_of_digits s = Some n -> 0 <= n.
Proof.
  assert (H : forall s acc n, 0 <= acc -> int_of_digits_aux acc s = Some n -> 0 <= n).
  { clear. induction s as [|c s IH]; intros acc n Hacc H; simpl in H.
    - congruence.
    - destruct (isdigit c); [|discriminate]. eapply IH; [|exact H]. lia. }
  unfold int_of_digits, digits_value.
  destruct (int_max_str_digits <? _); [discriminate|].
  destruct s; [discriminate|]. apply H. lia.
Qed.

(** What [\d+] finds denotes a natural number, which [int] returns
    unless the digits are more than the limit. *)
Lemma findall_integer (s x : string) :
  In x (findall (digits 1 None) s) ->
  exists n,
    0 <= n
    /\ int_of_digits x
       = if int_max_str_digits <? Z.of_nat (String.length x) then None
         else Some n.
Proof.
  intros H. apply scan_digits in H as [Ha Hne].
  unfold int_of_digits, digits_value. destruct x as [|c x]; [congruence|].
  destruct (int_of_digits_aux_ok (String c x) 0) as (n & -> & Hn);
    [lia | exact Ha |].
  now exists n.
Qed.

End ReFacts.

(** ** The task analyzer *)

Module TaskFacts.
Import Py Spec PyFacts Datetime Run TaskAnalyzer.

Ltac run_unfold := GatewayFacts.run_unfold.

Lemma priority_prompt_mentions_priority
      (title description : string)
      (context_data : option (list ContextProcessor.Context)) :
  str_in "priority" (lower (priority_prompt title description context_data)) = true.
Proof.
  apply str_in_spec.
  change "priority" with (lower "priority").
  apply Contains_lower. unfold priority_prompt. cbn [Text.lines].
  apply Contains_app_r, Contains_app_r, Contains_app_l.
  apply str_in_spec. vm_compute. reflexivity.
Qed.

Lemma deadline_prompt_mentions_deadline
      (title description : string) (current_workload : Z) :
  str_in "deadline" (lower (deadline_prompt title description current_workload))
  = true.
Proof.
  apply str_in_spec.
  change "deadline" with (lower "deadline").
  apply Contains_lower. unfold deadline_prompt. cbn [Text.lines].
  apply Contains_app_r, Contains_app_r, Contains_app_l.
  apply str_in_spec. vm_compute. reflexivity.
Qed.


(** The days that the deterministic fallback adds to the clock. *)
Lemma fallback_deadline_days (description : string) (w : World) :
  exists d,
    _calculate_fallback_deadline description w
    = (Ok (add_days (wall_clock w (clock_reads w)) d), tick w)
    /\ (d = 1 \/ d = 2 \/ d = 7 \/ d = 3).
Proof.
  unfold _calculate_fallback_deadline. run_unfold.
  destruct (any_in ["urgent"; "asap"; "today"] _);
    [| destruct (any_in ["tomorrow"; "soon"] _);
       [| destruct (any_in ["week"; "weekly"] _)]];
    eexists; (split; [reflexivity | tauto]).
Qed.

(** What [suggest_deadline] makes of an answer of the gateway: three
    days without an integer, the first integer capped at 30 when [int]
    reads it, and the fallback of the [except] branch when [int] raises
    on it. *)
Lemma deadline_of_answer
      (self : TaskAnalyzer) (task_title task_description : string)
      (current_workload : Z) (w w1 : World) (result : string) :
  Gateway.analyze_with_ai
    (ai_client self)
    (deadline_prompt task_title task_description current_workload) 100 w
  = (Ok result, w1) ->
  match Re.findall integer_pattern result with
  | first :: _ =>
      if int_max_str_digits <? Z.of_nat (String.length first)
      then suggest_deadline self task_title task_description current_workload w
           = _calculate_fallback_deadline task_description w1
      else exists n,
          int_of_digits first = Some n /\ 0 <= n
          /\ suggest_deadline self task_title task_description current_workload w
             = (Ok (add_days (wall_clock w1 (clock_reads w1)) (Z.min n 30)),
                tick w1)
  | [] =>
      suggest_deadline self task_title task_description current_workload w
      = (Ok (add_days (wall_clock w1 (clock_reads w1)) 3), tick w1)
  end.
Proof.
  intros H. unfold suggest_deadline. run_unfold. rewrite H.
  destruct (Re.findall integer_pattern result) as [|first l] eqn:E;
    [reflexivity|].
  destruct (ReFacts.findall_integer result first) as (n & Hpos & Hn).
  { unfold integer_pattern in E. rewrite E. now left. }
  rewrite Hn.
  destruct (int_max_str_digits <? Z.of_nat (String.length first));
    [reflexivity|].
  now exists n.
Qed.


Lemma analyze_task_priority_raised
      (self : TaskAnalyzer) (task_title task_description : string)
      (context_data : option (list ContextProcessor.Context))
      (w w1 : World) (e : string) :
  Gateway.analyze_with_ai
    (ai_client self)
    (priority_prompt task_title task_description context_data) 100 w
  = (Raised e, w1) ->
  analyze_task_priority self task_title task_description context_data w
  = (Ok (_calculate_fallback_priority task_title task_description), w1).
Proof.
  intros H. unfold analyze_task_priority. run_unfold. now rewrite H.
Qed.

Lemma analyze_task_priority_primary_down
      (client : AIClient.AIClient) (task_title task_description : string)
      (context_data : option (list ContextProcessor.Context)) (w : World) :
  lm_failed (lm_studio w (length (requests w))
                       (priority_prompt task_title task_description context_data)
                       100) ->
  exists w',
    analyze_task_priority (__init__ (Gateway.of_client client))
                          task_title task_description context_data w
    = (Ok (lit 0.7), w').
Proof.
  intros Hf.
  destruct (GatewayFacts.analyze_with_ai_down client _ 100 w Hf) as (w' & Hw).
  - unfold fallback_string.
    rewrite priority_prompt_mentions_priority. discriminate.
  - exists w'. unfold analyze_task_priority. run_unfold.
    cbn [Gateway.analyze_with_ai ai_client __init__ Gateway.of_client].
    rewrite Hw. unfold fallback_string.
    rewrite priority_prompt_mentions_priority. reflexivity.
Qed.

(** C1, as stated, fails: with no service answering and no key for the
    secondary provider, the task "URGENT: fix this today" gets the
    priority 0.7 that the gateway gives to every priority prompt, not the
    0.9 of the urgent tier. *)
Lemma priority_offline_is_not_urgent_tier :
  "URGENT: fix this" +:+ " " +:+ "today" = "URGENT: fix this today"
  /\ fst (analyze_task_priority Examples.analyzer "URGENT: fix this" "today"
                                None Examples.offline)
     = Ok (lit 0.7)
  /\ lit 0.7 <> lit 0.9.
Proof.
  split; [reflexivity|]. split; [vm_compute; reflexivity | discriminate].
Qed.

(** C1, as amended. The deterministic fallback
    [_calculate_fallback_priority], which [analyze_task_priority] returns
    when the call of the gateway raises, yields exactly the tiers: 0.9 if
    the lower-cased text "title description" contains urgent, critical,
    asap or emergency, else 0.7 for important, priority or deadline, else
    0.6 for meeting, call or presentation, else 0.5; on "URGENT: fix this
    today" it yields 0.9. When the primary endpoint fails, the gateway
    itself answers "0.7" to the priority prompt and
    [analyze_task_priority] returns 0.7 for every task. *)
Theorem priority_fallback_tiers
        (self : TaskAnalyzer) (task_title task_description : string)
        (context_data : option (list ContextProcessor.Context)) (w : World) :
  let text := lower (task_title +:+ " " +:+ task_description) in
  let p := _calculate_fallback_priority task_title task_description in
  let prompt := priority_prompt task_title task_description context_data in
  (Mentions ["urgent"; "critical"; "asap"; "emergency"] text -> p = lit 0.9)
  /\ (~ Mentions ["urgent"; "critical"; "asap"; "emergency"] text ->
      Mentions ["important"; "priority"; "deadline"] text -> p = lit 0.7)
  /\ (~ Mentions ["urgent"; "critical"; "asap"; "emergency"] text ->
      ~ Mentions ["important"; "priority"; "deadline"] text ->
      Mentions ["meeting"; "call"; "presentation"] text -> p = lit 0.6)
  /\ (~ Mentions ["urgent"; "critical"; "asap"; "emergency"] text ->
      ~ Mentions ["important"; "priority"; "deadline"] text ->
      ~ Mentions ["meeting"; "call"; "presentation"] text -> p = lit 0.5)
  /\ _calculate_fallback_priority "URGENT: fix this" "today" = lit 0.9
  /\ (forall e w1,
        Gateway.analyze_with_ai (ai_client self) prompt 100 w = (Raised e, w1) ->
        analyze_task_priority self task_title task_description context_data w
        = (Ok p, w1))
  /\ (forall client,
        lm_failed (lm_studio w (length (requests w)) prompt 100) ->
        exists w',
          analyze_task_priority (__init__ (Gateway.of_client client))
                                task_title task_description context_data w
          = (Ok (lit 0.7), w')).
Proof.
  intros text p prompt.
  split; [|split; [|split; [|split; [|split; [|split]]]]].
  1-4: subst p; unfold _calculate_fallback_priority; fold text;
    destruct (any_in ["urgent"; "critical"; "asap"; "emergency"] text) eqn:E1;
    [| destruct (any_in ["important"; "priority"; "deadline"] text) eqn:E2;
       [| destruct (any_in ["meeting"; "call"; "presentation"] text) eqn:E3]];
    repeat match goal with
           | H : any_in _ _ = true |- _ => apply any_in_spec in H
           | H : any_in _ _ = false |- _ => apply any_in_false in H
           end;
    tauto.
  - vm_compute. reflexivity.
  - intros e w1 H. now apply analyze_task_priority_raised with (e := e).
  - intros client. apply analyze_task_priority_primary_down.
Qed.

(** C2, as stated, fails: with no service answering and no key for the
    secondary provider, the gateway answers the deadline prompt with the
    date "2026-11-06", [suggest_deadline] reads its first integer 2026,
    caps it at 30 and returns now plus 30 days, not now plus 1 day. *)
Lemma deadline_offline_is_not_asap_tier :
  fst (AIClient.analyze_with_ai
         Examples.no_key (deadline_prompt "" "please do this asap" 5)
         100 Examples.offline)
  = Ok "2026-11-06"
  /\ fst (suggest_deadline Examples.analyzer "" "please do this asap" 5
                           Examples.offline)
     = Ok (add_days Examples.morning 30)
  /\ add_days Examples.morning 30 <> add_days Examples.morning 1.
Proof.
  split; [vm_compute; reflexivity|].
  split; [vm_compute; reflexivity | discriminate].
Qed.

(** C2, as amended. The deterministic fallback
    [_calculate_fallback_deadline] gives now plus 1 day if the lower-cased
    description contains urgent, asap or today (so for "please do this
    asap"), else now plus 2 days for tomorrow or soon, else now plus 7
    days for week or weekly, else now plus 3 days.  [suggest_deadline]
    runs it when the call of the gateway raises, and when [int] raises on
    the first integer of the answer of the gateway, which it does on more
    than 4300 digits; on every other answer the deadline is read from
    the answer.  When the primary endpoint fails the gateway does not
    raise: unless the prompt contains "priority", it answers the deadline
    prompt with the date three days from now. *)
Theorem deadline_fallback_tiers
        (self : TaskAnalyzer) (task_title task_description : string)
        (current_workload : Z) (w : World) :
  let text := lower task_description in
  let t := wall_clock w (clock_reads w) in
  let prompt := deadline_prompt task_title task_description current_workload in
  (exists d,
      _calculate_fallback_deadline task_description w
      = (Ok (add_days t d), tick w)
      /\ (Mentions ["urgent"; "asap"; "today"] text -> d = 1)
      /\ (~ Mentions ["urgent"; "asap"; "today"] text ->
          Mentions ["tomorrow"; "soon"] text -> d = 2)
      /\ (~ Mentions ["urgent"; "asap"; "today"] text ->
          ~ Mentions ["tomorrow"; "soon"] text ->
          Mentions ["week"; "weekly"] text -> d = 7)
      /\ (~ Mentions ["urgent"; "asap"; "today"] text ->
          ~ Mentions ["tomorrow"; "soon"] text ->
          ~ Mentions ["week"; "weekly"] text -> d = 3))
  /\ (forall e w1,
        Gateway.analyze_with_ai (ai_client self) prompt 100 w = (Raised e, w1) ->
        suggest_deadline self task_title task_description current_workload w
        = _calculate_fallback_deadline task_description w1)
  /\ (forall result w1,
        Gateway.analyze_with_ai (ai_client self) prompt 100 w = (Ok result, w1) ->
        match Re.findall integer_pattern result with
        | first :: _ =>
            if int_max_str_digits <? Z.of_nat (String.length first)
            then suggest_deadline self task_title task_description
                                  current_workload w
                 = _calculate_fallback_deadline task_description w1
            else exists n,
                int_of_digits first = Some n /\ 0 <= n
                /\ suggest_deadline self task_title task_description
                                    current_workload w
                   = (Ok (add_days (wall_clock w1 (clock_reads w1))
                                   (Z.min n 30)),
                      tick w1)
        | [] =>
            suggest_deadline self task_title task_description
                             current_workload w
            = (Ok (add_days (wall_clock w1 (clock_reads w1)) 3), tick w1)
        end)
  /\ fst (_calculate_fallback_deadline "please do this asap" Examples.offline)
     = Ok (add_days Examples.morning 1)
  /\ (forall client,
        lm_failed (lm_studio w (length (requests w)) prompt 100) ->
        ~ Contains "priority" (lower prompt) ->
        exists w',
          AIClient.analyze_with_ai client prompt 100 w
          = (Ok (strftime_Ymd (add_days t 3)), w')).
Proof.
  intros text t prompt. split; [|split; [|split; [|split]]].
  - unfold _calculate_fallback_deadline. fold text. run_unfold. fold t.
    destruct (any_in ["urgent"; "asap"; "today"] text) eqn:E1;
      [| destruct (any_in ["tomorrow"; "soon"] text) eqn:E2;
         [| destruct (any_in ["week"; "weekly"] text) eqn:E3]];
      repeat match goal with
             | H : any_in _ _ = true |- _ => apply any_in_spec in H
             | H : any_in _ _ = false |- _ => apply any_in_false in H
             end;
      eexists; (split; [reflexivity|]); tauto.
  - intros e w1 H. unfold suggest_deadline. run_unfold. fold prompt.
    now rewrite H.
  - intros result w1 H. exact (deadline_of_answer _ _ _ _ _ _ _ H).
  - vm_compute. reflexivity.
  - intros client Hf Hp.
    assert (E : fallback_string prompt t = strftime_Ymd (add_days t 3)).
    { unfold fallback_string.
      destruct (str_in "priority" (lower prompt)) eqn:E1;
        [apply str_in_spec in E1; contradiction|].
      subst prompt. now rewrite deadline_prompt_mentions_deadline. }
    destruct (GatewayFacts.analyze_with_ai_down client prompt 100 w Hf)
      as (w' & Hw).
    + fold t. rewrite E, DatetimeFacts.strftime_not_unavailable. discriminate.
    + exists w'. fold t in Hw. now rewrite <- E.
Qed.

(** C9. For every title and description the fallback tag suggester
    returns between 1 and 3 tags, and [suggest_tags] returns at most 5
    tags, the first five fields of the answer of the gateway when there is
    an answer. Both caps are reached: three tags in the fallback when five
    rules match, five tags from an answer with six fields. *)
Theorem tag_caps
        (self : TaskAnalyzer) (task_title task_description : string) (w : World) :
  (1 <= length (_suggest_fallback_tags task_title task_description) <= 3)%nat
  /\ (exists tags w',
        suggest_tags self task_title task_description w = (Ok tags, w')
        /\ (1 <= length tags <= 5)%nat
        /\ match Gateway.analyze_with_ai
                   (ai_client self) (tags_prompt task_title task_description)
                   100 w with
           | (Ok result, _) =>
               tags = take 5 (List.map (fun tag => lower (strip tag))
                                       (split_on "," result))
           | (Raised _, _) =>
               tags = _suggest_fallback_tags task_title task_description
           end)
  /\ _suggest_fallback_tags "urgent meeting at work" "home, follow up"
     = ["urgent"; "meeting"; "work"]
  /\ fst (suggest_tags Examples.analyzer "Plan" "the week" Examples.tagger)
     = Ok ["work"; "urgent"; "home"; "email"; "plan"].
Proof.
  assert (Hfb : (1 <= length (_suggest_fallback_tags task_title task_description)
                 <= 3)%nat).
  { unfold _suggest_fallback_tags.
    repeat match goal with
           | |- context [any_in ?ws ?t] => destruct (any_in ws t)
           end; simpl; lia. }
  split; [exact Hfb|]. split; [|split; vm_compute; reflexivity].
  unfold suggest_tags. run_unfold.
  destruct (Gateway.analyze_with_ai _ _ _ w) as [[result | e] w1].
  - eexists _, w1. split; [reflexivity|]. split; [|reflexivity].
    rewrite length_take, length_map.
    assert (1 <= length (split_on "," result))%nat; [|lia].
    destruct result as [|c r]; simpl; [lia|].
    destruct (Ascii.eqb c ","); [simpl; lia|].
    destruct (split_on "," r); simpl; lia.
  - eexists _, w1. split; [reflexivity|]. split; [lia | reflexivity].
Qed.

End TaskFacts.

(** ** The context analyzer *)

Module ContextFacts.
Import Py Spec Run ContextProcessor.

Section Interpreter.
Variable set_order : gset string -> list string.
Variable json_loads : string -> Json.loads_result.

(** C7, as amended. For every content, source type, gateway and
    parser, [process_context_entry] returns an insight record and never
    raises.  The record holds the features of the content; its AI
    analysis is the parsed answer, or the raw text of the answer under
    [raw_response] when [json.loads] raises JSONDecodeError, or the
    message of the exception under [error], without the raw text, when
    the gateway or [json.loads] raises anything else. *)
Theorem process_context_entry_never_drops
        (self : ContextProcessor) (content source_type : string) (w : World) :
  exists insights w',
    process_context_entry set_order json_loads self content source_type w
    = (Ok insights, w')
    /\ i_keywords insights = extract_keywords set_order content
    /\ i_sentiment_score insights = analyze_sentiment content
    /\ i_priority_indicators insights = detect_priority_indicators self content
    /\ i_dates_mentioned insights = extract_dates_and_times content
    /\ i_word_count insights = Z.of_nat (length (split_ws content))
    /\ i_has_deadline_mention insights
       = any_in ["deadline"; "due"; "by"] (lower content)
    /\ i_urgency_level insights = _calculate_urgency content
    /\ match Gateway.analyze_with_ai (ai_client self)
                                     (ai_prompt content source_type) 500 w with
       | (Ok ai_response, w1) =>
           w' = w1
           /\ match json_loads ai_response with
              | Json.Parsed v => i_ai_analysis insights = ai_insights v
              | Json.JSONDecodeError _ =>
                  i_ai_analysis insights = raw_response ai_response
              | Json.OtherError e => i_ai_analysis insights = error e
              end
       | (Raised e, w1) => w' = w1 /\ i_ai_analysis insights = error e
       end.
Proof.
  unfold process_context_entry. GatewayFacts.run_unfold.
  destruct (Gateway.analyze_with_ai _ _ _ w) as [[ai_response | e] w1].
  - destruct (json_loads ai_response) as [v | msg | e];
      eexists _, w1; repeat split; reflexivity.
  - eexists _, w1. repeat split; reflexivity.
Qed.

End Interpreter.

(** C7, as stated, fails: the primary endpoint answers with 3000
    opening brackets, a text that is no JSON; [json.loads] raises
    RecursionError on it, not JSONDecodeError, and the insight record
    keeps the message of that exception under [error]: the raw text of
    the answer is discarded. *)
Lemma deep_answer_is_discarded :
  fst (AIClient.analyze_with_ai
         Examples.no_key (ai_prompt "Lunch at noon" "EMAIL") 500
         Examples.nesting)
  = Ok Examples.deep_answer
  /\ match fst (process_context_entry
                  elements Examples.loads_brackets
                  (__init__ (Gateway.of_client Examples.no_key))
                  "Lunch at noon" "EMAIL" Examples.nesting) with
     | Ok insights =>
         i_ai_analysis insights
         = error "maximum recursion depth exceeded while decoding a JSON array from a unicode string"
         /\ i_ai_analysis insights <> raw_response Examples.deep_answer
     | Raised _ => False
     end.
Proof.
  split; [vm_compute; reflexivity|].
  vm_compute. split; [reflexivity | discriminate].
Qed.

End ContextFacts.

(** * Further properties *)

(** ** Characters and words *)

Module CharFacts.
Import Py Spec PyFacts.

Ltac each_char c :=
  destruct c as [[] [] [] [] [] [] [] []]; vm_compute; reflexivity.

Lemma lower_char_idem (c : ascii) : lower_char (lower_char c) = lower_char c.
Proof. each_char c. Qed.

Lemma isspace_lower_char (c : ascii) : isspace (lower_char c) = isspace c.
Proof. each_char c. Qed.

Lemma isword_lower_char (c : ascii) : isword (lower_char c) = isword c.
Proof. each_char c. Qed.

Lemma eqb_excl_lower_char (c : ascii) :
  Ascii.eqb "!" (lower_char c) = Ascii.eqb "!" c.
Proof. each_char c. Qed.

Lemma eqb_comma_lower_char (c : ascii) :
  Ascii.eqb (lower_char c) "," = Ascii.eqb c ",".
Proof. each_char c. Qed.

Lemma lower_idem (s : string) : lower (lower s) = lower s.
Proof.
  induction s as [|c s IH]; simpl; [reflexivity|].
  now rewrite lower_char_idem, IH.
Qed.

Lemma count_excl_lower (s : string) : count_char "!" (lower s) = count_char "!" s.
Proof.
  induction s as [|c s IH]; [reflexivity|].
  change (count_char "!" (lower (String c s)))
    with ((if Ascii.eqb "!" (lower_char c) then 1 else 0)
          + count_char "!" (lower s))%nat.
  change (count_char "!" (String c s))
    with ((if Ascii.eqb "!" c then 1 else 0) + count_char "!" s)%nat.
  now rewrite eqb_excl_lower_char, IH.
Qed.

Lemma lower_string_of_list (l : list ascii) :
  lower (string_of_list_ascii l) = string_of_list_ascii (List.map lower_char l).
Proof. induction l as [|c l IH]; simpl; [reflexivity | now rewrite IH]. Qed.

Lemma split_ws_aux_lower (s : string) :
  forall cur,
    split_ws_aux (List.map lower_char cur) (lower s)
    = List.map lower (split_ws_aux cur s).
Proof.
  induction s as [|c s IH]; intros cur; simpl.
  - destruct cur as [|x cur]; simpl; [reflexivity|].
    rewrite lower_string_of_list, List.map_app, List.map_rev. reflexivity.
  - rewrite isspace_lower_char. destruct (isspace c).
    + destruct cur as [|x cur]; simpl.
      * apply (IH []).
      * rewrite lower_string_of_list, List.map_app, List.map_rev. simpl.
        f_equal. apply (IH []).
    + apply (IH (c :: cur)).
Qed.

Lemma split_ws_lower (s : string) :
  split_ws (lower s) = List.map lower (split_ws s).
Proof. apply (split_ws_aux_lower s []). Qed.

(** The words of [split_ws]: not empty, without white space, and made of
    characters of the text. *)
Lemma split_ws_aux_words (P : ascii -> bool) (s : string) :
  forall cur w,
    all_chars P s = true ->
    forallb (fun c => P c && negb (isspace c)) cur = true ->
    In w (split_ws_aux cur s) ->
    all_chars (fun c => P c && negb (isspace c)) w = true /\ w <> EmptyString.
Proof.
  assert (Hcur : forall cur : list ascii,
             cur <> [] ->
             forallb (fun c => P c && negb (isspace c)) cur = true ->
             all_chars (fun c => P c && negb (isspace c))
                       (string_of_list_ascii (rev cur)) = true
             /\ string_of_list_ascii (rev cur) <> EmptyString).
  { intros cur Hne Hall. split.
    - assert (H : forallb (fun c => P c && negb (isspace c)) (rev cur) = true).
      { rewrite forallb_forall in *. intros x Hx. apply Hall.
        now apply in_rev. }
      clear Hall Hne. induction (rev cur) as [|x l IH]; simpl in *; [reflexivity|].
      apply andb_true_iff in H as [-> H]. now apply IH.
    - destruct (rev cur) as [|x l] eqn:E; [|discriminate].
      apply (f_equal (@rev ascii)) in E. rewrite rev_involutive in E.
      simpl in E. contradiction. }
  induction s as [|c s IH]; intros cur w Hs Hall Hin; simpl in *.
  - destruct cur as [|x cur]; [contradiction|].
    destruct Hin as [<- | []]. now apply Hcur.
  - apply andb_true_iff in Hs as [Hc Hs].
    destruct (isspace c) eqn:Esp.
    + destruct cur as [|x cur].
      * now apply (IH [] w).
      * destruct Hin as [<- | Hin]; [now apply Hcur | now apply (IH [] w)].
    + apply (IH (c :: cur) w); [exact Hs | | exact Hin].
      simpl. now rewrite Hc, Esp, Hall.
Qed.

Lemma split_ws_words (P : ascii -> bool) (s w : string) :
  all_chars P s = true ->
  In w (split_ws s) ->
  all_chars (fun c => P c && negb (isspace c)) w = true /\ w <> EmptyString.
Proof. intros Hs. now apply split_ws_aux_words. Qed.

Lemma all_chars_impl (P Q : ascii -> bool) (s : string) :
  (forall c, P c = true -> Q c = true) ->
  all_chars P s = true -> all_chars Q s = true.
Proof.
  intros HPQ. induction s as [|c s IH]; simpl; [reflexivity|].
  intros H. apply andb_true_iff in H as [Hc Hs].
  now rewrite (HPQ c Hc), IH.
Qed.

End CharFacts.

(** ** More on the feature extractor *)

Module FeatureExtras.
Import Py Spec PyFacts CharFacts ContextProcessor.

Lemma lower_fixed (s : string) :
  all_chars (fun c => Ascii.eqb (lower_char c) c) s = true -> lower s = s.
Proof.
  induction s as [|c s IH]; [reflexivity|].
  cbn [all_chars lower]. intros H. apply andb_true_iff in H as [Hc Hs].
  apply Ascii.eqb_eq in Hc. now rewrite Hc, IH.
Qed.

Lemma clean_char (c : ascii) :
  let c' := if isword (lower_char c) || isspace (lower_char c)
            then lower_char c else " "%char in
  (isword c' || isspace c') && Ascii.eqb (lower_char c') c' = true.
Proof. each_char c. Qed.

(** The text that [extract_keywords] splits: word characters and white
    space only, none of them upper case. *)
Lemma clean_text_chars (text : string) :
  all_chars (fun c => (isword c || isspace c) && Ascii.eqb (lower_char c) c)
            (sub_non_word (lower text)) = true.
Proof.
  induction text as [|c s IH]; [reflexivity|].
  cbn [lower sub_non_word all_chars]. rewrite IH, andb_true_r.
  apply clean_char.
Qed.

Section Interpreter.
Variable set_order : gset string -> list string.

(** Python's [list(s)] lists the elements of the set [s], each once. *)
Hypothesis set_order_elements : forall s, set_order s ≡ₚ elements s.

(** [extract_keywords] returns at most 10 keywords, without
    duplicates; each is a word of the lower-cased text with punctuation
    blanked, longer than 2 characters, no stop word, made of word
    characters only and in lower case; and when fewer than 10 keywords
    come back, no such word was left out. *)
Lemma extract_keywords_words (text : string) :
  let words := split_ws (sub_non_word (lower text)) in
  let ks := extract_keywords set_order text in
  (length ks <= 10)%nat
  /\ NoDup ks
  /\ (forall k, In k ks ->
        In k words /\ (2 < String.length k)%nat /\ (k ∉ stop_words)
        /\ all_chars isword k = true /\ lower k = k)
  /\ ((length ks < 10)%nat ->
      forall k, In k words -> (2 < String.length k)%nat -> k ∉ stop_words ->
                In k ks).
Proof.
  intros words ks. subst ks. unfold extract_keywords. fold words.
  generalize stop_words. intros stops.
  set (keywords := List.filter _ words).
  assert (Hkw : forall k, k ∈ set_order (list_to_set keywords) <->
                          In k words /\ (2 < String.length k)%nat
                          /\ (k ∉ stops)).
  { intros k. rewrite set_order_elements, elem_of_elements,
      elem_of_list_to_set, list_elem_of_In.
    subst keywords. rewrite List.filter_In, andb_true_iff, negb_true_iff,
      Nat.ltb_lt, bool_decide_eq_false. tauto. }
  split; [rewrite length_take; lia|].
  split.
  { eapply sublist_NoDup; [|apply sublist_take].
    rewrite set_order_elements. apply NoDup_elements. }
  split.
  - intros k Hk. apply list_elem_of_In, subseteq_take, Hkw in Hk.
    destruct Hk as (Hw & Hlen & Hstop).
    repeat split; try assumption.
    + destruct (split_ws_words _ _ k (clean_text_chars text) Hw) as [Hc _].
      revert Hc. apply all_chars_impl. intros c Hc.
      repeat (apply andb_true_iff in Hc as [Hc ?]).
      apply orb_true_iff in Hc as [Hc | Hc]; [exact Hc|].
      rewrite Hc in *. discriminate.
    + apply lower_fixed.
      destruct (split_ws_words _ _ k (clean_text_chars text) Hw) as [Hc _].
      revert Hc. apply all_chars_impl. intros c Hc.
      repeat (apply andb_true_iff in Hc as [Hc ?]). assumption.
  - intros Hlen k Hw Hl Hs. rewrite length_take in Hlen.
    rewrite take_ge by lia. apply list_elem_of_In, Hkw. tauto.
Qed.

(** X1. [extract_keywords] returns at most 10 keywords, without
    duplicates; each is a word of the lower-cased text with punctuation
    blanked, longer than 2 characters, no stop word, made of word
    characters only and in lower case; and when fewer than 10 keywords
    come back, no such word was left out. *)
Theorem extract_keywords_shape (text : string) :
  let words := split_ws (sub_non_word (lower text)) in
  let ks := extract_keywords set_order text in
  (length ks <= 10)%nat
  /\ NoDup ks
  /\ (forall k, In k ks ->
        In k words /\ (2 < String.length k)%nat /\ (k ∉ stop_words)
        /\ all_chars isword k = true /\ lower k = k)
  /\ ((length ks < 10)%nat ->
      forall k, In k words -> (2 < String.length k)%nat -> k ∉ stop_words ->
                In k ks).
Proof. exact (extract_keywords_words text). Qed.

End Interpreter.

(** With the sets listed in the order of [elements]. *)
Lemma extract_keywords_shape_witness :
  (forall s : gset string, elements s ≡ₚ elements s)
  /\ (length (extract_keywords elements "The quick brown fox, the FOX!") <= 10)%nat.
Proof.
  split; [reflexivity|].
  exact (proj1 (extract_keywords_shape
                  elements (fun s => Permutation_refl (elements s))
                  "The quick brown fox, the FOX!")).
Defined.

(** X2. The features of a text do not depend on its case: sentiment,
    urgency, priority indicators, dates, keywords and the number of
    words are those of the lower-cased text. *)
Theorem features_ignore_case
        (set_order : gset string -> list string)
        (self : ContextProcessor) (text : string) :
  analyze_sentiment (lower text) = analyze_sentiment text
  /\ _calculate_urgency (lower text) = _calculate_urgency text
  /\ detect_priority_indicators self (lower text)
     = detect_priority_indicators self text
  /\ extract_dates_and_times (lower text) = extract_dates_and_times text
  /\ extract_keywords set_order (lower text) = extract_keywords set_order text
  /\ length (split_ws (lower text)) = length (split_ws text)
  /\ any_in ["deadline"; "due"; "by"] (lower (lower text))
     = any_in ["deadline"; "due"; "by"] (lower text).
Proof.
  unfold analyze_sentiment, _calculate_urgency, detect_priority_indicators,
    extract_dates_and_times, extract_keywords.
  rewrite !lower_idem, count_excl_lower, split_ws_lower, length_map.
  repeat split; reflexivity.
Qed.

Lemma filter_nil_false {A} (f : A -> bool) (l : list A) (x : A) :
  List.filter f l = [] -> In x l -> f x = false.
Proof.
  intros H Hx. destruct (f x) eqn:E; [|reflexivity].
  assert (Hin : In x (List.filter f l)) by (apply List.filter_In; auto).
  rewrite H in Hin. contradiction.
Qed.

(** X3. The priority indicators are the priority keywords that occur in
    the lower-cased text, each at most once, so at most 12; and an
    urgency level above 6 (what the summary view counts as high
    priority) is only reached by a text with at least one indicator. *)
Theorem priority_indicators_and_urgency
        (client : Gateway.ai_client) (text : string) :
  let self := __init__ client in
  let found := detect_priority_indicators self text in
  (forall k, In k found <->
             In k (priority_keywords self) /\ Contains k (lower text))
  /\ NoDup found
  /\ (length found <= 12)%nat
  /\ (found = [] -> _calculate_urgency text <= 6)
  /\ (6 < _calculate_urgency text -> found <> []).
Proof.
  intros self found.
  assert (Hlow : found = [] -> _calculate_urgency text <= 6).
  { intros H. subst found. unfold detect_priority_indicators in H.
    assert (Hf : forall k, In k (priority_keywords self) ->
                           str_in k (lower text) = false)
      by (intros k Hk; exact (filter_nil_false _ _ k H Hk)).
    unfold _calculate_urgency, any_in. simpl existsb.
    rewrite (Hf "urgent"), (Hf "asap"), (Hf "immediately"), (Hf "emergency"),
      (Hf "important"), (Hf "priority"), (Hf "deadline"), (Hf "today"),
      (Hf "tomorrow") by (simpl; tauto).
    simpl.
    repeat match goal with
           | |- context [if ?b then _ else _] => destruct b
           end; lia. }
  split.
  { intros k. subst found. unfold detect_priority_indicators.
    now rewrite List.filter_In, str_in_spec. }
  split.
  { subst found. unfold detect_priority_indicators.
    apply NoDup_ListNoDup, List.NoDup_filter. simpl.
    repeat (constructor; [simpl; intuition discriminate|]). constructor. }
  split.
  { subst found. unfold detect_priority_indicators.
    etransitivity; [apply List.filter_length_le | reflexivity]. }
  split; [exact Hlow|].
  intros H E. specialize (Hlow E). lia.
Qed.

(** X4. A text whose lower-cased form contains "urgent" has an urgency
    level of at least 5, has "urgent" among its priority indicators, and a
    sentiment strictly below 1, and exactly 0 when it has no positive
    word: "urgent" counts as a negative word. *)
Theorem urgent_text_features (client : Gateway.ai_client) (text : string) :
  Contains "urgent" (lower text) ->
  5 <= _calculate_urgency text
  /\ In "urgent" (detect_priority_indicators (__init__ client) text)
  /\ (analyze_sentiment text < 1)%Q
  /\ (~ Mentions positive_words (lower text) -> analyze_sentiment text = 0%Q).
Proof.
  intros H. pose proof H as Hin. apply str_in_spec in Hin.
  split.
  { unfold _calculate_urgency, any_in. simpl existsb. rewrite Hin. simpl.
    repeat match goal with
           | |- context [if ?b then _ else _] => destruct b
           end; lia. }
  split.
  { unfold detect_priority_indicators. apply List.filter_In.
    split; [simpl; tauto | exact Hin]. }
  assert (Hneg : (1 <= count_in negative_words (lower text))%nat).
  { destruct (count_in negative_words (lower text)) eqn:E; [|lia].
    apply count_in_zero in E. exfalso. apply E.
    exists "urgent". split; [simpl; tauto | exact H]. }
  unfold analyze_sentiment.
  set (p := count_in positive_words (lower text)) in *.
  set (n := count_in negative_words (lower text)) in *.
  destruct (Nat.eqb_spec (p + n) 0); [lia|].
  split.
  - rewrite FeatureFacts.truediv_eq. unfold Qlt; simpl.
    rewrite Z2Pos.id by lia. lia.
  - intros Hp. apply count_in_zero in Hp. fold p in Hp. rewrite Hp.
    simpl. unfold truediv. reflexivity.
Qed.

Lemma urgent_text_features_witness :
  Contains "urgent" (lower "URGENT: call me")
  /\ 5 <= _calculate_urgency "URGENT: call me".
Proof.
  assert (H : Contains "urgent" (lower "URGENT: call me"))
    by (apply str_in_spec; reflexivity).
  split; [exact H|].
  exact (proj1 (urgent_text_features (Gateway.of_client Examples.no_key)
                                     "URGENT: call me" H)).
Defined.

End FeatureExtras.

(** ** More on the patterns *)

Module ReExtras.
Import Py Spec PyFacts Re.

(** Every entry of [findall] is the report of the first way the pattern
    matches at some position. *)
Lemma scan_reports (r : regex) (s : string) :
  forall skip x,
    In x (scan r skip s) ->
    exists s' w l, ways r s' = w :: l /\ x = report r w.
Proof.
  induction s as [|c s IH]; intros skip x H.
  - destruct skip; cbn [scan] in H; [|contradiction].
    destruct (ways r EmptyString) as [|w l] eqn:E; [contradiction|].
    destruct H as [<- | []]. now exists EmptyString, w, l.
  - destruct skip; cbn [scan] in H; [|now apply IH in H].
    destruct (ways r (String c s)) as [|w l] eqn:E.
    + now apply IH in H.
    + destruct H as [<- | H]; [now exists (String c s), w, l | now apply IH in H].
Qed.

Lemma ways_seq (a b : regex) (s : string) (w : way) :
  In w (ways (Seq a b) s) ->
  exists w1 w2,
    In w1 (ways a s) /\ In w2 (ways b (snd (fst w1)))
    /\ w = (fst (fst w1) +:+ fst (fst w2), snd (fst w2),
            first_some (snd w2) (snd w1)).
Proof.
  cbn [ways]. intros H. apply List.in_flat_map in H as ([[m1 s1] g1] & H1 & H).
  apply List.in_map_iff in H as ([[m2 s2] g2] & <- & H2).
  now exists (m1, s1, g1), (m2, s2, g2).
Qed.

Lemma ways_no_group (r : regex) :
  has_group r = false -> forall s w, In w (ways r s) -> snd w = None.
Proof.
  induction r as [l | p | p lo hi | a IHa b IHb | a IHa b IHb | a IHa];
    intros Hg s w H; simpl in Hg.
  - cbn [ways] in H. destruct (String.prefix l s); [|contradiction].
    now destruct H as [<- | []].
  - cbn [ways] in H. destruct s as [|c s]; [contradiction|].
    destruct (p c); [|contradiction]. now destruct H as [<- | []].
  - cbn [ways] in H. apply List.in_map_iff in H as (x & <- & _). reflexivity.
  - apply orb_false_iff in Hg as [Ha Hb].
    apply ways_seq in H as (w1 & w2 & H1 & H2 & ->). simpl.
    now rewrite (IHa Ha _ _ H1), (IHb Hb _ _ H2).
  - apply orb_false_iff in Hg as [Ha Hb].
    cbn [ways] in H. apply in_app_or in H as [H | H]; eauto.
  - discriminate.
Qed.

(** After a part without group, the group is that of the rest. *)
Lemma ways_seq_group (a b : regex) (s : string) (w : way) :
  has_group a = false ->
  In w (ways (Seq a b) s) ->
  exists s1 w2, In w2 (ways b s1) /\ snd w = snd w2.
Proof.
  intros Ha H. apply ways_seq in H as (w1 & w2 & H1 & H2 & ->).
  exists (snd (fst w1)), w2. split; [exact H2|]. simpl.
  rewrite (ways_no_group a Ha _ _ H1). now destruct (snd w2).
Qed.

(** X5. The pattern for times of day has one group, for "am" or "pm", so
    [extract_dates_and_times] reports for a time only "am", "pm" or the
    empty string, never its digits: its result is what the six date
    patterns find followed by such entries. *)
Theorem times_are_reported_by_meridiem (text : string) :
  let time_pattern := List.last ContextProcessor.date_patterns (Lit EmptyString) in
  ContextProcessor.extract_dates_and_times text
  = (List.flat_map (fun pattern => findall pattern (lower text))
                   (List.removelast ContextProcessor.date_patterns)
     ++ findall time_pattern (lower text))%list
  /\ (forall x, In x (findall time_pattern (lower text)) ->
                x = EmptyString \/ x = "am" \/ x = "pm")
  /\ ContextProcessor.extract_dates_and_times "Call at 10:30, lunch 12:15 PM"
     = [""; "pm"].
Proof.
  intros time_pattern.
  split; [|split; [|vm_compute; reflexivity]].
  - unfold ContextProcessor.extract_dates_and_times, time_pattern,
      ContextProcessor.date_patterns.
    cbn [List.flat_map List.removelast List.last].
    now rewrite !app_nil_r, <- !app_assoc.
  - intros x H. unfold findall in H.
    apply scan_reports in H as (s' & w & l & Hw & ->).
    assert (Hin : In w (ways time_pattern s')) by (rewrite Hw; now left).
    unfold time_pattern, ContextProcessor.date_patterns in Hin.
    cbn [List.last] in Hin.
    apply ways_seq_group in Hin as (s1 & w1 & Hin & E1); [|reflexivity].
    apply ways_seq_group in Hin as (s2 & w2 & Hin & E2); [|reflexivity].
    apply ways_seq_group in Hin as (s3 & w3 & Hin & E3); [|reflexivity].
    apply ways_seq_group in Hin as (s4 & w4 & Hin & E4); [|reflexivity].
    assert (Hg : snd w = snd w4) by congruence.
    destruct w as [[m rest] g]. simpl in Hg. subst g.
    change (report time_pattern (m, rest, snd w4))
      with (match snd w4 with Some t => t | None => EmptyString end).
    cbn [ways alts] in Hin.
    apply in_app_or in Hin as [Hin | Hin].
    + apply List.in_map_iff in Hin as ([[m5 s5] g5] & <- & Hin).
      apply in_app_or in Hin as [Hin | Hin];
        cbn [ways] in Hin;
        destruct (String.prefix _ s4); try contradiction;
        destruct Hin as [Hin | []]; injection Hin as <- _ _; simpl; auto.
    + destruct Hin as [<- | []]. simpl. auto.
Qed.

Lemma split_on_absent (sep : ascii) (s : string) :
  all_chars (fun c => negb (Ascii.eqb c sep)) s = true ->
  split_on sep s = [s].
Proof.
  induction s as [|c s IH]; cbn [all_chars split_on]; [reflexivity|].
  intros H. apply andb_true_iff in H as [Hc Hs].
  apply negb_true_iff in Hc. now rewrite Hc, IH.
Qed.

Lemma int_of_digits_aux_value (s : string) :
  forall acc,
    all_chars isdigit s = true ->
    exists v, int_of_digits_aux acc s
              = Some (acc * 10 ^ Z.of_nat (String.length s) + v)
              /\ 0 <= v < 10 ^ Z.of_nat (String.length s).
Proof.
  induction s as [|c s IH]; intros acc H.
  - exists 0. cbn. split; [f_equal; lia | lia].
  - cbn [all_chars] in H. apply andb_true_iff in H as [Hc Hs].
    cbn [int_of_digits_aux String.length]. rewrite Hc.
    destruct (IH (10 * acc + Z.of_N (code c - 48)) Hs) as (v & -> & Hv).
    assert (Hd : 0 <= Z.of_N (code c - 48) <= 9).
    { unfold isdigit, in_range in Hc. apply andb_true_iff in Hc as [H1 H2].
      apply N.leb_le in H1, H2. lia. }
    set (d := Z.of_N (code c - 48)) in *.
    set (n := String.length s) in *.
    rewrite Nat2Z.inj_succ, Z.pow_succ_r by lia.
    exists (d * 10 ^ Z.of_nat n + v). split; [f_equal; ring|].
    assert (0 < 10 ^ Z.of_nat n) by (apply Z.pow_pos_nonneg; lia).
    nia.
Qed.

(** What [0\.\d+|1\.0] finds reads as a number between 0 and 1. *)
Lemma findall_decimal (s x : string) :
  In x (findall (Alt (Seq (Lit "0.") (digits 1 None)) (Lit "1.0")) s) ->
  exists q, float_of_decimal x = Some q /\ (0 <= q <= 1)%Q.
Proof.
  intros H. unfold findall in H.
  apply scan_reports in H as (s' & w & l & Hw & ->).
  assert (Hin : In w (ways (Alt (Seq (Lit "0.") (digits 1 None)) (Lit "1.0")) s'))
    by (rewrite Hw; now left).
  destruct w as [[m rest] g].
  change (report _ (m, rest, g)) with m.
  cbn [ways] in Hin. apply in_app_or in Hin as [Hin | Hin].
  - apply List.in_flat_map in Hin as ([[m1 s1] g1] & H1 & Hin).
    destruct (String.prefix "0." s'); [|contradiction].
    destruct H1 as [H1 | []]. injection H1 as <- <- <-.
    apply List.in_map_iff in Hin as ([[m2 s2] g2] & Heq & H2).
    injection Heq as <- _ _.
    unfold digits in H2. cbn [ways] in H2.
    apply List.in_map_iff in H2 as ([ds r2] & Heq & H2).
    injection Heq as <- _ _.
    apply ReFacts.rep_ways_class in H2 as [Hds Hlen]. simpl in Hds, Hlen.
    destruct ds as [|d ds']; [simpl in Hlen; lia|].
    set (ds := String d ds') in *.
    assert (Hsplit : split_on "." ("0." +:+ ds) = ["0"; ds]).
    { change ("0." +:+ ds) with (String "0" (String "." ds)).
      cbn [split_on]. simpl Ascii.eqb.
      rewrite (split_on_absent "." ds); [reflexivity|].
      revert Hds. apply CharFacts.all_chars_impl.
      intros c Hc. destruct c as [[] [] [] [] [] [] [] []];
        try reflexivity; discriminate. }
    unfold float_of_decimal. rewrite Hsplit.
    change (digits_value "0") with (Some 0).
    change (digits_value ("0" +:+ ds)) with (int_of_digits_aux 0 ds).
    destruct (int_of_digits_aux_value ds 0 Hds) as (v & -> & Hv).
    subst ds. cbv zeta iota beta.
    eexists. split; [reflexivity|].
    rewrite Qred_correct. unfold Qle. cbn [Qnum Qden].
    rewrite Pos2Z.inj_pow.
    rewrite <- (Nat2Pos.id (String.length (String d ds'))) in Hv by (simpl; lia).
    rewrite positive_nat_Z in Hv. lia.
  - destruct (String.prefix "1.0" s'); [|contradiction].
    destruct Hin as [Hin | []]. injection Hin as <- _ _.
    exists 1%Q. split; [vm_compute; reflexivity | split; discriminate].
Qed.

End ReExtras.

(** ** More on the relevance ranker *)

Module RankerExtras.
Import Py Spec Notions PyFacts FeatureFacts RankerFacts ContextProcessor.

Lemma insert_desc_In (x y : Match) (l : list Match) :
  In y (insert_desc x l) <-> y = x \/ In y l.
Proof.
  induction l as [|z l IH]; simpl; [intuition congruence|].
  destruct (Qle_bool _ _); simpl; [intuition congruence|].
  rewrite IH. intuition congruence.
Qed.

Lemma sort_desc_In (y : Match) (l : list Match) :
  In y (sort_desc l) <-> In y l.
Proof.
  induction l as [|x l IH]; simpl; [reflexivity|].
  rewrite insert_desc_In, IH. intuition congruence.
Qed.

Lemma sort_desc_length (l : list Match) : length (sort_desc l) = length l.
Proof.
  induction l as [|x l IH]; simpl; [reflexivity|].
  now rewrite insert_desc_length, IH.
Qed.

Lemma sorted_app (a b : list Match) :
  StronglySorted desc (a ++ b) ->
  forall x y, In x a -> In y b -> desc x y.
Proof.
  induction a as [|z a IH]; simpl; intros H x y Hx Hy; [contradiction|].
  apply StronglySorted_inv in H as [Hs Hall].
  destruct Hx as [<- | Hx]; [|now apply IH].
  rewrite List.Forall_forall in Hall. apply Hall, in_or_app. now right.
Qed.

Lemma take_or_beaten (n : nat) (l : list Match) (m : Match) :
  StronglySorted desc l -> In m l ->
  In m (take n l)
  \/ (length (take n l) = n /\ forall x, In x (take n l) -> desc x m).
Proof.
  intros Hs Hm. rewrite <- (take_drop n l) in Hm, Hs.
  apply in_app_or in Hm as [Hm | Hm]; [now left | right].
  split.
  - rewrite length_take. destruct (Nat.le_gt_cases n (length l)); [lia|].
    rewrite drop_ge in Hm by lia. contradiction.
  - intros x Hx. eapply sorted_app; eassumption.
Qed.

Lemma scored_insert (q : Q) (x : Match) (l : list Match) :
  List.filter (scored q) (insert_desc x l)
  = if scored q x then x :: List.filter (scored q) l
    else List.filter (scored q) l.
Proof.
  induction l as [|y l IH]; simpl; [reflexivity|].
  destruct (Qle_bool (relevance_score y) (relevance_score x)) eqn:E.
  - reflexivity.
  - simpl. rewrite IH. destruct (scored q x) eqn:Ex; [|reflexivity].
    destruct (scored q y) eqn:Ey; [|reflexivity].
    exfalso. unfold scored in *. apply Qeq_bool_iff in Ex, Ey.
    assert (Hle : (relevance_score y <= relevance_score x)%Q)
      by (rewrite Ex, Ey; apply Qle_refl).
    apply Qle_bool_iff in Hle. congruence.
Qed.

(** The sort keeps the matches of equal score in their order. *)
Lemma sort_desc_stable (q : Q) (l : list Match) :
  List.filter (scored q) (sort_desc l) = List.filter (scored q) l.
Proof.
  induction l as [|x l IH]; simpl; [reflexivity|].
  rewrite scored_insert, IH. reflexivity.
Qed.

Section Ranking.
Variable set_order : gset string -> list string.

(** The list that the loop builds, entry by entry. *)
Lemma loop_matches (tk : gset string) (entries : list Context) :
  rank_contexts set_order tk entries
  = take 5 (sort_desc (List.map (to_match set_order tk)
                                (List.filter (passes tk) entries))).
Proof.
  unfold rank_contexts. do 2 f_equal.
  induction entries as [|c l IH]; [reflexivity|].
  cbn [List.flat_map List.filter]. rewrite IH.
  fold (score tk c). unfold passes at 2.
  now destruct (negb (Qle_bool (score tk c) (lit 0.1))).
Qed.

(** X6. [find_relevant_contexts] returns the best five: the number of
    matches is the number of entries above the threshold, capped at 5,
    and an entry above the threshold is left out only when five matches
    are returned that all score at least as high. *)
Theorem best_five_are_returned
        (task_content : string) (context_entries : list Context) :
  let tk : gset string := list_to_set (extract_keywords set_order task_content) in
  let r := find_relevant_contexts set_order task_content context_entries in
  length r = Nat.min 5 (length (List.filter (passes tk) context_entries))
  /\ (forall c, In c context_entries -> (0.1 < score tk c)%Q ->
        (exists m, In m r /\ context m = c)
        \/ (length r = 5%nat
            /\ forall m, In m r -> (score tk c <= relevance_score m)%Q))
  /\ ((length (List.filter (passes tk) context_entries) <= 5)%nat ->
      forall c, In c context_entries -> (0.1 < score tk c)%Q ->
                exists m, In m r /\ context m = c).
Proof.
  intros tk r. subst r. unfold find_relevant_contexts. fold tk.
  rewrite loop_matches.
  set (l := List.map (to_match set_order tk) (List.filter (passes tk) context_entries)).
  assert (Hlen : length (take 5 (sort_desc l))
                 = Nat.min 5 (length (List.filter (passes tk) context_entries))).
  { rewrite length_take, sort_desc_length. subst l. now rewrite length_map. }
  assert (Hmain : forall c, In c context_entries -> (0.1 < score tk c)%Q ->
            (exists m, In m (take 5 (sort_desc l)) /\ context m = c)
            \/ (length (take 5 (sort_desc l)) = 5%nat
                /\ forall m, In m (take 5 (sort_desc l)) ->
                             (score tk c <= relevance_score m)%Q)).
  { intros c Hc Hs.
    assert (Hin : In (to_match set_order tk c) (sort_desc l)).
    { apply sort_desc_In. subst l. apply List.in_map, List.filter_In.
      split; [exact Hc|]. unfold passes. apply negb_true_iff.
      destruct (Qle_bool (score tk c) (lit 0.1)) eqn:E; [|reflexivity].
      apply Qle_bool_iff in E. exfalso. revert Hs. now apply Qle_not_lt. }
    destruct (take_or_beaten 5 _ _ (sort_desc_sorted l) Hin) as [H | [H1 H2]].
    - left. now exists (to_match set_order tk c).
    - right. split; [exact H1|]. intros m Hm. exact (H2 m Hm). }
  split; [exact Hlen|]. split; [exact Hmain|].
  intros Hfew c Hc Hs.
  destruct (Hmain c Hc Hs) as [H | [H1 H2]]; [exact H|].
  assert (Hin : In (to_match set_order tk c) (sort_desc l)).
  { apply sort_desc_In. subst l. apply List.in_map, List.filter_In.
    split; [exact Hc|]. unfold passes. apply negb_true_iff.
    destruct (Qle_bool (score tk c) (lit 0.1)) eqn:E; [|reflexivity].
    apply Qle_bool_iff in E. exfalso. revert Hs. now apply Qle_not_lt. }
  exists (to_match set_order tk c). split; [|reflexivity].
  rewrite take_ge; [exact Hin|].
  rewrite sort_desc_length. subst l. rewrite length_map. exact Hfew.
Qed.

(** X7. Ties keep the order of the entries: for every score [q], the
    returned matches with that score are, in this order, the first of
    the entries above the threshold with that score. *)
Theorem ties_keep_entry_order
        (task_content : string) (context_entries : list Context) (q : Q) :
  let tk : gset string := list_to_set (extract_keywords set_order task_content) in
  let r := find_relevant_contexts set_order task_content context_entries in
  exists rest,
    List.filter (fun c => passes tk c && Qeq_bool (score tk c) q) context_entries
    = (List.map context (List.filter (scored q) r) ++ rest)%list.
Proof.
  intros tk r. subst r. unfold find_relevant_contexts. fold tk.
  rewrite loop_matches.
  set (l := List.map (to_match set_order tk) (List.filter (passes tk) context_entries)).
  exists (List.map context (List.filter (scored q) (drop 5 (sort_desc l)))).
  rewrite <- List.map_app, <- List.filter_app, take_drop, sort_desc_stable.
  subst l. clear. induction context_entries as [|c l IH]; [reflexivity|].
  cbn [List.filter]. destruct (passes tk c); simpl; [|exact IH].
  unfold scored at 1. simpl.
  destruct (Qeq_bool (score tk c) q); simpl; now rewrite IH.
Qed.

(** Python's [list(s)] lists the elements of the set [s], each once. *)
Hypothesis set_order_elements : forall s, set_order s ≡ₚ elements s.

(** X8. Each returned match comes from an entry above the threshold;
    its [matching_keywords] are, without duplicates, the task keywords
    that are among the keywords of the entry, and its score is their
    number divided by max(number of task keywords, 1). *)
Theorem matching_keywords_are_the_overlap
        (task_content : string) (context_entries : list Context) (m : Match) :
  let task_keywords := extract_keywords set_order task_content in
  In m (find_relevant_contexts set_order task_content context_entries) ->
  In (context m) context_entries
  /\ NoDup (matching_keywords m)
  /\ (forall k, In k (matching_keywords m) <->
                In k task_keywords
                /\ In k (default [] (keywords (context m))))
  /\ relevance_score m
     = truediv (Z.of_nat (length (matching_keywords m)))
               (Z.max (Z.of_nat (length task_keywords)) 1)
  /\ (1 <= length (matching_keywords m))%nat.
Proof.
  intros task_keywords Hm. unfold find_relevant_contexts in Hm.
  fold task_keywords in Hm. rewrite loop_matches in Hm.
  set (tk := list_to_set task_keywords : gset string) in *.
  apply list_elem_of_In, subseteq_take, list_elem_of_In in Hm.
  apply (proj1 (sort_desc_In _ _)) in Hm.
  apply List.in_map_iff in Hm as (c & <- & Hc).
  apply List.filter_In in Hc as [Hc Hpass].
  set (overlap := tk ∩ list_to_set (default [] (keywords c)) : gset string).
  cbn [context matching_keywords relevance_score to_match]. fold overlap.
  assert (Hlen : length (set_order overlap) = size overlap).
  { rewrite set_order_elements. reflexivity. }
  assert (Htk : size tk = length task_keywords).
  { subst tk. apply size_list_to_set.
    apply (FeatureExtras.extract_keywords_words set_order set_order_elements). }
  split; [exact Hc|]. split.
  { rewrite set_order_elements. apply NoDup_elements. }
  split.
  { intros k. rewrite <- list_elem_of_In, set_order_elements, elem_of_elements.
    subst overlap tk. rewrite elem_of_intersection, !elem_of_list_to_set,
      !list_elem_of_In. reflexivity. }
  split.
  { unfold score. fold overlap. now rewrite Hlen, Htk. }
  rewrite Hlen. unfold passes, score in Hpass. fold overlap in Hpass.
  destruct (size overlap) eqn:E; [|lia].
  exfalso. revert Hpass. unfold truediv.
  match goal with
  | |- context [Z.to_pos ?z] => generalize (Z.to_pos z)
  end.
  intros p. now destruct p.
Qed.

End Ranking.

Lemma matching_keywords_witness :
  (forall s : gset string, elements s ≡ₚ elements s)
  /\ In (to_match elements {[ "project"; "meeting" ]} Examples.lunch_entry)
        (find_relevant_contexts elements "Project meeting!"
                                [Examples.budget_entry; Examples.lunch_entry])
  /\ In Examples.lunch_entry [Examples.budget_entry; Examples.lunch_entry].
Proof.
  assert (H : In (to_match elements {[ "project"; "meeting" ]} Examples.lunch_entry)
                 (find_relevant_contexts elements "Project meeting!"
                    [Examples.budget_entry; Examples.lunch_entry]))
    by (vm_compute; left; reflexivity).
  split; [intros s; apply Permutation_refl|]. split; [exact H|].
  exact (proj1 (matching_keywords_are_the_overlap
                  elements (fun s => Permutation_refl (elements s))
                  "Project meeting!"
                  [Examples.budget_entry; Examples.lunch_entry] _ H)).
Defined.

End RankerExtras.

(** ** More on the gateway *)

Module GatewayExtras.
Import Py Spec Notions PyFacts Datetime Run AIClient GatewayFacts.

Lemma fallback_analysis_clock (prompt : string) (w : World) :
  let t := wall_clock w (clock_reads w) in
  exists w',
    _fallback_analysis prompt w = (Ok (fallback_string prompt t), w')
    /\ requests w' = requests w /\ same_services w w'
    /\ (clock_reads w' = clock_reads w
        \/ (clock_reads w' = S (clock_reads w)
            /\ fallback_string prompt t = strftime_Ymd (add_days t 3))).
Proof.
  unfold _fallback_analysis, fallback_string, same_services. run_unfold.
  repeat match goal with
         | |- context [if ?b then _ else _] => destruct b
         end;
    eexists; (split; [reflexivity | simpl; auto]).
Qed.

Lemma call_lm_studio_clock (self : AIClient) (prompt : string)
      (max_tokens : Z) (w : World) :
  let q := PostLmStudio (lm_studio_url self +:+ "/completions") prompt max_tokens in
  exists s w',
    call_lm_studio self prompt max_tokens w = (Ok s, w')
    /\ requests w' = (requests w ++ [q])%list
    /\ same_services w w'
    /\ (clock_reads w' = clock_reads w
        \/ (clock_reads w' = S (clock_reads w)
            /\ str_in "Analysis unavailable" s = false)).
Proof.
  intros q. unfold call_lm_studio. run_unfold. fold q.
  destruct (fallback_analysis_clock prompt (sent q w)) as (w' & Hf & Hr & Hs & Hc).
  simpl in Hf, Hr, Hc. unfold same_services in *. simpl in Hs.
  assert (Hc' : clock_reads w' = clock_reads w
                \/ (clock_reads w' = S (clock_reads w)
                    /\ str_in "Analysis unavailable"
                         (fallback_string prompt (wall_clock w (clock_reads w)))
                       = false)).
  { destruct Hc as [Hc | [Hc E]]; [now left | right].
    split; [exact Hc|]. rewrite E. apply DatetimeFacts.strftime_not_unavailable. }
  destruct (lm_studio w (length (requests w)) prompt max_tokens)
    as [e | code [t|]]; simpl.
  - eexists _, w'. rewrite Hf. auto.
  - destruct (code =? 200).
    + eexists _, (sent q w). simpl. auto 6.
    + eexists _, w'. rewrite Hf. auto.
  - destruct (code =? 200); eexists _, w'; rewrite Hf; auto.
Qed.

(** X9. Every call of [analyze_with_ai] makes between one and three
    requests, the first to the primary endpoint and at most one to the
    secondary provider, none to it when no key is set; it reads the
    clock at most once and leaves the services as they are. *)
Theorem gateway_budget (self : AIClient) (prompt : string)
        (max_tokens : Z) (w : World) :
  let q1 := PostLmStudio (lm_studio_url self +:+ "/completions") prompt max_tokens in
  let q2 := ChatOpenAI (default EmptyString (openai_key self)) prompt max_tokens in
  exists s w',
    analyze_with_ai self prompt max_tokens w = (Ok s, w')
    /\ requests w' = (requests w ++ new_requests w w')%list
    /\ (new_requests w w' = [q1] \/ new_requests w w' = [q1; q2]
        \/ new_requests w w' = [q1; q2; q1])
    /\ (truthy (openai_key self) = false -> new_requests w w' = [q1])
    /\ (clock_reads w <= clock_reads w' <= S (clock_reads w))%nat
    /\ same_services w w'.
Proof.
  intros q1 q2.
  destruct (call_lm_studio_clock self prompt max_tokens w)
    as (r1 & w1 & H1 & Hr1 & Hs1 & Hc1).
  fold q1 in Hr1.
  rewrite (analyze_with_ai_unfold _ _ _ _ _ _ H1).
  destruct (str_in "Analysis unavailable" r1) eqn:Ein;
    destruct (truthy (openai_key self)) eqn:Ek; simpl.
  2-4: exists r1, w1; rewrite (new_requests_app _ _ _ Hr1);
    (split; [reflexivity|]); (split; [exact Hr1|]); (split; [auto|]);
    (split; [auto; discriminate|]); (split; [lia | exact Hs1]).
  assert (Hclock : clock_reads w1 = clock_reads w).
  { destruct Hc1 as [Hc1 | [_ Hc1]]; [exact Hc1 | discriminate]. }
  rewrite call_openai_unfold by exact Ek. fold q2.
  destruct (openai w1 (length (requests w1)) prompt max_tokens) as [e|c].
  - destruct (call_lm_studio_clock self prompt max_tokens (sent q2 w1))
      as (s & w' & H2 & Hr2 & Hs2 & Hc2).
    fold q1 in Hr2. simpl in Hr2, Hc2. rewrite Hr1 in Hr2.
    rewrite <- !app_assoc in Hr2. simpl in Hr2.
    exists s, w'. rewrite (new_requests_app _ _ _ Hr2).
    split; [exact H2|]. split; [exact Hr2|]. split; [auto|].
    split; [discriminate|]. split; [lia|].
    unfold same_services in *. simpl in Hs2.
    destruct Hs1 as (A1 & A2 & A3), Hs2 as (B1 & B2 & B3).
    repeat split; congruence.
  - exists (strip c), (sent q2 w1).
    assert (Hr2 : requests (sent q2 w1) = (requests w ++ [q1; q2])%list).
    { simpl. rewrite Hr1. now rewrite <- app_assoc. }
    rewrite (new_requests_app _ _ _ Hr2).
    split; [reflexivity|]. split; [exact Hr2|]. split; [auto|].
    split; [discriminate|]. split; [simpl; lia | exact Hs1].
Qed.

(** X10. When the primary endpoint answers with status 200 and a text,
    the gateway returns that text stripped, after this one request and
    without reading the clock, unless the stripped text contains
    "Analysis unavailable" and a key is set. *)
Theorem primary_answer_is_returned (self : AIClient) (prompt t : string)
        (max_tokens : Z) (w : World) :
  lm_studio w (length (requests w)) prompt max_tokens = LmResponse 200 (Some t) ->
  str_in "Analysis unavailable" (strip t) = false
  \/ truthy (openai_key self) = false ->
  analyze_with_ai self prompt max_tokens w
  = (Ok (strip t),
     sent (PostLmStudio (lm_studio_url self +:+ "/completions") prompt max_tokens) w).
Proof.
  intros H Hc.
  assert (H1 : call_lm_studio self prompt max_tokens w
               = (Ok (strip t),
                  sent (PostLmStudio (lm_studio_url self +:+ "/completions")
                                     prompt max_tokens) w)).
  { unfold call_lm_studio. run_unfold. rewrite H. reflexivity. }
  rewrite (analyze_with_ai_unfold _ _ _ _ _ _ H1).
  destruct Hc as [-> | ->]; [reflexivity | now rewrite andb_false_r].
Qed.

Lemma primary_answer_is_returned_witness :
  lm_studio Examples.tagger (length (requests Examples.tagger)) "Tags?" 100
  = LmResponse 200 (Some " Work, Urgent ,home,Email,Plan,extra ")
  /\ fst (analyze_with_ai Examples.with_key "Tags?" 100 Examples.tagger)
     = Ok "Work, Urgent ,home,Email,Plan,extra".
Proof.
  split; [reflexivity|].
  exact (f_equal fst
           (primary_answer_is_returned
              Examples.with_key "Tags?" " Work, Urgent ,home,Email,Plan,extra "
              100 Examples.tagger eq_refl (or_introl eq_refl))).
Defined.

End GatewayExtras.

(** ** Numbers and dates as text *)

Module DigitFacts.
Import Py Spec PyFacts Datetime Re.

Lemma string_of_uint_digits (u : Decimal.uint) :
  all_chars isdigit (NilEmpty.string_of_uint u) = true.
Proof. induction u; simpl; auto. Qed.

Ltac digit_step :=
  cbn [int_of_digits_aux];
  match goal with
  | |- context [isdigit ?c] => change (isdigit c) with true
  end;
  match goal with
  | |- context [Z.of_N ?n] =>
      let v := eval vm_compute in (Z.of_N n) in change (Z.of_N n) with v
  end;
  cbv iota.

Lemma int_of_uint_acc (u : Decimal.uint) :
  forall acc,
    int_of_digits_aux (Z.pos acc) (NilEmpty.string_of_uint u)
    = Some (Z.pos (Pos.of_uint_acc u acc)).
Proof.
  induction u; intros acc; cbn [NilEmpty.string_of_uint Pos.of_uint_acc];
    [reflexivity | ..];
    digit_step; rewrite <- IHu; f_equal; lia.
Qed.

Lemma int_of_uint (u : Decimal.uint) :
  int_of_digits_aux 0 (NilEmpty.string_of_uint u)
  = Some (Z.of_N (Pos.of_uint u)).
Proof.
  induction u; cbn [NilEmpty.string_of_uint Pos.of_uint];
    [reflexivity | ..];
    digit_step; [exact IHu | ..];
    cbn [Z.of_N]; rewrite <- int_of_uint_acc; f_equal.
Qed.

(** [str(n)] for a natural number is made of digits, which denote
    [n]. *)
Lemma str_of_int_digits (n : Z) :
  0 <= n ->
  all_chars isdigit (str_of_int n) = true
  /\ str_of_int n <> EmptyString
  /\ int_of_digits_aux 0 (str_of_int n) = Some n.
Proof.
  intros Hn. unfold str_of_int. destruct n as [|p|p]; [..|lia].
  - repeat split; discriminate.
  - cbn [Z.to_int NilZero.string_of_int].
    unfold NilZero.string_of_uint.
    pose proof (DecimalPos.Unsigned.to_uint_nonnil p) as Hnil.
    pose proof (DecimalPos.Unsigned.of_to p) as Hof.
    destruct (Pos.to_uint p) as [|u|u|u|u|u|u|u|u|u|u] eqn:E;
      [contradiction | ..];
      (split; [apply string_of_uint_digits|]);
      (split; [discriminate|]);
      rewrite int_of_uint, Hof; reflexivity.
Qed.

Lemma int_of_digits_zeros (k : nat) (s : string) :
  int_of_digits_aux 0 (zeros k +:+ s) = int_of_digits_aux 0 s.
Proof. induction k; [reflexivity | exact IHk]. Qed.

Lemma pad_digits (k : nat) (n : Z) :
  0 <= n ->
  all_chars isdigit (pad k n) = true
  /\ pad k n <> EmptyString
  /\ digits_value (pad k n) = Some n.
Proof.
  intros Hn. destruct (str_of_int_digits n Hn) as (Hd & Hne & Hv).
  unfold pad. set (z := zeros (k - String.length (str_of_int n))).
  assert (Hz : all_chars isdigit z = true)
    by (subst z; induction (k - _)%nat; simpl; auto).
  assert (Hne' : z +:+ str_of_int n <> EmptyString).
  { destruct z; [exact Hne | discriminate]. }
  split; [now rewrite DatetimeFacts.all_chars_app, Hz, Hd|].
  split; [exact Hne'|].
  unfold digits_value.
  destruct (z +:+ str_of_int n) eqn:E; [contradiction|].
  rewrite <- E. subst z. now rewrite int_of_digits_zeros.
Qed.

(** The year of a [datetime] is written with four digits, which [int]
    reads back. *)
Lemma int_of_year (y : Z) :
  0 <= y <= 9999 -> int_of_digits (pad 4 y) = Some y.
Proof.
  intros Hy.
  assert (H : forallb (fun k => Nat.leb (String.length (pad 4 (Z.of_nat k))) 4)
                      (seq 0 (Z.to_nat 10000)) = true)
    by (vm_compute; reflexivity).
  rewrite List.forallb_forall in H. specialize (H (Z.to_nat y)).
  rewrite Z2Nat.id in H by lia.
  assert (Hlen : (String.length (pad 4 y) <= 4)%nat)
    by (apply Nat.leb_le, H, in_seq; lia).
  unfold int_of_digits.
  replace (int_max_str_digits <? Z.of_nat (String.length (pad 4 y))) with false
    by (symmetry; apply Z.ltb_ge; unfold int_max_str_digits; lia).
  apply pad_digits. lia.
Qed.

(** A run of [\d+] takes all the digits before a character that is no
    digit. *)
Lemma rep_ways_head (p : ascii -> bool) (c : ascii) (rest : string) (ds : string) :
  forall lo,
    all_chars p ds = true -> (lo <= String.length ds)%nat -> p c = false ->
    exists l, rep_ways p lo None (ds +:+ String c rest)
              = (ds, String c rest) :: l.
Proof.
  induction ds as [|d ds IH]; intros lo Hds Hlo Hc.
  - simpl in Hlo. assert (lo = 0%nat) by lia. subst lo.
    change (EmptyString +:+ String c rest) with (String c rest).
    cbn [rep_ways]. rewrite Hc. simpl. now eexists.
  - cbn [all_chars] in Hds. apply andb_true_iff in Hds as [Hd Hds].
    rewrite app_cons. cbn [rep_ways]. rewrite Hd. cbn [room andb less].
    destruct (IH (Nat.pred lo) Hds) as (l & ->); [simpl in Hlo; lia | exact Hc |].
    simpl. now eexists.
Qed.

Lemma findall_head (r : regex) (s : string) (w : way) (l : list way) :
  ways r s = w :: l -> exists rest, findall r s = report r w :: rest.
Proof.
  intros H. unfold findall. destruct s; cbn [scan]; rewrite H; now eexists.
Qed.

(** The first integer of a text that starts with digits and a hyphen. *)
Lemma first_integer (ds rest : string) :
  all_chars isdigit ds = true -> ds <> EmptyString ->
  exists l, findall (digits 1 None) (ds +:+ "-" +:+ rest) = ds :: l.
Proof.
  intros Hds Hne.
  destruct (rep_ways_head isdigit "-" rest ds 1 Hds) as (l & Hl);
    [destruct ds; [contradiction | simpl; lia] | reflexivity |].
  change (ds +:+ "-" +:+ rest) with (ds +:+ String "-" rest).
  destruct (findall_head (digits 1 None) (ds +:+ String "-" rest)
                         (ds, String "-" rest, None)
                         (List.map (fun w => (fst w, snd w, None)) l))
    as (tl & ->); [|now exists tl].
  unfold digits. cbn [ways]. now rewrite Hl.
Qed.

(** Up to [datetime.max], the year of a date is at most 9999. *)
Lemma ord2ymd_year_max (n : Z) :
  n <= 3652059 -> fst (fst (ord2ymd n)) <= 9999.
Proof.
  intros Hn. unfold ord2ymd. cbv zeta.
  match goal with
  | |- context [if (?a || ?b) then _ else _] => destruct (a || b) eqn:E
  end.
  - cbn [fst]. Z.div_mod_to_equations. lia.
  - match goal with
    | |- context [if ?b then _ else _] => destruct b
    end; cbn [fst]; Z.div_mod_to_equations; lia.
Qed.

(** From the year 30 on, the year of a date is at least 30. *)
Lemma ord2ymd_year (n : Z) :
  10593 <= n -> 30 <= fst (fst (ord2ymd n)).
Proof.
  intros Hn. unfold ord2ymd. cbv zeta.
  match goal with
  | |- context [if (?a || ?b) then _ else _] => destruct (a || b) eqn:E
  end.
  - apply orb_true_iff in E. rewrite !Z.eqb_eq in E.
    cbn [fst]. Z.div_mod_to_equations. lia.
  - match goal with
    | |- context [if ?b then _ else _] => destruct b
    end; cbn [fst]; Z.div_mod_to_equations; lia.
Qed.

(** The date that the gateway gives as fallback for a deadline
    starts with the year: for a date from the year 30 on, the first
    integer that [\d+] finds in it is the year, at least 30. *)
Lemma deadline_text_starts_with_year (t : datetime) :
  10593 <= ordinal t <= 3652059 ->
  exists y l,
    fst (fst (ord2ymd (ordinal t))) = y
    /\ 30 <= y
    /\ exists first,
        findall (digits 1 None) (strftime_Ymd t) = first :: l
        /\ int_of_digits first = Some y.
Proof.
  intros Ht. pose proof (ord2ymd_year _ (proj1 Ht)) as Hy.
  pose proof (ord2ymd_year_max _ (proj2 Ht)) as Hmax.
  unfold strftime_Ymd. destruct (ord2ymd (ordinal t)) as [[y m] d].
  cbn [fst] in Hy, Hmax.
  destruct (pad_digits 4 y) as (Hd & Hne & _); [lia|].
  assert (Hv : int_of_digits (pad 4 y) = Some y) by (apply int_of_year; lia).
  destruct (first_integer (pad 4 y) (pad 2 m +:+ "-" +:+ pad 2 d) Hd Hne)
    as (l & Hl).
  exists y, l. split; [reflexivity|]. split; [exact Hy|].
  exists (pad 4 y). split; [exact Hl | exact Hv].
Qed.

End DigitFacts.

(** ** More on the task analyzer *)

Module TaskExtras.
Import Py Spec Notions PyFacts Datetime Run TaskAnalyzer.

Ltac run_unfold := GatewayFacts.run_unfold.

(** The priority read from an answer of the gateway. *)
Lemma priority_of_answer
      (self : TaskAnalyzer) (task_title task_description : string)
      (context_data : option (list ContextProcessor.Context))
      (w w1 : World) (result : string) :
  Gateway.analyze_with_ai
    (ai_client self)
    (priority_prompt task_title task_description context_data) 100 w
  = (Ok result, w1) ->
  exists q,
    analyze_task_priority self task_title task_description context_data w
    = (Ok q, w1)
    /\ (0 <= q <= 1)%Q
    /\ match Re.findall decimal_pattern result with
       | first :: _ => float_of_decimal first = Some q
       | [] => q = lit 0.5
       end.
Proof.
  intros H. unfold analyze_task_priority. run_unfold. rewrite H.
  destruct (Re.findall decimal_pattern result) as [|first l] eqn:E.
  - exists (lit 0.5). split; [reflexivity|]. split; [|reflexivity].
    split; discriminate.
  - destruct (ReExtras.findall_decimal result first) as (q & Hq & Hr).
    { unfold decimal_pattern in E. rewrite E. now left. }
    rewrite Hq. now exists q.
Qed.

Lemma fallback_priority_range (title description : string) :
  (0 <= _calculate_fallback_priority title description <= 1)%Q.
Proof.
  unfold _calculate_fallback_priority.
  repeat match goal with
         | |- context [any_in ?ws ?t] => destruct (any_in ws t)
         end; split; discriminate.
Qed.

(** X11. For every answer or failure of the gateway,
    [analyze_task_priority] returns a priority between 0 and 1: the first
    decimal of the answer that the pattern finds, 0.5 when it finds none,
    a tier of the fallback when the gateway raises. *)
Theorem priority_is_a_fraction
        (self : TaskAnalyzer) (task_title task_description : string)
        (context_data : option (list ContextProcessor.Context)) (w : World) :
  exists q w',
    analyze_task_priority self task_title task_description context_data w
    = (Ok q, w')
    /\ (0 <= q <= 1)%Q
    /\ match Gateway.analyze_with_ai
               (ai_client self)
               (priority_prompt task_title task_description context_data)
               100 w with
       | (Ok result, _) =>
           match Re.findall decimal_pattern result with
           | first :: _ => float_of_decimal first = Some q
           | [] => q = lit 0.5
           end
       | (Raised _, _) =>
           q = _calculate_fallback_priority task_title task_description
       end.
Proof.
  destruct (Gateway.analyze_with_ai _ _ _ w) as [[result | e] w1] eqn:E.
  - destruct (priority_of_answer _ _ _ _ _ _ _ E) as (q & H & Hr & Hm).
    now exists q, w1.
  - exists (_calculate_fallback_priority task_title task_description), w1.
    split; [now apply TaskFacts.analyze_task_priority_raised with (e := e)|].
    split; [apply fallback_priority_range | reflexivity].
Qed.

Lemma str_in_false (sub s : string) : ~ Contains sub s -> str_in sub s = false.
Proof.
  intros H. destruct (str_in sub s) eqn:E; [|reflexivity].
  apply str_in_spec in E. contradiction.
Qed.

Lemma lines_contain (sub x : string) (l : list string) :
  In x l -> Contains sub (lower x) -> Contains sub (lower (Text.lines l)).
Proof.
  intros Hin Hx. induction l as [|y l IH]; [contradiction|].
  destruct l as [|z l].
  - destruct Hin as [<- | []]. exact Hx.
  - change (Text.lines (y :: z :: l))
      with (y +:+ Text.nl +:+ Text.lines (z :: l)).
    rewrite !lower_app. destruct Hin as [<- | Hin].
    + now apply Contains_app_l.
    + apply Contains_app_r, Contains_app_r, IH, Hin.
Qed.

Lemma tags_prompt_mentions_tags (title description : string) :
  str_in "tags" (lower (tags_prompt title description)) = true.
Proof.
  apply str_in_spec. unfold tags_prompt.
  apply lines_contain
    with (x := Text.indent8 +:+ "Suggest 3-5 relevant tags for this task:");
    [simpl; tauto|].
  apply str_in_spec. vm_compute. reflexivity.
Qed.

Lemma category_prompt_mentions_category
      (title description : string) (existing : option (list string)) :
  str_in "category" (lower (category_prompt title description existing)) = true.
Proof.
  apply str_in_spec. unfold category_prompt.
  apply lines_contain
    with (x := Text.indent8
               +:+ "Suggest the most appropriate category for this task:");
    [simpl; tauto|].
  apply str_in_spec. vm_compute. reflexivity.
Qed.

(** The answer of the gateway of the repository when the primary
    endpoint is down and the fallback text is not the sentinel. *)
Lemma down_answer (client : AIClient.AIClient) (prompt : string)
      (max_tokens : Z) (w : World) :
  lm_failed (lm_studio w (length (requests w)) prompt max_tokens) ->
  fallback_string prompt (wall_clock w (clock_reads w)) <> AIClient.unavailable
  \/ AIClient.truthy (AIClient.openai_key client) = false
  \/ all_down w ->
  exists w1,
    AIClient.analyze_with_ai client prompt max_tokens w
    = (Ok (fallback_string prompt (wall_clock w (clock_reads w))), w1).
Proof.
  intros Hf Hc. apply GatewayFacts.analyze_with_ai_down; [exact Hf|].
  intros Hin. destruct Hc as [Hc | Hc]; [|exact Hc].
  apply GatewayFacts.unavailable_in_fallback in Hin. contradiction.
Qed.

(** X12. With the primary endpoint down, a task whose title or
    description contains "priority" gets the answer "0.7" to the
    deadline prompt too, and [suggest_deadline] reads its first integer,
    0: the suggested deadline is the present moment. *)
Theorem deadline_of_a_priority_task_is_now
        (client : AIClient.AIClient) (task_title task_description : string)
        (current_workload : Z) (w : World) :
  let prompt := deadline_prompt task_title task_description current_workload in
  lm_failed (lm_studio w (length (requests w)) prompt 100) ->
  Contains "priority" (lower task_title)
  \/ Contains "priority" (lower task_description) ->
  exists w1,
    AIClient.analyze_with_ai client prompt 100 w = (Ok "0.7", w1)
    /\ suggest_deadline (__init__ (Gateway.of_client client))
                        task_title task_description current_workload w
       = (Ok (add_days (wall_clock w1 (clock_reads w1)) 0), tick w1).
Proof.
  intros prompt Hf Hp.
  assert (Hin : str_in "priority" (lower prompt) = true).
  { apply str_in_spec. subst prompt. unfold deadline_prompt.
    destruct Hp as [Hp | Hp].
    - apply lines_contain with (x := Text.indent8 +:+ "Task: " +:+ task_title);
        [simpl; tauto|].
      rewrite !lower_app. now apply Contains_app_r, Contains_app_r.
    - apply lines_contain
        with (x := Text.indent8 +:+ "Description: " +:+ task_description);
        [simpl; tauto|].
      rewrite !lower_app. now apply Contains_app_r, Contains_app_r. }
  assert (Hfb : fallback_string prompt (wall_clock w (clock_reads w)) = "0.7")
    by (unfold fallback_string; now rewrite Hin).
  destruct (down_answer client prompt 100 w Hf) as (w1 & H1).
  { left. rewrite Hfb. discriminate. }
  rewrite Hfb in H1. exists w1. split; [exact H1|].
  pose proof (TaskFacts.deadline_of_answer
                (__init__ (Gateway.of_client client))
                task_title task_description current_workload w w1 "0.7" H1)
    as Hm.
  change (Re.findall integer_pattern "0.7") with ["0"; "7"] in Hm.
  cbv beta iota in Hm.
  change (int_max_str_digits <? Z.of_nat (String.length "0")) with false in Hm.
  destruct Hm as (n & Hn & _ & Hd).
  change (int_of_digits "0") with (Some 0) in Hn. injection Hn as <-.
  exact Hd.
Qed.

Lemma deadline_of_a_priority_task_witness :
  lm_failed (lm_studio Examples.offline (length (requests Examples.offline))
                       (deadline_prompt "Set the priority list" "" 5) 100)
  /\ (Contains "priority" (lower "Set the priority list")
      \/ Contains "priority" (lower ""))
  /\ exists w1,
      AIClient.analyze_with_ai
        Examples.no_key (deadline_prompt "Set the priority list" "" 5)
        100 Examples.offline
      = (Ok "0.7", w1)
      /\ suggest_deadline Examples.analyzer "Set the priority list" "" 5
                          Examples.offline
         = (Ok (add_days (wall_clock w1 (clock_reads w1)) 0), tick w1).
Proof.
  assert (H : Contains "priority" (lower "Set the priority list")
              \/ Contains "priority" (lower ""))
    by (left; apply str_in_spec; reflexivity).
  split; [exact I|]. split; [exact H|].
  exact (deadline_of_a_priority_task_is_now
           Examples.no_key "Set the priority list" "" 5 Examples.offline I H).
Defined.

(** X13. With the primary endpoint down and a deadline prompt without
    "priority", the gateway answers with the date three days ahead, and
    [suggest_deadline] takes the year of that date for the number of
    days: for a clock from the year 30 on, up to three days before
    [datetime.max], it returns now plus 30 days for every task. *)
Theorem deadline_is_30_days_when_down
        (client : AIClient.AIClient) (task_title task_description : string)
        (current_workload : Z) (w : World) :
  let prompt := deadline_prompt task_title task_description current_workload in
  let t := wall_clock w (clock_reads w) in
  lm_failed (lm_studio w (length (requests w)) prompt 100) ->
  ~ Contains "priority" (lower prompt) ->
  10590 <= ordinal t <= 3652056 ->
  exists w1,
    AIClient.analyze_with_ai client prompt 100 w
    = (Ok (strftime_Ymd (add_days t 3)), w1)
    /\ suggest_deadline (__init__ (Gateway.of_client client))
                        task_title task_description current_workload w
       = (Ok (add_days (wall_clock w1 (clock_reads w1)) 30), tick w1).
Proof.
  intros prompt t Hf Hp Ht.
  assert (Hfb : fallback_string prompt t = strftime_Ymd (add_days t 3)).
  { unfold fallback_string.
    destruct (str_in "priority" (lower prompt)) eqn:E1;
      [apply str_in_spec in E1; contradiction|].
    subst prompt. now rewrite TaskFacts.deadline_prompt_mentions_deadline. }
  destruct (down_answer client prompt 100 w Hf) as (w1 & H1).
  { left. fold t. rewrite Hfb. intros E.
    pose proof (DatetimeFacts.strftime_not_unavailable (add_days t 3)) as Hn.
    rewrite E in Hn. discriminate. }
  fold t in H1. rewrite Hfb in H1. exists w1. split; [exact H1|].
  pose proof (TaskFacts.deadline_of_answer
                (__init__ (Gateway.of_client client))
                task_title task_description current_workload w w1 _ H1)
    as Hm.
  destruct (DigitFacts.deadline_text_starts_with_year (add_days t 3))
    as (y & l & _ & Hy & first & Hfirst & Hint); [simpl; lia|].
  unfold integer_pattern in Hm. rewrite Hfirst in Hm.
  destruct (int_max_str_digits <? Z.of_nat (String.length first)) eqn:El.
  { unfold int_of_digits in Hint. rewrite El in Hint. discriminate. }
  destruct Hm as (n & Hn & _ & Hd). rewrite Hint in Hn. injection Hn as <-.
  now rewrite Z.min_r in Hd by lia.
Qed.

Lemma deadline_is_30_days_witness :
  lm_failed (lm_studio Examples.offline (length (requests Examples.offline))
                       (deadline_prompt "Buy milk" "please do this asap" 5) 100)
  /\ ~ Contains "priority"
        (lower (deadline_prompt "Buy milk" "please do this asap" 5))
  /\ 10590 <= ordinal (wall_clock Examples.offline (clock_reads Examples.offline))
     <= 3652056
  /\ exists w1,
      AIClient.analyze_with_ai
        Examples.no_key (deadline_prompt "Buy milk" "please do this asap" 5)
        100 Examples.offline
      = (Ok (strftime_Ymd (add_days Examples.morning 3)), w1)
      /\ suggest_deadline Examples.analyzer "Buy milk" "please do this asap" 5
                          Examples.offline
         = (Ok (add_days (wall_clock w1 (clock_reads w1)) 30), tick w1).
Proof.
  assert (Hp : ~ Contains "priority"
                 (lower (deadline_prompt "Buy milk" "please do this asap" 5))).
  { rewrite <- str_in_spec. vm_compute. discriminate. }
  assert (Ht : 10590 <= ordinal (wall_clock Examples.offline
                                            (clock_reads Examples.offline))
               <= 3652056)
    by (vm_compute; split; discriminate).
  split; [exact I|]. split; [exact Hp|]. split; [exact Ht|].
  exact (deadline_is_30_days_when_down
           Examples.no_key "Buy milk" "please do this asap" 5
           Examples.offline I Hp Ht).
Defined.

(** X14. With the primary endpoint down and a tags prompt without
    "priority", "deadline" and "category", [suggest_tags] returns the two
    tags "task" and "general" for every task: the keyword rules of the
    fallback play no part. *)
Theorem tags_are_generic_when_down
        (client : AIClient.AIClient) (task_title task_description : string)
        (w : World) :
  let prompt := tags_prompt task_title task_description in
  lm_failed (lm_studio w (length (requests w)) prompt 100) ->
  ~ Contains "priority" (lower prompt) ->
  ~ Contains "deadline" (lower prompt) ->
  ~ Contains "category" (lower prompt) ->
  exists w1,
    suggest_tags (__init__ (Gateway.of_client client))
                 task_title task_description w
    = (Ok ["task"; "general"], w1).
Proof.
  intros prompt Hf Hp Hd Hc.
  assert (Hfb : fallback_string prompt (wall_clock w (clock_reads w))
                = "task, general").
  { unfold fallback_string.
    rewrite (str_in_false _ _ Hp), (str_in_false _ _ Hd), (str_in_false _ _ Hc).
    subst prompt. now rewrite tags_prompt_mentions_tags. }
  destruct (down_answer client prompt 100 w Hf) as (w1 & H1).
  { left. rewrite Hfb. discriminate. }
  rewrite Hfb in H1. exists w1.
  unfold suggest_tags. run_unfold.
  cbn [Gateway.analyze_with_ai ai_client __init__ Gateway.of_client].
  fold prompt. now rewrite H1.
Qed.

Lemma tags_are_generic_witness :
  lm_failed (lm_studio Examples.offline (length (requests Examples.offline))
                       (tags_prompt "URGENT meeting" "at the office") 100)
  /\ exists w1,
      suggest_tags Examples.analyzer "URGENT meeting" "at the office"
                   Examples.offline
      = (Ok ["task"; "general"], w1).
Proof.
  split; [exact I|].
  apply (tags_are_generic_when_down
           Examples.no_key "URGENT meeting" "at the office" Examples.offline I);
    rewrite <- str_in_spec; vm_compute; discriminate.
Defined.

(** X15. With the primary endpoint down, no answer from the secondary
    provider (no key, or no service at all) and a prompt without the
    four words of the fallback, [enhance_task_description] returns the
    sentinel of the gateway as the description, not the original one. *)
Theorem description_is_the_sentinel_when_down
        (client : AIClient.AIClient) (task_title original_description : string)
        (relevant : option (list ContextProcessor.Match)) (w : World) :
  let prompt := enhance_prompt task_title original_description relevant in
  lm_failed (lm_studio w (length (requests w)) prompt 300) ->
  AIClient.truthy (AIClient.openai_key client) = false \/ all_down w ->
  plain_prompt prompt ->
  exists w1,
    enhance_task_description (__init__ (Gateway.of_client client))
                             task_title original_description relevant w
    = (Ok "Analysis unavailable - using defaults", w1).
Proof.
  intros prompt Hf Hk (Hp & Hd & Hc & Ht).
  assert (Hfb : fallback_string prompt (wall_clock w (clock_reads w))
                = AIClient.unavailable).
  { unfold fallback_string.
    now rewrite (str_in_false _ _ Hp), (str_in_false _ _ Hd),
      (str_in_false _ _ Hc), (str_in_false _ _ Ht). }
  destruct (down_answer client prompt 300 w Hf) as (w1 & H1); [now right|].
  rewrite Hfb in H1. exists w1.
  unfold enhance_task_description. run_unfold.
  cbn [Gateway.analyze_with_ai ai_client __init__ Gateway.of_client].
  fold prompt. now rewrite H1.
Qed.

Lemma description_is_the_sentinel_witness :
  lm_failed (lm_studio Examples.offline (length (requests Examples.offline))
                       (enhance_prompt "Buy milk" "two litres" None) 300)
  /\ (AIClient.truthy (AIClient.openai_key Examples.no_key) = false
      \/ all_down Examples.offline)
  /\ exists w1,
      enhance_task_description Examples.analyzer "Buy milk" "two litres" None
                               Examples.offline
      = (Ok "Analysis unavailable - using defaults", w1).
Proof.
  split; [exact I|]. split; [now left|].
  apply (description_is_the_sentinel_when_down
           Examples.no_key "Buy milk" "two litres" None Examples.offline I);
    [now left|].
  repeat split; rewrite <- str_in_spec; vm_compute; discriminate.
Defined.

(** X16. The fallback category is always one of seven names. The
    fallbacks agree on meetings: when the lower-cased text "title
    description" contains "meeting" or "call", the fallback category is
    "Meetings" whatever else the text contains, the fallback tags contain
    "meeting", and the fallback priority is at least 0.6. *)
Theorem meeting_words_drive_the_fallbacks (title description : string) :
  In (_suggest_fallback_category title description)
     ["Meetings"; "Development"; "Communication"; "Shopping"; "Health";
      "Personal"; "General"]
  /\ (Mentions ["meeting"; "call"] (lower (title +:+ " " +:+ description)) ->
      _suggest_fallback_category title description = "Meetings"
      /\ In "meeting" (_suggest_fallback_tags title description)
      /\ (0.6 <= _calculate_fallback_priority title description)%Q).
Proof.
  set (text := lower (title +:+ " " +:+ description)). split.
  { unfold _suggest_fallback_category. fold text.
    repeat match goal with
           | |- context [any_in ?ws text] => destruct (any_in ws text)
           end; simpl; tauto. }
  intros H.
  assert (Hor : str_in "meeting" text || str_in "call" text = true).
  { destruct H as (word & [<- | [<- | []]] & Hc); apply str_in_spec in Hc;
      rewrite Hc; [reflexivity | apply orb_true_r]. }
  assert (H1 : any_in ["meeting"; "call"; "discuss"] text = true).
  { unfold any_in. simpl existsb. rewrite orb_assoc, Hor. reflexivity. }
  assert (H2 : any_in ["meeting"; "call"] text = true).
  { unfold any_in. simpl existsb. now rewrite orb_false_r. }
  assert (H3 : any_in ["meeting"; "call"; "presentation"] text = true).
  { unfold any_in. simpl existsb. rewrite orb_assoc, Hor. reflexivity. }
  unfold _suggest_fallback_category, _suggest_fallback_tags,
    _calculate_fallback_priority. fold text. rewrite H1, H2, H3.
  split; [reflexivity|]. split.
  - destruct (any_in ["urgent"; "asap"; "critical"] text);
      repeat match goal with
             | |- context [any_in ?ws text] => destruct (any_in ws text)
             end; simpl; tauto.
  - repeat match goal with
           | |- context [any_in ?ws text] => destruct (any_in ws text)
           end; discriminate.
Qed.

Lemma meeting_words_witness :
  Mentions ["meeting"; "call"] (lower ("Call the bank" +:+ " " +:+ "about the bug"))
  /\ _suggest_fallback_category "Call the bank" "about the bug" = "Meetings".
Proof.
  assert (H : Mentions ["meeting"; "call"]
                       (lower ("Call the bank" +:+ " " +:+ "about the bug"))).
  { exists "call". split; [simpl; tauto|]. apply str_in_spec. reflexivity. }
  split; [exact H|].
  exact (proj1 (proj2 (meeting_words_drive_the_fallbacks
                         "Call the bank" "about the bug") H)).
Defined.

Lemma priority_ok
      (self : TaskAnalyzer) (task_title task_description : string)
      (context_data : option (list ContextProcessor.Context)) (w : World) :
  exists q w',
    analyze_task_priority self task_title task_description context_data w
    = (Ok q, w')
    /\ (0 <= q <= 1)%Q.
Proof.
  destruct (Gateway.analyze_with_ai
              (ai_client self)
              (priority_prompt task_title task_description context_data) 100 w)
    as [[result | e] w1] eqn:E.
  - destruct (priority_of_answer _ _ _ _ _ _ _ E) as (q & H & Hr & _).
    now exists q, w1.
  - exists (_calculate_fallback_priority task_title task_description), w1.
    split; [now apply TaskFacts.analyze_task_priority_raised with (e := e)|].
    apply fallback_priority_range.
Qed.

Lemma deadline_ok
      (self : TaskAnalyzer) (task_title task_description : string)
      (current_workload : Z) (w : World) :
  exists r w1 d,
    Gateway.analyze_with_ai
      (ai_client self)
      (deadline_prompt task_title task_description current_workload) 100 w
    = (r, w1)
    /\ suggest_deadline self task_title task_description current_workload w
       = (Ok (add_days (wall_clock w1 (clock_reads w1)) d), tick w1)
    /\ 0 <= d <= 30.
Proof.
  destruct (Gateway.analyze_with_ai
              (ai_client self)
              (deadline_prompt task_title task_description current_workload)
              100 w) as [[result | e] w1] eqn:E.
  - exists (Ok result), w1.
    pose proof (TaskFacts.deadline_of_answer _ _ _ _ _ _ _ E) as H.
    destruct (Re.findall integer_pattern result) as [|first l].
    + exists 3. split; [reflexivity|]. split; [exact H | lia].
    + destruct (int_max_str_digits <? Z.of_nat (String.length first)).
      * destruct (TaskFacts.fallback_deadline_days task_description w1)
          as (d & Hd & Hc).
        exists d. split; [reflexivity|]. split; [now rewrite H | lia].
      * destruct H as (n & _ & Hn & H). exists (Z.min n 30).
        split; [reflexivity|]. split; [exact H | lia].
  - exists (Raised e), w1.
    destruct (TaskFacts.fallback_deadline_days task_description w1)
      as (d & Hd & Hc).
    exists d. split; [reflexivity|]. split; [|lia].
    unfold suggest_deadline. run_unfold. now rewrite E.
Qed.

Lemma split_on_length (sep : ascii) (s : string) :
  (1 <= length (split_on sep s))%nat.
Proof.
  destruct s as [|c r]; simpl; [lia|].
  destruct (Ascii.eqb c sep); [simpl; lia|].
  destruct (split_on sep r); simpl; lia.
Qed.

Lemma tags_ok (self : TaskAnalyzer) (task_title task_description : string)
      (w : World) :
  exists tags w',
    suggest_tags self task_title task_description w = (Ok tags, w')
    /\ (1 <= length tags <= 5)%nat.
Proof.
  unfold suggest_tags. run_unfold.
  destruct (Gateway.analyze_with_ai _ _ _ w) as [[result | e] w1].
  - eexists _, w1. split; [reflexivity|].
    rewrite length_take, length_map.
    pose proof (split_on_length "," result). lia.
  - eexists _, w1. split; [reflexivity|].
    unfold _suggest_fallback_tags.
    repeat match goal with
           | |- context [any_in ?ws ?t] => destruct (any_in ws t)
           end; simpl; lia.
Qed.

Section Interpreter.
Variable set_order : gset string -> list string.
Variable str_title : string -> string.

(** X17. With the client of the repository the gateway returns a text
    to each of the five operations, and the [except] branches of the
    priority, the category, the tags and the description are never
    taken: these are read from that text.  The [except] branch of
    [suggest_deadline] is taken in one case only, when the first integer
    of the text has more than 4300 digits, on which [int] raises;
    otherwise the deadline is read from the text too. *)
Theorem only_a_long_integer_reaches_a_fallback
        (client : AIClient.AIClient) (task_title task_description : string)
        (context_data : option (list ContextProcessor.Context))
        (existing_categories : option (list string))
        (relevant : option (list ContextProcessor.Match))
        (current_workload : Z) (w : World) :
  let self := __init__ (Gateway.of_client client) in
  (exists s w1 q,
      AIClient.analyze_with_ai
        client (priority_prompt task_title task_description context_data) 100 w
      = (Ok s, w1)
      /\ analyze_task_priority self task_title task_description context_data w
         = (Ok q, w1)
      /\ match Re.findall decimal_pattern s with
         | first :: _ => float_of_decimal first = Some q
         | [] => q = lit 0.5
         end)
  /\ (exists s w1,
        AIClient.analyze_with_ai
          client (deadline_prompt task_title task_description current_workload)
          100 w
        = (Ok s, w1)
        /\ match Re.findall integer_pattern s with
           | first :: _ =>
               if int_max_str_digits <? Z.of_nat (String.length first)
               then suggest_deadline self task_title task_description
                                     current_workload w
                    = _calculate_fallback_deadline task_description w1
               else exists n,
                   int_of_digits first = Some n /\ 0 <= n
                   /\ suggest_deadline self task_title task_description
                                       current_workload w
                      = (Ok (add_days (wall_clock w1 (clock_reads w1))
                                      (Z.min n 30)),
                         tick w1)
           | [] =>
               suggest_deadline self task_title task_description
                                current_workload w
               = (Ok (add_days (wall_clock w1 (clock_reads w1)) 3), tick w1)
           end)
  /\ (exists s w1,
        AIClient.analyze_with_ai
          client (category_prompt task_title task_description existing_categories)
          50 w
        = (Ok s, w1)
        /\ suggest_category str_title self task_title task_description
                            existing_categories w
           = (Ok (str_title (strip s)), w1))
  /\ (exists s w1,
        AIClient.analyze_with_ai
          client (tags_prompt task_title task_description) 100 w
        = (Ok s, w1)
        /\ suggest_tags self task_title task_description w
           = (Ok (take 5 (List.map (fun tag => lower (strip tag))
                                   (split_on "," s))), w1))
  /\ (exists s w1,
        AIClient.analyze_with_ai
          client (enhance_prompt task_title task_description relevant) 300 w
        = (Ok s, w1)
        /\ enhance_task_description self task_title task_description relevant w
           = (Ok (strip s), w1)).
Proof.
  intros self. repeat split.
  - destruct (GatewayFacts.analyze_with_ai_ok
                client (priority_prompt task_title task_description context_data)
                100 w) as (s & w1 & H).
    destruct (priority_of_answer self _ _ _ _ _ _ H) as (q & Hq & _ & Hm).
    now exists s, w1, q.
  - destruct (GatewayFacts.analyze_with_ai_ok
                client
                (deadline_prompt task_title task_description current_workload)
                100 w) as (s & w1 & H).
    exists s, w1. split; [exact H|].
    exact (TaskFacts.deadline_of_answer self _ _ _ _ _ _ H).
  - destruct (GatewayFacts.analyze_with_ai_ok
                client
                (category_prompt task_title task_description existing_categories)
                50 w) as (s & w1 & H).
    exists s, w1. split; [exact H|].
    unfold suggest_category. run_unfold.
    cbn [Gateway.analyze_with_ai ai_client self __init__ Gateway.of_client].
    now rewrite H.
  - destruct (GatewayFacts.analyze_with_ai_ok
                client (tags_prompt task_title task_description) 100 w)
      as (s & w1 & H).
    exists s, w1. split; [exact H|].
    unfold suggest_tags. run_unfold.
    cbn [Gateway.analyze_with_ai ai_client self __init__ Gateway.of_client].
    now rewrite H.
  - destruct (GatewayFacts.analyze_with_ai_ok
                client (enhance_prompt task_title task_description relevant)
                300 w) as (s & w1 & H).
    exists s, w1. split; [exact H|].
    unfold enhance_task_description. run_unfold.
    cbn [Gateway.analyze_with_ai ai_client self __init__ Gateway.of_client].
    now rewrite H.
Qed.


End Interpreter.

End TaskExtras.

(** ** The context analyzer and the views *)

Module ViewsFacts.
Import Py Spec Notions PyFacts CharFacts Run.

Ltac run_unfold := GatewayFacts.run_unfold.

Lemma ai_prompt_mentions_priority (content source_type : string) :
  str_in "priority" (lower (ContextProcessor.ai_prompt content source_type))
  = true.
Proof.
  apply str_in_spec. unfold ContextProcessor.ai_prompt.
  apply TaskExtras.lines_contain
    with (x := Text.indent12 +:+ "3. Priority level (1-10)");
    [simpl; tauto|].
  apply str_in_spec. vm_compute. reflexivity.
Qed.

Lemma split_on_app (sep : ascii) (x rest : string) :
  all_chars (fun c => negb (Ascii.eqb c sep)) x = true ->
  split_on sep (x +:+ String sep rest) = x :: split_on sep rest.
Proof.
  induction x as [|c x IH]; intros H.
  - change (EmptyString +:+ String sep rest) with (String sep rest).
    cbn [split_on]. now rewrite Ascii.eqb_refl.
  - cbn [all_chars] in H. apply andb_true_iff in H as [Hc Hx].
    apply negb_true_iff in Hc.
    rewrite app_cons. cbn [split_on]. now rewrite Hc, IH.
Qed.

(** [",".join(l).split(",")] gives [l] back when no element has a comma. *)
Lemma split_on_join (l : list string) :
  l <> [] -> Forall (fun x => comma_free x = true) l ->
  split_on "," (join "," l) = l.
Proof.
  intros Hne Hall. induction Hall as [|x l Hx Hall IH]; [contradiction|].
  destruct l as [|y l].
  - apply ReExtras.split_on_absent. exact Hx.
  - change (join "," (x :: y :: l)) with (x +:+ String "," (join "," (y :: l))).
    rewrite split_on_app by exact Hx. f_equal. now apply IH.
Qed.

Lemma join_empty (x : string) (l : list string) :
  join "," (x :: l) = EmptyString -> x = EmptyString /\ l = [].
Proof.
  destruct l as [|y l]; [cbn [join]; now intros ->|].
  change (join "," (x :: y :: l)) with (x +:+ String "," (join "," (y :: l))).
  destruct x; discriminate.
Qed.

Lemma word_chars_comma_free (k : string) :
  all_chars isword k = true -> comma_free k = true.
Proof.
  apply all_chars_impl. intros c Hc.
  destruct c as [[] [] [] [] [] [] [] []]; try reflexivity; discriminate.
Qed.

Lemma split_on_comma_free (s : string) :
  Forall (fun t => comma_free t = true) (split_on "," s).
Proof.
  induction s as [|c s IH]; cbn [split_on].
  - now repeat constructor.
  - destruct (Ascii.eqb c ",") eqn:E.
    + now constructor.
    + destruct (split_on "," s) as [|f fs].
      * repeat constructor. unfold comma_free. cbn [all_chars]. now rewrite E.
      * inversion IH as [|? ? Hf Hfs]; subst. constructor; [|exact Hfs].
        unfold comma_free in *. cbn [all_chars]. now rewrite E, Hf.
Qed.

Lemma all_chars_lstrip (P : ascii -> bool) (s : string) :
  all_chars P s = true -> all_chars P (lstrip s) = true.
Proof.
  induction s as [|c s IH]; [easy|].
  intros H. cbn [lstrip]. destruct (isspace c); [|exact H].
  cbn [all_chars] in H. apply andb_true_iff in H as [_ Hs]. now apply IH.
Qed.

Lemma all_chars_rstrip (P : ascii -> bool) (s : string) :
  all_chars P s = true -> all_chars P (rstrip s) = true.
Proof.
  induction s as [|c s IH]; [easy|].
  intros H. cbn [all_chars] in H. apply andb_true_iff in H as [Hc Hs].
  specialize (IH Hs). cbn [rstrip].
  destruct (rstrip s) as [|a r].
  - destruct (isspace c); [reflexivity|]. cbn [all_chars]. now rewrite Hc.
  - change (all_chars P (String c (String a r)))
      with (P c && all_chars P (String a r)).
    now rewrite Hc, IH.
Qed.

Lemma comma_free_lower (s : string) :
  comma_free s = true -> comma_free (lower s) = true.
Proof.
  unfold comma_free. induction s as [|c s IH]; [easy|].
  cbn [lower all_chars]. intros H. apply andb_true_iff in H as [Hc Hs].
  now rewrite eqb_comma_lower_char, Hc, IH.
Qed.

Lemma lstrip_lower (s : string) : lstrip (lower s) = lower (lstrip s).
Proof.
  induction s as [|c s IH]; [reflexivity|].
  cbn [lower lstrip]. rewrite isspace_lower_char.
  destruct (isspace c); [exact IH | reflexivity].
Qed.

Lemma rstrip_lower (s : string) : rstrip (lower s) = lower (rstrip s).
Proof.
  induction s as [|c s IH]; [reflexivity|].
  cbn [lower rstrip]. rewrite IH, isspace_lower_char.
  destruct (rstrip s); cbn [lower]; [destruct (isspace c)|]; reflexivity.
Qed.

Lemma strip_lower (s : string) : strip (lower s) = lower (strip s).
Proof. unfold strip. now rewrite lstrip_lower, rstrip_lower. Qed.

Lemma rstrip_idem (s : string) : rstrip (rstrip s) = rstrip s.
Proof.
  induction s as [|c s IH]; [reflexivity|].
  cbn [rstrip]. destruct (rstrip s) as [|a r] eqn:E.
  - destruct (isspace c) eqn:Ec; [reflexivity|].
    cbn [rstrip]. now rewrite Ec.
  - change (rstrip (String c (String a r)))
      with (match rstrip (String a r) with
            | EmptyString =>
                if isspace c then EmptyString else String c EmptyString
            | String _ _ as r' => String c r'
            end).
    now rewrite IH.
Qed.

Lemma lstrip_head (s : string) :
  lstrip s = EmptyString
  \/ exists c r, lstrip s = String c r /\ isspace c = false.
Proof.
  induction s as [|c s IH]; [now left|].
  cbn [lstrip]. destruct (isspace c) eqn:E; [exact IH|].
  right. now exists c, s.
Qed.

(** [s.strip().strip()] is [s.strip()]. *)
Lemma strip_idem (s : string) : strip (strip s) = strip s.
Proof.
  unfold strip. destruct (lstrip_head s) as [-> | (c & r & -> & Hc)];
    [reflexivity|].
  assert (H : lstrip (rstrip (String c r)) = rstrip (String c r)).
  { cbn [rstrip]. destruct (rstrip r); rewrite ?Hc; cbn [lstrip];
      now rewrite Hc. }
  rewrite H. apply rstrip_idem.
Qed.

(** The text that [','.join] makes of tags without commas and without
    white space around them is read back by [get_tags_list] as the tags
    that are not empty. *)
Lemma get_tags_list_join (tags : list string) :
  tags <> [] ->
  Forall (fun t => comma_free t = true /\ strip t = t) tags ->
  Serializers.get_tags_list (join "," tags) = List.filter nonempty tags.
Proof.
  intros Hne Hall. unfold Serializers.get_tags_list.
  destruct (join "," tags) eqn:Ej.
  - destruct tags as [|x l]; [contradiction|].
    apply join_empty in Ej as [-> ->]. reflexivity.
  - rewrite <- Ej, split_on_join;
      [|exact Hne | eapply Forall_impl; [exact Hall | now intros ? []]].
    f_equal. clear Ej Hne.
    induction Hall as [|x l [_ Hx] _ IH]; [reflexivity|].
    cbn [List.map]. now rewrite Hx, IH.
Qed.

(** The tags of [suggest_tags] have no comma and no white space around
    them, whatever the gateway does. *)
Lemma suggested_tags_storable
      (self : TaskAnalyzer.TaskAnalyzer) (task_title task_description : string)
      (tags : list string) (w w' : World) :
  TaskAnalyzer.suggest_tags self task_title task_description w = (Ok tags, w') ->
  tags <> []
  /\ Forall (fun t => comma_free t = true /\ strip t = t) tags.
Proof.
  unfold TaskAnalyzer.suggest_tags. run_unfold.
  destruct (Gateway.analyze_with_ai _ _ _ w) as [[result | e] w1];
    intros H; injection H as <- <-.
  - split.
    + pose proof (TaskExtras.split_on_length "," result) as Hl.
      destruct (split_on "," result); [simpl in Hl; lia | discriminate].
    + apply Forall_take, List.Forall_map.
      eapply Forall_impl; [apply split_on_comma_free|].
      intros t Ht. cbv beta. split.
      * apply comma_free_lower. unfold strip, comma_free.
        now apply all_chars_rstrip, all_chars_lstrip.
      * now rewrite strip_lower, strip_idem.
  - unfold TaskAnalyzer._suggest_fallback_tags.
    repeat match goal with
           | |- context [any_in ?ws ?t] => destruct (any_in ws t)
           end; (split; [discriminate | now repeat constructor]).
Qed.

Section Analysis.
Variable set_order : gset string -> list string.
Variable str_title : string -> string.

(** The five calls of [get_comprehensive_task_analysis], one after the
    other, and the record made of their results. *)
Lemma comprehensive_steps
      (self : TaskAnalyzer.TaskAnalyzer) (task_title task_description : string)
      (context_entries : option (list ContextProcessor.Context))
      (existing_categories : option (list string))
      (current_workload : Z) (w : World) :
  exists q w1 tags w3 w4 a w',
    TaskAnalyzer.analyze_task_priority
      self task_title task_description context_entries w = (Ok q, w1)
    /\ TaskAnalyzer.suggest_tags self task_title task_description w3
       = (Ok tags, w4)
    /\ TaskAnalyzer.get_comprehensive_task_analysis
         set_order str_title self task_title task_description
         context_entries existing_categories current_workload w = (Ok a, w')
    /\ TaskAnalyzer.priority_score a = q
    /\ TaskAnalyzer.suggested_tags a = tags.
Proof.
  unfold TaskAnalyzer.get_comprehensive_task_analysis. run_unfold.
  destruct (TaskExtras.priority_ok
              self task_title task_description context_entries w)
    as (q & w1 & Hq & _).
  destruct (TaskExtras.deadline_ok
              self task_title task_description current_workload w1)
    as (r & w2 & d & _ & Hd & _).
  assert (Hcat : exists c w3,
             TaskAnalyzer.suggest_category
               str_title self task_title task_description
               existing_categories (tick w2) = (Ok c, w3)).
  { unfold TaskAnalyzer.suggest_category. run_unfold.
    destruct (Gateway.analyze_with_ai _ _ _ (tick w2)) as [[result | e] w3];
      now eexists _, _. }
  destruct Hcat as (c & w3 & Hc).
  destruct (TaskExtras.tags_ok self task_title task_description w3)
    as (tags & w4 & Ht & _).
  exists q, w1, tags, w3, w4.
  rewrite Hq, Hd, Hc, Ht.
  match goal with
  | |- context [TaskAnalyzer.enhance_task_description ?s ?a ?b ?r w4] =>
      assert (Henh : exists e w5,
                 TaskAnalyzer.enhance_task_description s a b r w4 = (Ok e, w5))
  end.
  { unfold TaskAnalyzer.enhance_task_description. run_unfold.
    destruct (Gateway.analyze_with_ai _ _ _ w4) as [[result | e] w5];
      now eexists _, _. }
  destruct Henh as (e & w5 & ->).
  eexists _, (tick w5). repeat split; reflexivity.
Qed.

(** X19. With the primary endpoint down for the priority prompt, the
    analysis of every task has the priority score 0.7, which the view
    reports as the level HIGH. *)
Theorem priority_level_is_high_when_down
        (client : AIClient.AIClient) (task_title task_description : string)
        (context_entries : option (list ContextProcessor.Context))
        (existing_categories : option (list string))
        (current_workload : Z) (w : World) :
  lm_failed (lm_studio w (length (requests w))
               (TaskAnalyzer.priority_prompt
                  task_title task_description context_entries) 100) ->
  exists a w',
    TaskAnalyzer.get_comprehensive_task_analysis
      set_order str_title (TaskAnalyzer.__init__ (Gateway.of_client client))
      task_title task_description
      context_entries existing_categories current_workload w = (Ok a, w')
    /\ TaskAnalyzer.priority_score a = lit 0.7
    /\ Views._get_priority_level (TaskAnalyzer.priority_score a) = "HIGH".
Proof.
  intros Hf.
  destruct (comprehensive_steps
              (TaskAnalyzer.__init__ (Gateway.of_client client))
              task_title task_description context_entries
              existing_categories current_workload w)
    as (q & w1 & tags & w3 & w4 & a & w' & Hq & _ & Ha & Hs & _).
  destruct (TaskFacts.analyze_task_priority_primary_down
              client task_title task_description context_entries w Hf)
    as (w1' & Hq').
  rewrite Hq' in Hq. injection Hq as <- _.
  exists a, w'. split; [exact Ha|]. split; [exact Hs|].
  now rewrite Hs.
Qed.

(** X20. The tags of an analysis survive their storage as text: what
    [get_ai_suggested_tags_list] reads from [','.join(suggested_tags)] is
    the list of the suggested tags that are not empty, in their order,
    whatever the gateway answers. *)
Theorem suggested_tags_survive_storage
        (self : TaskAnalyzer.TaskAnalyzer) (task_title task_description : string)
        (context_entries : option (list ContextProcessor.Context))
        (existing_categories : option (list string))
        (current_workload : Z) (w : World) :
  exists a w',
    TaskAnalyzer.get_comprehensive_task_analysis
      set_order str_title self task_title task_description
      context_entries existing_categories current_workload w = (Ok a, w')
    /\ Serializers.get_tags_list (Serializers.ai_suggested_tags a)
       = List.filter nonempty (TaskAnalyzer.suggested_tags a).
Proof.
  destruct (comprehensive_steps
              self task_title task_description context_entries
              existing_categories current_workload w)
    as (q & w1 & tags & w3 & w4 & a & w' & _ & Ht & Ha & _ & Hs).
  exists a, w'. split; [exact Ha|].
  unfold Serializers.ai_suggested_tags. rewrite Hs.
  destruct (suggested_tags_storable _ _ _ _ _ _ Ht) as [Hne Hall].
  now apply get_tags_list_join.
Qed.

End Analysis.

Lemma priority_level_is_high_witness :
  lm_failed (lm_studio Examples.offline (length (requests Examples.offline))
               (TaskAnalyzer.priority_prompt "URGENT: fix this today" "now" None)
               100)
  /\ exists a w',
      TaskAnalyzer.get_comprehensive_task_analysis
        elements (fun s => s) Examples.analyzer
        "URGENT: fix this today" "now" None None 0 Examples.offline
      = (Ok a, w')
      /\ TaskAnalyzer.priority_score a = lit 0.7
      /\ Views._get_priority_level (TaskAnalyzer.priority_score a) = "HIGH".
Proof.
  split; [exact I|].
  exact (priority_level_is_high_when_down
           elements (fun s => s) Examples.no_key
           "URGENT: fix this today" "now" None None 0 Examples.offline I).
Defined.

Section Interpreter.
Variable set_order : gset string -> list string.
Variable json_loads : string -> Json.loads_result.

(** X21. With the primary endpoint down, the gateway answers "0.7" to
    the prompt of [process_context_entry] for every content, because the
    prompt itself contains "Priority level": the AI analysis of every
    entry is what [json.loads] makes of the text "0.7". *)
Theorem context_analysis_when_down
        (client : AIClient.AIClient) (content source_type : string) (w : World) :
  lm_failed (lm_studio w (length (requests w))
                       (ContextProcessor.ai_prompt content source_type) 500) ->
  exists insights w',
    ContextProcessor.process_context_entry
      set_order json_loads
      (ContextProcessor.__init__ (Gateway.of_client client))
      content source_type w
    = (Ok insights, w')
    /\ ContextProcessor.i_ai_analysis insights
       = match json_loads "0.7" with
         | Json.Parsed v => ContextProcessor.ai_insights v
         | Json.JSONDecodeError _ => ContextProcessor.raw_response "0.7"
         | Json.OtherError e => ContextProcessor.error e
         end.
Proof.
  intros Hf.
  destruct (TaskExtras.down_answer
              client (ContextProcessor.ai_prompt content source_type) 500 w Hf)
    as (w1 & H1).
  { left. unfold fallback_string. rewrite ai_prompt_mentions_priority.
    discriminate. }
  unfold fallback_string in H1. rewrite ai_prompt_mentions_priority in H1.
  unfold ContextProcessor.process_context_entry. run_unfold.
  cbn [Gateway.analyze_with_ai ContextProcessor.ai_client
         ContextProcessor.__init__ Gateway.of_client].
  rewrite H1.
  destruct (json_loads "0.7"); eexists _, w1; split; reflexivity.
Qed.

(** Python's [list(s)] lists the elements of the set [s], each once. *)
Hypothesis set_order_elements : forall s, set_order s ≡ₚ elements s.

(** X22. What [perform_create] stores is read back unchanged by the
    loop that prepares the context data: the content, the keywords of
    [extract_keywords] through their comma-separated text, the urgency
    level; and the sentiment score, except that a score of 0 is read back
    as 0.5. *)
Theorem stored_insights_are_read_back
        (processor : ContextProcessor.ContextProcessor)
        (context_entry : Views.ContextEntry) (w : World) :
  let text := Views.content context_entry in
  exists row w',
    Views.perform_create set_order json_loads processor context_entry w
    = (Ok row, w')
    /\ Views.context_data [row]
       = [ {| ContextProcessor.content := Some text;
              ContextProcessor.keywords :=
                Some (ContextProcessor.extract_keywords set_order text);
              ContextProcessor.urgency_level :=
                Some (ContextProcessor._calculate_urgency text);
              ContextProcessor.sentiment_score :=
                Some (if Qeq_bool (ContextProcessor.analyze_sentiment text) 0
                      then lit 0.5
                      else ContextProcessor.analyze_sentiment text) |} ].
Proof.
  intros text. unfold Views.perform_create. run_unfold.
  unfold ContextProcessor.process_context_entry. run_unfold.
  fold text.
  assert (Hks : match join "," (ContextProcessor.extract_keywords set_order text) with
                | EmptyString => []
                | String _ _ as k => split_on "," k
                end = ContextProcessor.extract_keywords set_order text).
  { destruct (FeatureExtras.extract_keywords_words
                set_order set_order_elements text) as (_ & _ & Hk & _).
    destruct (ContextProcessor.extract_keywords set_order text) as [|k ks] eqn:E;
      [reflexivity|].
    destruct (join "," (k :: ks)) eqn:Ej.
    - apply join_empty in Ej as [-> _].
      destruct (Hk EmptyString) as (_ & Hlen & _); [now left|].
      simpl in Hlen. lia.
    - rewrite <- Ej. apply split_on_join; [discriminate|].
      apply List.Forall_forall. intros x Hx.
      apply word_chars_comma_free. now apply Hk. }
  destruct (Gateway.analyze_with_ai _ _ _ w) as [[ai_response | e] w1];
    [destruct (json_loads ai_response)|];
    eexists _, w1; (split; [reflexivity|]);
    unfold Views.context_data;
    cbn -[join split_on ContextProcessor.extract_keywords
          ContextProcessor.analyze_sentiment
          ContextProcessor._calculate_urgency lit Qeq_bool];
    now rewrite Hks.
Qed.

End Interpreter.

Lemma context_analysis_when_down_witness :
  lm_failed (lm_studio Examples.offline (length (requests Examples.offline))
                       (ContextProcessor.ai_prompt "Lunch at noon" "EMAIL") 500)
  /\ exists insights w',
      ContextProcessor.process_context_entry
        elements (fun _ => Json.Parsed (Json.Number 0.7))
        (ContextProcessor.__init__ (Gateway.of_client Examples.no_key))
        "Lunch at noon" "EMAIL" Examples.offline
      = (Ok insights, w')
      /\ ContextProcessor.i_ai_analysis insights
         = ContextProcessor.ai_insights (Json.Number 0.7).
Proof.
  split; [exact I|].
  exact (context_analysis_when_down
           elements (fun _ => Json.Parsed (Json.Number 0.7))
           Examples.no_key "Lunch at noon" "EMAIL" Examples.offline I).
Defined.

Lemma stored_insights_witness :
  (forall s : gset string, elements s ≡ₚ elements s)
  /\ exists row w',
      Views.perform_create
        elements (fun _ => Json.Parsed (Json.Number 0.7))
        (ContextProcessor.__init__ (Gateway.of_client Examples.no_key))
        {| Views.content := "Urgent: budget review, team meeting";
           Views.source_type := "EMAIL";
           Views.processed_insights := None;
           Views.keywords := EmptyString;
           Views.sentiment_score := None;
           Views.priority_indicators := [] |}
        Examples.offline
      = (Ok row, w')
      /\ List.map ContextProcessor.sentiment_score (Views.context_data [row])
         = [Some (lit 0.5)].
Proof.
  split; [intros s; apply Permutation_refl|].
  destruct (stored_insights_are_read_back
              elements (fun _ => Json.Parsed (Json.Number 0.7))
              (fun s => Permutation_refl (elements s))
              (ContextProcessor.__init__ (Gateway.of_client Examples.no_key))
              {| Views.content := "Urgent: budget review, team meeting";
                 Views.source_type := "EMAIL";
                 Views.processed_insights := None;
                 Views.keywords := EmptyString;
                 Views.sentiment_score := None;
                 Views.priority_indicators := [] |}
              Examples.offline) as (row & w' & H & Hd).
  exists row, w'. split; [exact H|]. rewrite Hd. reflexivity.
Defined.

End ViewsFacts.
